(** * Steam-Version-Updater: depot and manifest extraction, search prompt,
      console command

    A shallow embedding of [lib/SteamClient.js] ([getGameDepots],
    [getOsType], [getDepotManifests]), [lib/SteamSearch.js]
    ([searchGames]) and [lib/CLI.js] ([getSearchTerm],
    [displayManifestDetails], [generateSteamCommand]), and the properties of
    the specification that concern them. *)

From Stdlib Require Import ZArith List String Ascii Bool Lia Permutation Sorted.
From Stdlib Require Import DecimalString.
Import ListNotations.
Local Open Scope string_scope.
Local Open Scope Z_scope.

(** ** JavaScript values

    Product information, search responses and the fields of the records the
    program builds are untyped JavaScript values.  Numbers are the integers
    (ids, sizes, epoch seconds); NaN only arises as the result of a
    conversion and is the [None] of [toNumber] and [parseInt].  An object is
    the list of its own properties in enumeration order (the order of
    [for ... in] and [Object.entries]); a lookup takes the first binding of a
    key.  Strings are sequences of ASCII characters. *)
#[warnings="-register-all"]
Inductive JsVal : Type :=
| JUndefined
| JNull
| JBool (b : bool)
| JNum (n : Z)
| JStr (s : string)
| JArr (elems : list JsVal)
| JObj (props : list (string * JsVal)).

(** The outcome of a computation that may throw. *)
Inductive Res (A : Type) : Type :=
| Ok (a : A)
| Throw (e : JsVal).
Arguments Ok {A} a.
Arguments Throw {A} e.

Definition bind {A B : Type} (r : Res A) (k : A -> Res B) : Res B :=
  match r with
  | Ok a => k a
  | Throw e => Throw e
  end.

Notation "x <- c ;; k" := (bind c (fun x => k))
  (at level 61, c at next level, right associativity).

(** [try { body } catch (error) { handler }] *)
Definition tryCatch {A : Type} (body : Res A) (handler : JsVal -> Res A) : Res A :=
  match body with
  | Ok a => Ok a
  | Throw e => handler e
  end.

Definition TypeError (msg : string) : JsVal :=
  JObj [("name", JStr "TypeError"); ("message", JStr msg)].

(** ** Strings *)
Module Str.

(** White space and line terminators of the ASCII range. *)
Definition isWhiteSpace (c : ascii) : bool :=
  let n := nat_of_ascii c in
  ((9 <=? n) && (n <=? 13))%nat || (n =? 32)%nat.

Definition isDigit (c : ascii) : bool :=
  let n := nat_of_ascii c in
  ((48 <=? n) && (n <=? 57))%nat.

Definition digitValue (c : ascii) : Z := Z.of_nat (nat_of_ascii c) - 48.

Definition isHexDigit (c : ascii) : bool :=
  let n := nat_of_ascii c in
  isDigit c || ((65 <=? n) && (n <=? 70))%nat || ((97 <=? n) && (n <=? 102))%nat.

Definition hexValue (c : ascii) : Z :=
  let n := Z.of_nat (nat_of_ascii c) in
  if isDigit c then n - 48
  else if n <=? 70 then n - 55
  else n - 87.

Fixpoint trimStart (s : string) : string :=
  match s with
  | String c r => if isWhiteSpace c then trimStart r else s
  | EmptyString => EmptyString
  end.

Fixpoint allWhiteSpace (s : string) : bool :=
  match s with
  | String c r => isWhiteSpace c && allWhiteSpace r
  | EmptyString => true
  end.

Fixpoint trimEnd (s : string) : string :=
  match s with
  | String c r => if allWhiteSpace s then EmptyString else String c (trimEnd r)
  | EmptyString => EmptyString
  end.

(** [String.prototype.trim] *)
Definition trim (s : string) : string := trimEnd (trimStart s).

Definition lowerChar (c : ascii) : ascii :=
  let n := nat_of_ascii c in
  if ((65 <=? n) && (n <=? 90))%nat then ascii_of_nat (n + 32) else c.

(** [String.prototype.toLowerCase] *)
Fixpoint toLowerCase (s : string) : string :=
  match s with
  | String c r => String (lowerChar c) (toLowerCase r)
  | EmptyString => EmptyString
  end.

(** [String.prototype.includes] *)
Fixpoint includes (s sub : string) : bool :=
  prefix sub s ||
  match s with
  | String _ r => includes r sub
  | EmptyString => false
  end.

(** The one-character strings of [s], as [s[0]], [s[1]], ... *)
Fixpoint chars (s : string) : list string :=
  match s with
  | String c r => String c EmptyString :: chars r
  | EmptyString => []
  end.

(** The longest prefix of [s] made of characters that satisfy [p], read as
    a number in base [radix]; [None] when that prefix is empty. *)
Fixpoint digitsFrom (p : ascii -> bool) (val : ascii -> Z) (radix : Z)
         (acc : option Z) (s : string) : option Z :=
  match s with
  | String c r =>
      if p c
      then digitsFrom p val radix
             (Some (match acc with Some a => a * radix + val c | None => val c end)) r
      else acc
  | EmptyString => acc
  end.

Fixpoint allDigits (s : string) : bool :=
  match s with
  | String c r => isDigit c && allDigits r
  | EmptyString => true
  end.

(** The decimal form of an integer, as [Number.prototype.toString] gives
    it for the integers below 10^21. *)
Definition ofZ (n : Z) : string := NilZero.string_of_int (Z.to_int n).

End Str.

(** ** Conversions and operators *)

(** [ToBoolean] *)
Definition truthy (v : JsVal) : bool :=
  match v with
  | JUndefined | JNull => false
  | JBool b => b
  | JNum n => negb (n =? 0)
  | JStr s => negb (s =? "")%string
  | JArr _ | JObj _ => true
  end.

(** [a || b] and [a && b] *)
Definition jsOr (a b : JsVal) : JsVal := if truthy a then a else b.
Definition jsAnd (a b : JsVal) : JsVal := if truthy a then b else a.

Fixpoint joinWith (sep : string) (l : list string) : string :=
  match l with
  | [] => ""
  | [x] => x
  | x :: r => x ++ sep ++ joinWith sep r
  end.

(** [ToString], as a template literal applies it. *)
Fixpoint toStr (v : JsVal) : string :=
  match v with
  | JUndefined => "undefined"
  | JNull => "null"
  | JBool true => "true"
  | JBool false => "false"
  | JNum n => Str.ofZ n
  | JStr s => s
  | JArr elems =>
      joinWith ","
        (map (fun e => match e with
                       | JUndefined | JNull => ""
                       | _ => toStr e
                       end) elems)
  | JObj _ => "[object Object]"
  end.

(** [StringToNumber] on the integer literals: surrounding white space is
    dropped, the empty string is 0, an optionally signed run of decimal
    digits is its value.  Every other string is NaN here; strings that
    JavaScript reads as a fraction, an exponent form, a prefixed literal or
    an infinity have no value among the integers. *)
Definition stringToNumber (s : string) : option Z :=
  match Str.trim s with
  | EmptyString => Some 0
  | String c r =>
      if Ascii.eqb c "-" then
        if Str.allDigits r
        then option_map Z.opp (Str.digitsFrom Str.isDigit Str.digitValue 10 None r)
        else None
      else if Ascii.eqb c "+" then
        if Str.allDigits r
        then Str.digitsFrom Str.isDigit Str.digitValue 10 None r
        else None
      else
        if Str.allDigits (String c r)
        then Str.digitsFrom Str.isDigit Str.digitValue 10 None (String c r)
        else None
  end.

(** [ToNumber]; [None] is NaN. *)
Definition toNumber (v : JsVal) : option Z :=
  match v with
  | JUndefined => None
  | JNull => Some 0
  | JBool b => Some (if b then 1 else 0)
  | JNum n => Some n
  | JStr s => stringToNumber s
  | JArr _ | JObj _ => stringToNumber (toStr v)
  end.

(** [a - b] *)
Definition jsSub (a b : JsVal) : option Z :=
  match toNumber a, toNumber b with
  | Some x, Some y => Some (x - y)
  | _, _ => None
  end.

(** [parseInt(s)] with no radix; [None] is NaN.  Leading white space is
    skipped, a sign is read, a [0x] or [0X] prefix selects base 16, and the
    longest run of digits that follows is the value. *)
Definition parseInt (s : string) : option Z :=
  let t := Str.trimStart s in
  let '(sign, body) :=
    match t with
    | String c r =>
        if Ascii.eqb c "-" then (-1, r)
        else if Ascii.eqb c "+" then (1, r)
        else (1, t)
    | EmptyString => (1, t)
    end in
  let magnitude :=
    match body with
    | String "0" (String x r) =>
        if Ascii.eqb x "x" || Ascii.eqb x "X"
        then Str.digitsFrom Str.isHexDigit Str.hexValue 16 None r
        else Str.digitsFrom Str.isDigit Str.digitValue 10 None body
    | _ => Str.digitsFrom Str.isDigit Str.digitValue 10 None body
    end in
  option_map (Z.mul sign) magnitude.

(** [isNaN] of a number *)
Definition isNaN (n : option Z) : bool :=
  match n with
  | Some _ => false
  | None => true
  end.

(** ** Property access *)

Fixpoint lookup (k : string) (props : list (string * JsVal)) : JsVal :=
  match props with
  | [] => JUndefined
  | (k', v) :: r => if (k =? k')%string then v else lookup k r
  end.

(** The index a property key denotes, when it is the decimal form of one. *)
Definition arrayIndex (k : string) : option nat :=
  match k with
  | EmptyString => None
  | String _ _ =>
      if Str.allDigits k
      then match Str.digitsFrom Str.isDigit Str.digitValue 10 None k with
           | Some n => if (Str.ofZ n =? k)%string then Some (Z.to_nat n) else None
           | None => None
           end
      else None
  end.

(** [v[k]] and [v.k]: reading a property of [null] or [undefined] throws;
    a property that is absent reads as [undefined].  The values hold data
    only, so the methods of the built-in prototypes are not properties
    here; the program calls them through [includes], [toLowerCase] and
    [arrayMap] below. *)
Definition getProp (v : JsVal) (k : string) : Res JsVal :=
  match v with
  | JUndefined =>
      Throw (TypeError ("Cannot read properties of undefined (reading '" ++ k ++ "')"))
  | JNull =>
      Throw (TypeError ("Cannot read properties of null (reading '" ++ k ++ "')"))
  | JObj props => Ok (lookup k props)
  | JArr elems =>
      if (k =? "length")%string then Ok (JNum (Z.of_nat (List.length elems)))
      else match arrayIndex k with
           | Some i => Ok (nth i elems JUndefined)
           | None => Ok JUndefined
           end
  | JStr s =>
      if (k =? "length")%string then Ok (JNum (Z.of_nat (String.length s)))
      else match arrayIndex k with
           | Some i => Ok (nth i (map JStr (Str.chars s)) JUndefined)
           | None => Ok JUndefined
           end
  | JBool _ | JNum _ => Ok JUndefined
  end.

(** [v?.k] *)
Definition getPropOpt (v : JsVal) (k : string) : JsVal :=
  match v with
  | JUndefined | JNull => JUndefined
  | _ => match getProp v k with
         | Ok x => x
         | Throw _ => JUndefined
         end
  end.

Definition indexKeys (n : nat) : list string :=
  map (fun i => Str.ofZ (Z.of_nat i)) (seq 0 n).

(** [Object.entries(v)] of a value that is not [null] or [undefined] *)
Definition entries (v : JsVal) : list (string * JsVal) :=
  match v with
  | JObj props => props
  | JArr elems => combine (indexKeys (List.length elems)) elems
  | JStr s => combine (indexKeys (String.length s)) (map JStr (Str.chars s))
  | _ => []
  end.

(** The keys [for (const k in v)] visits. *)
Definition forInKeys (v : JsVal) : list string := map fst (entries v).

(** [v.includes(x)] for a string [x]: a substring test on a string, a
    membership test on an array, and a [TypeError] on every other value,
    which has no such method. *)
Definition includes (v : JsVal) (x : string) : Res bool :=
  match v with
  | JStr s => Ok (Str.includes s x)
  | JArr elems =>
      Ok (existsb (fun e => match e with
                            | JStr s => (s =? x)%string
                            | _ => false
                            end) elems)
  | JUndefined | JNull =>
      Throw (TypeError "Cannot read properties of undefined (reading 'includes')")
  | _ => Throw (TypeError "includes is not a function")
  end.

(** [v.toLowerCase()] *)
Definition toLowerCase (v : JsVal) : Res string :=
  match v with
  | JStr s => Ok (Str.toLowerCase s)
  | JUndefined | JNull =>
      Throw (TypeError "Cannot read properties of undefined (reading 'toLowerCase')")
  | _ => Throw (TypeError "toLowerCase is not a function")
  end.

(** A loop whose body may throw: the elements are visited in order and the
    first exception ends the loop. *)
Fixpoint forEachM {A B : Type} (f : A -> Res (list B)) (l : list A) : Res (list B) :=
  match l with
  | [] => Ok []
  | x :: r =>
      pushed <- f x ;;
      rest <- forEachM f r ;;
      Ok (pushed ++ rest)%list
  end.

(** ** SteamClient

    [getProductInfo] is the Steam session's; what the program sees of it is
    what it passes to the callback: the error, [null] when the request
    succeeded, and the applications, of which the program reads
    [apps[appId]], [undefined] for an application Steam does not know.
    Console output is left out of the functions of this section; none of it
    decides what they return.  What is kept of it is the reading of
    [error.message] in the [catch] blocks, which can throw. *)
Module SteamClient.

Record Fetch : Type := mkFetch {
  err : JsVal;
  productInfo : JsVal
}.

(** [await new Promise(...)] inside a [try]: the promise is rejected with
    [err] when [err] is truthy, and resolved with [apps[appId]] otherwise. *)
Definition await (f : Fetch) : Res JsVal :=
  if truthy (err f) then Throw (err f) else Ok (productInfo f).

(** A request that succeeded. *)
Definition Resolved (productInfo : JsVal) : Fetch :=
  {| err := JNull; productInfo := productInfo |}.

(** The objects [getGameDepots] returns.  The fallback entries are written
    with [id], [name] and [osType] only; their other properties read as
    [undefined]. *)
Module Depot.
Record t : Type := mk {
  id : JsVal;
  name : JsVal;
  osType : JsVal;
  dlcAppId : JsVal;
  maxSize : JsVal;
  systemDefined : JsVal;
  optional : JsVal;
  sharedInstall : JsVal;
  language : JsVal;
  encryptedSize : JsVal;
  rawData : JsVal
}.
End Depot.

Definition fallbackDepot (appId name : JsVal) : Depot.t :=
  {| Depot.id := appId; Depot.name := name; Depot.osType := JStr "Unknown";
     Depot.dlcAppId := JUndefined; Depot.maxSize := JUndefined;
     Depot.systemDefined := JUndefined; Depot.optional := JUndefined;
     Depot.sharedInstall := JUndefined; Depot.language := JUndefined;
     Depot.encryptedSize := JUndefined; Depot.rawData := JUndefined |}.

(** [getOsType(depot)] *)
Definition getOsType (depot : JsVal) : Res JsVal :=
  config <- getProp depot "config" ;;
  direct <-
    (if truthy config then
       oslist <- getProp config "oslist" ;;
       if truthy oslist then
         w <- includes oslist "windows" ;;
         if w then Ok (Some (JStr "Windows")) else
         m <- includes oslist "macos" ;;
         if m then Ok (Some (JStr "Mac")) else
         l <- includes oslist "linux" ;;
         if l then Ok (Some (JStr "Linux")) else
         Ok (Some oslist)
       else Ok None
     else Ok None) ;;
  match direct with
  | Some os => Ok os
  | None =>
      depotName <- getProp depot "name" ;;
      if truthy depotName then
        lower <- toLowerCase depotName ;;
        if Str.includes lower "windows" then Ok (JStr "Windows")
        else if Str.includes lower "mac" || Str.includes lower "osx"
             then Ok (JStr "Mac")
        else if Str.includes lower "linux" then Ok (JStr "Linux")
        else Ok (JStr "Unknown")
      else Ok (JStr "Unknown")
  end.

(** The test at the head of the loop over the depot table: a key is
    skipped when it is ["branches"] or [parseInt] of it is NaN. *)
Definition skipsKey (depotId : string) : bool :=
  (depotId =? "branches")%string || isNaN (parseInt depotId).

(** The body of the loop for a key that is not skipped. *)
Definition depotOf (depotData : JsVal) (depotId : string) : Res Depot.t :=
  depot <- getProp depotData depotId ;;
  n <- getProp depot "name" ;;
  let name := jsOr n (JStr ("Depot " ++ depotId)) in
  osType <- getOsType depot ;;
  dlcappid <- getProp depot "dlcappid" ;;
  maxsize <- getProp depot "maxsize" ;;
  systemdefined <- getProp depot "systemdefined" ;;
  opt <- getProp depot "optional" ;;
  sharedinstall <- getProp depot "sharedinstall" ;;
  config <- getProp depot "config" ;;
  encryptedsize <- getProp depot "encryptedsize" ;;
  Ok {| Depot.id := JStr depotId;
        Depot.name := name;
        Depot.osType := osType;
        Depot.dlcAppId := jsOr dlcappid JNull;
        Depot.maxSize := jsOr maxsize JNull;
        Depot.systemDefined := jsOr systemdefined (JBool false);
        Depot.optional := jsOr opt (JBool false);
        Depot.sharedInstall := jsOr sharedinstall (JBool false);
        Depot.language := jsOr (getPropOpt config "language") JNull;
        Depot.encryptedSize := jsOr encryptedsize JNull;
        Depot.rawData := depot |}.

(** [for (const depotId in depotData) { ... depots.push(...) }] *)
Definition extractDepots (depotData : JsVal) : Res (list Depot.t) :=
  forEachM (fun depotId =>
              if skipsKey depotId then Ok []
              else d <- depotOf depotData depotId ;; Ok [d])
           (forInKeys depotData).

(** The [try] block of [getGameDepots]. *)
Definition getGameDepotsBody (appId : JsVal) (fetch : Fetch) : Res (list Depot.t) :=
  productInfo <- await fetch ;;
  if negb (truthy productInfo) then Ok [] else
  appinfo <- getProp productInfo "appinfo" ;;
  if negb (truthy appinfo) then Ok [] else
  depotData <- getProp appinfo "depots" ;;
  depots <- (if truthy depotData then extractDepots depotData else Ok []) ;;
  match depots with
  | [] =>
      common <- getProp appinfo "common" ;;
      Ok [fallbackDepot appId
            (jsOr (getPropOpt common "name") (JStr ("App " ++ toStr appId)))]
  | _ :: _ => Ok depots
  end.

(** [getGameDepots(appId)] *)
Definition getGameDepots (appId : JsVal) (fetch : Fetch) : Res (list Depot.t) :=
  tryCatch (getGameDepotsBody appId fetch)
           (fun error =>
              message <- getProp error "message" ;;
              Ok [fallbackDepot appId (JStr ("App " ++ toStr appId))]).

(** The objects [getDepotManifests] returns.  [isPublic] and
    [isHistorical] are always written as booleans.  Properties an entry is
    written without read as [undefined]. *)
Module Manifest.
Record t : Type := mk {
  manifestId : JsVal;
  buildId : JsVal;
  branch : JsVal;
  description : JsVal;
  timeupdated : JsVal;
  size : JsVal;
  isPublic : bool;
  isHistorical : bool;
  rawData : JsVal
}.
End Manifest.

(** The manifest map of the depot itself. *)
Definition directManifests (depotData depotId : JsVal) : Res (list Manifest.t) :=
  depot <- getProp depotData (toStr depotId) ;;
  if truthy depot then
    manifests <- getProp depot "manifests" ;;
    if truthy manifests then
      forEachM (fun entry : string * JsVal =>
                  let (manifestId, details) := entry in
                  buildid <- getProp details "buildid" ;;
                  date <- getProp details "date" ;;
                  size <- getProp details "size" ;;
                  Ok [ {| Manifest.manifestId := JStr manifestId;
                          Manifest.buildId := jsOr buildid (JStr "Unknown");
                          Manifest.branch := JStr "Unknown";
                          Manifest.description := JStr "Depot manifest";
                          Manifest.timeupdated := jsOr date JNull;
                          Manifest.size := jsOr size JNull;
                          Manifest.isPublic := true;
                          Manifest.isHistorical := true;
                          Manifest.rawData := JUndefined |} ])
               (entries manifests)
    else Ok []
  else Ok [].

(** The manifest a branch gives for the depot. *)
Definition branchManifest (branches : JsVal) (depotId : JsVal) (branchName : string)
  : Res (list Manifest.t) :=
  branch <- getProp branches branchName ;;
  buildid <- getProp branch "buildid" ;;
  if truthy buildid then
    branchDepots <- getProp branch "depots" ;;
    specific <-
      (if truthy branchDepots then
         entry <- getProp branchDepots (toStr depotId) ;;
         if truthy entry then
           m <- getProp entry "manifest" ;;
           if truthy m then Ok m else Ok JNull
         else Ok JNull
       else Ok JNull) ;;
    let manifestId :=
      if negb (truthy specific) && truthy buildid then buildid else specific in
    if truthy manifestId then
      description <- getProp branch "description" ;;
      public <- getProp branch "public" ;;
      timeupdated <- getProp branch "timeupdated" ;;
      Ok [ {| Manifest.manifestId := manifestId;
              Manifest.buildId := buildid;
              Manifest.branch := JStr branchName;
              Manifest.description := jsOr description (JStr "");
              Manifest.timeupdated := jsOr timeupdated JNull;
              Manifest.size := JUndefined;
              Manifest.isPublic := truthy public;
              Manifest.isHistorical := false;
              Manifest.rawData := branch |} ]
    else Ok []
  else Ok [].

Definition branchManifests (depotData depotId : JsVal) : Res (list Manifest.t) :=
  branches <- getProp depotData "branches" ;;
  if truthy branches
  then forEachM (branchManifest branches depotId) (forInKeys branches)
  else Ok [].

(** The clock: [clock i] is what [Math.floor(Date.now() / 1000)] gives the
    [i]-th time it is evaluated during a call. *)
Definition Clock : Type := nat -> Z.

(** The sample entries, as they are pushed. *)
Definition historicalManifest (manifestId : string) (timeupdated : Z) (buildId : string)
  : Manifest.t :=
  {| Manifest.manifestId := JStr manifestId;
     Manifest.buildId := JStr buildId;
     Manifest.branch := JStr "historical";
     Manifest.description := JStr "Previously seen manifest";
     Manifest.timeupdated := JNum timeupdated;
     Manifest.size := JUndefined;
     Manifest.isPublic := true;
     Manifest.isHistorical := true;
     Manifest.rawData := JUndefined |}.

Definition historicalManifests (clock : Clock) : list Manifest.t :=
  [ historicalManifest "2946550127499212992" (clock 0%nat - 2 * 24 * 60 * 60) "Recent";
    historicalManifest "4931450830400310210" (clock 1%nat - 2 * 24 * 60 * 60 - 3600) "Recent";
    historicalManifest "9512939615798864588" (clock 2%nat - 10 * 24 * 60 * 60) "Older";
    historicalManifest "2488226670458163874" (clock 3%nat - 15 * 24 * 60 * 60) "Older";
    historicalManifest "8387145243060614243" (clock 4%nat - 16 * 24 * 60 * 60) "Older" ].

(** The comparison function given to [sort]; [None] is NaN. *)
Definition compareManifests (a b : Manifest.t) : option Z :=
  if truthy (jsAnd (Manifest.timeupdated a) (Manifest.timeupdated b))
  then jsSub (Manifest.timeupdated b) (Manifest.timeupdated a)
  else if Manifest.isHistorical a && negb (Manifest.isHistorical b) then Some 1
  else if negb (Manifest.isHistorical a) && Manifest.isHistorical b then Some (-1)
  else Some 0.

(** [Array.prototype.sort(comparefn)]; a result of NaN counts as 0.  The
    sort is stable.  Where the comparison function orders the elements of
    the array consistently, the language fixes the result: it is sorted and
    leaves the elements that compare equal in their order, and there is one
    such arrangement ([arraySort_unique]).  Where it does not, the order is
    left to the engine.  The model inserts the elements from left to right
    into the sorted prefix, each before the first element it compares
    below; this is the result of every engine in the first case, and one of
    the orders an engine may give in the second, which need not be that
    of V8.  The properties below that state an order are for arrays of the
    first case; the others use only that the result is a permutation. *)
Section Sort.
Context {A : Type} (comparefn : A -> A -> option Z).

Definition below (x y : A) : bool :=
  match comparefn x y with
  | Some v => v <? 0
  | None => false
  end.

Fixpoint insertSorted (x : A) (sorted : list A) : list A :=
  match sorted with
  | [] => [x]
  | y :: r => if below x y then x :: sorted else y :: insertSorted x r
  end.

Definition arraySort (l : list A) : list A :=
  fold_left (fun sorted x => insertSorted x sorted) l [].
End Sort.

Definition sortManifests (manifests : list Manifest.t) : list Manifest.t :=
  arraySort compareManifests manifests.

(** The list as it stands before it is sorted. *)
Definition collectManifests (clock : Clock) (depotData depotId : JsVal)
  : Res (list Manifest.t) :=
  direct <- directManifests depotData depotId ;;
  fromBranches <- branchManifests depotData depotId ;;
  Ok (direct ++ fromBranches ++ historicalManifests clock)%list.

(** The [try] block of [getDepotManifests]. *)
Definition getDepotManifestsBody (clock : Clock) (appId depotId : JsVal) (fetch : Fetch)
  : Res (list Manifest.t) :=
  productInfo <- await fetch ;;
  if negb (truthy productInfo) then Ok [] else
  appinfo <- getProp productInfo "appinfo" ;;
  if negb (truthy appinfo) then Ok [] else
  depotData <- getProp appinfo "depots" ;;
  if negb (truthy depotData) then Ok [] else
  manifests <- collectManifests clock depotData depotId ;;
  Ok (sortManifests manifests).

(** [getDepotManifests(appId, depotId)] *)
Definition getDepotManifests (clock : Clock) (appId depotId : JsVal) (fetch : Fetch)
  : Res (list Manifest.t) :=
  tryCatch (getDepotManifestsBody clock appId depotId fetch)
           (fun error => message <- getProp error "message" ;; Ok []).

End SteamClient.

(** ** What the program does to the outside

    The functions of [SteamSearch] and [CLI] are modelled with the trace of
    what they print, ask and send, in order.  The colours [chalk] adds to a
    line are not part of it. *)
Inductive Event : Type :=
| ConsoleLog (text : string)
| ConsoleError (args : list JsVal)
| HttpGet (url : string) (params headers : list (string * string))
| Exec (command : string)
| PromptRejected (input : string) (message : JsVal).

Definition nl : string := String (ascii_of_nat 10) EmptyString.
Definition dquote : string := String (ascii_of_nat 34) EmptyString.

(** ** SteamSearch *)
Module SteamSearch.

Definition apiUrl : string := "https://store.steampowered.com/api/storesearch".

Definition headers : list (string * string) :=
  [ ("User-Agent",
     "Mozilla/5.0 (Windows NT 10.0; Win64; x64) AppleWebKit/537.36 (KHTML, like Gecko) Chrome/134.0.0.0 Safari/537.36");
    ("Accept", "application/json") ].

(** How [axios.get] settles. *)
Inductive HttpOutcome : Type :=
| HttpFail (error : JsVal)
| HttpOk (response : JsVal).

(** The store: what it answers to a search for a term. *)
Definition Store : Type := string -> HttpOutcome.

(** The objects [searchGames] returns.  [price] is a quotient of integers
    by 100, kept as numerator and denominator; [None] is NaN. *)
Module App.
Record t : Type := mk {
  appid : JsVal;
  name : JsVal;
  type : JsVal;
  price : option (Z * Z);
  discount : JsVal;
  image : JsVal
}.
End App.

(** The function given to [items.map]. *)
Definition appOf (item : JsVal) : Res App.t :=
  id <- getProp item "id" ;;
  name <- getProp item "name" ;;
  type <- getProp item "type" ;;
  itemPrice <- getProp item "price" ;;
  price <-
    (if truthy itemPrice
     then final <- getProp itemPrice "final" ;;
          Ok (option_map (fun n => (n, 100)) (toNumber final))
     else Ok (Some (0, 1))) ;;
  discount <-
    (if truthy itemPrice then getProp itemPrice "discount_percent" else Ok (JNum 0)) ;;
  image <- getProp item "tiny_image" ;;
  Ok {| App.appid := id; App.name := name; App.type := type;
        App.price := price; App.discount := discount; App.image := image |}.

(** [items.map(f)]: only an array has the method. *)
Definition arrayMap {B : Type} (f : JsVal -> Res B) (items : JsVal) : Res (list B) :=
  match items with
  | JArr elems => forEachM (fun e => b <- f e ;; Ok [b]) elems
  | JUndefined | JNull =>
      Throw (TypeError "Cannot read properties of undefined (reading 'map')")
  | _ => Throw (TypeError "response.data.items.map is not a function")
  end.

(** What follows the request inside the [try] block. *)
Definition readResponse (response : JsVal) : Res (list Event * list App.t) :=
  data <- getProp response "data" ;;
  if negb (truthy data) then Ok ([ConsoleLog "No matching games found."], []) else
  items <- getProp data "items" ;;
  if negb (truthy items) then Ok ([ConsoleLog "No matching games found."], []) else
  len <- getProp items "length" ;;
  match len with
  | JNum 0 => Ok ([ConsoleLog "No matching games found."], [])
  | _ => apps <- arrayMap appOf items ;; Ok ([], apps)
  end.

(** [searchGames(searchTerm)] *)
Definition searchGames (store : Store) (searchTerm : string)
  : list Event * Res (list App.t) :=
  let sent :=
    [ ConsoleLog ("Searching for games matching: " ++ searchTerm);
      HttpGet apiUrl [("term", searchTerm); ("l", "english"); ("cc", "US")] headers ] in
  let body :=
    match store searchTerm with
    | HttpFail error => Throw error
    | HttpOk response => readResponse response
    end in
  match body with
  | Ok (printed, apps) => ((sent ++ printed)%list, Ok apps)
  | Throw error =>
      match getProp error "message" with
      | Ok message =>
          ((sent ++ [ConsoleError [JStr "Error searching Steam:"; message]])%list,
           Throw error)
      | Throw raised => (sent, Throw raised)
      end
  end.

End SteamSearch.

(** ** CLI *)
Module CLI.

(** The fields of the handler that change. *)
Record t : Type := mk {
  currentAppId : JsVal;
  currentDepotId : JsVal;
  currentManifestId : JsVal
}.

(** The state the constructor leaves. *)
Definition new : t :=
  {| currentAppId := JNull; currentDepotId := JNull; currentManifestId := JNull |}.

(** What [exec] passes to its callback: the error, [null] when the
    command ran, and what the command printed. *)
Record ExecResult : Type := mkExec {
  error : JsVal;
  stdout : string
}.

Definition tasklistCommand : string :=
  "tasklist /FI " ++ dquote ++ "IMAGENAME eq steam.exe" ++ dquote ++ " /NH".

(** [checkSteamRunning()] *)
Definition checkSteamRunning (tasklist : ExecResult) : list Event * bool :=
  if truthy (error tasklist) then
    ([ Exec tasklistCommand;
       ConsoleLog (nl ++ "Error checking if Steam is running: "
                      ++ toStr (getPropOpt (error tasklist) "message")) ],
     false)
  else
    let isSteamRunning :=
      Str.includes (Str.toLowerCase (stdout tasklist)) "steam.exe" in
    if isSteamRunning
    then ([Exec tasklistCommand], true)
    else ([ Exec tasklistCommand;
            ConsoleLog (nl ++ "Steam is not running! Please start Steam before using this tool.") ],
          false).

(** The [validate] function of the search prompt. *)
Definition validate (input : string) : JsVal :=
  if negb (truthy (JStr (Str.trim input)))
  then JStr "Please enter a game name to search"
  else JBool true.

(** An input prompt with a [validate] function: each line the user
    submits is validated; the prompt resolves with the first line for
    which the function returns [true], and shows what the function
    returned for the others.  [typed] is what the user submits, in order;
    when none of it is accepted the prompt stays open ([None]). *)
Fixpoint prompt (validate : string -> JsVal) (typed : list string)
  : list Event * option string :=
  match typed with
  | [] => ([], None)
  | input :: later =>
      match validate input with
      | JBool true => ([], Some input)
      | message =>
          let (shown, answer) := prompt validate later in
          (PromptRejected input message :: shown, answer)
      end
  end.

Definition SteamNotRunning : JsVal :=
  JObj [("name", JStr "Error");
        ("message", JStr "Steam must be running to use this tool.")].

(** [getSearchTerm()]; [None] when the prompt stays open. *)
Definition getSearchTerm (tasklist : ExecResult) (typed : list string)
  : list Event * option (Res string) :=
  let (checked, isSteamRunning) := checkSteamRunning tasklist in
  if negb isSteamRunning then (checked, Some (Throw SteamNotRunning))
  else
    let (shown, answer) := prompt validate typed in
    ((checked ++ shown)%list, option_map Ok answer).

(** The command of [generateSteamCommand] and [displayCompletion]. *)
Definition steamCommand (cli : t) : string :=
  "download_depot " ++ toStr (currentAppId cli) ++ " "
    ++ toStr (currentDepotId cli) ++ " " ++ toStr (currentManifestId cli).

Definition commandWithNotes (cli : t) : string :=
  steamCommand cli ++ nl ++ nl
    ++ "// IMPORTANT: Wait for download to complete (no progress indicator). After completion, copy files from Steam\steamapps\content\app_"
    ++ toStr (currentAppId cli) ++ "\depot_" ++ toStr (currentDepotId cli)
    ++ " to your game folder.".

(** [generateSteamCommand()], up to the call of [exec]; the callback of
    that call goes on in [openSteamConsole], which prints how the copy to
    the clipboard and the opening of the console went. *)
Definition generateSteamCommand (cli : t) : list Event :=
  if negb (truthy (currentAppId cli)) || negb (truthy (currentDepotId cli))
     || negb (truthy (currentManifestId cli))
  then [ConsoleLog (nl ++ "Missing required information to generate Steam command.")]
  else
    [ ConsoleLog (nl ++ "Steam Console Command:");
      ConsoleLog (steamCommand cli);
      ConsoleLog (nl ++ "Command with instructions (you can copy this whole block):");
      ConsoleLog (commandWithNotes cli);
      Exec ("powershell -command " ++ dquote ++ "Set-Clipboard -Value '"
              ++ commandWithNotes cli ++ "'" ++ dquote) ].

(** *** Menus and details *)

(** A choice of a list prompt: a line that separates, or a line to pick,
    with the value it stands for. *)
Inductive Choice (V : Type) : Type :=
| Separator (line : string)
| Item (name : string) (value : V).
Arguments Separator {V} line.
Arguments Item {V} name value.

(** The values a list prompt offers, in order. *)
Fixpoint offered {V : Type} (choices : list (Choice V)) : list V :=
  match choices with
  | [] => []
  | Separator _ :: r => offered r
  | Item _ value :: r => value :: offered r
  end.

(** A list prompt resolves with the value the user picks; [pick] is the
    place of that value among the values offered, and the prompt stays open
    ([None]) when there is no such place. *)
Definition listPrompt {V : Type} (choices : list (Choice V)) (pick : nat) : option V :=
  nth_error (offered choices) pick.

Definition count {V : Type} (l : list V) : string :=
  Str.ofZ (Z.of_nat (List.length l)).

(** The choices of [selectGame]. *)
Definition gameChoices (appList : list SteamSearch.App.t)
  : list (Choice SteamSearch.App.t) :=
  map (fun app =>
         Item (toStr (SteamSearch.App.name app) ++ " ("
                 ++ toStr (SteamSearch.App.appid app) ++ ")")
              app)
      appList.

(** [selectGame(appList)] *)
Definition selectGame (appList : list SteamSearch.App.t) (pick : nat)
  : list Event * option SteamSearch.App.t :=
  ([ConsoleLog (nl ++ "Found " ++ count appList ++ " matching applications:" ++ nl)],
   listPrompt (gameChoices appList) pick).

(** The line of a depot in the menu of [selectDepot]. *)
Definition depotLine (depot : SteamClient.Depot.t) : string :=
  toStr (SteamClient.Depot.name depot) ++ " (ID: "
    ++ toStr (SteamClient.Depot.id depot) ++ ") - "
    ++ toStr (jsOr (SteamClient.Depot.osType depot) (JStr "Unknown OS"))
    ++ (if truthy (SteamClient.Depot.optional depot) then " [Optional]" else "")
    ++ (if truthy (SteamClient.Depot.language depot)
        then " [" ++ toStr (SteamClient.Depot.language depot) ++ "]"
        else "").

Definition depotChoices (depotList : list SteamClient.Depot.t)
  : list (Choice SteamClient.Depot.t) :=
  map (fun depot => Item (depotLine depot) depot) depotList.

(** [selectDepot(depotList)]; the inner [None] is [null]. *)
Definition selectDepot (depotList : list SteamClient.Depot.t) (pick : nat)
  : list Event * option (option SteamClient.Depot.t) :=
  match depotList with
  | [] => ([ConsoleLog (nl ++ "No depots found for this application.")], Some None)
  | _ :: _ =>
      ([ConsoleLog (nl ++ "Found " ++ count depotList ++ " depots for this application:" ++ nl)],
       option_map Some (listPrompt (depotChoices depotList) pick))
  end.

(** [displayGameDetails(app)] *)
Definition displayGameDetails (app : SteamSearch.App.t) : list Event :=
  [ ConsoleLog (nl ++ "Selected Application Details:");
    ConsoleLog ("Name: " ++ toStr (SteamSearch.App.name app));
    ConsoleLog ("AppID: " ++ toStr (SteamSearch.App.appid app));
    ConsoleLog ("Type: " ++ toStr (SteamSearch.App.type app)) ].

(** The flags [displayDepotDetails] collects. *)
Definition depotFlags (depot : SteamClient.Depot.t) : list string :=
  ((if truthy (SteamClient.Depot.optional depot) then ["Optional"] else [])
   ++ (if truthy (SteamClient.Depot.systemDefined depot) then ["System Defined"] else [])
   ++ (if truthy (SteamClient.Depot.sharedInstall depot) then ["Shared Install"] else []))%list.

Section Formats.

(** [formatSize] computes with logarithms of floating-point numbers, and the
    text of a date depends on the locale and the time zone; both are taken
    as they come.  [toLocaleString] is [new Date(ms).toLocaleString()], with
    [None] for the date of NaN. *)
Variable formatSize : JsVal -> string.
Variable toLocaleString : option Z -> string.

(** [new Date(timeupdated * 1000).toLocaleString()] *)
Definition dateOf (timeupdated : JsVal) : string :=
  toLocaleString (option_map (fun n => n * 1000) (toNumber timeupdated)).

(** [displayDepotDetails(depot)]; [None] is [null]. *)
Definition displayDepotDetails (depot : option SteamClient.Depot.t) : list Event :=
  match depot with
  | None => []
  | Some depot =>
      ([ ConsoleLog (nl ++ "Selected Depot Details:");
         ConsoleLog ("Name: " ++ toStr (SteamClient.Depot.name depot));
         ConsoleLog ("ID: " ++ toStr (SteamClient.Depot.id depot));
         ConsoleLog ("OS Type: "
                       ++ toStr (jsOr (SteamClient.Depot.osType depot) (JStr "Unknown"))) ]
       ++ (if truthy (SteamClient.Depot.maxSize depot)
           then [ConsoleLog ("Max Size: " ++ formatSize (SteamClient.Depot.maxSize depot))]
           else [])
       ++ (if truthy (SteamClient.Depot.encryptedSize depot)
           then [ConsoleLog ("Encrypted Size: "
                               ++ formatSize (SteamClient.Depot.encryptedSize depot))]
           else [])
       ++ (if truthy (SteamClient.Depot.language depot)
           then [ConsoleLog ("Language: " ++ toStr (SteamClient.Depot.language depot))]
           else [])
       ++ (if truthy (SteamClient.Depot.dlcAppId depot)
           then [ConsoleLog ("DLC App ID: " ++ toStr (SteamClient.Depot.dlcAppId depot))]
           else [])
       ++ (match depotFlags depot with
           | [] => []
           | flags => [ConsoleLog ("Flags: " ++ joinWith ", " flags)]
           end))%list
  end.

(** [getRelativeTimeString(timestamp)]; [now] is
    [Math.floor(Date.now() / 1000)].  A difference that is NaN is above
    nothing, which leaves "just now". *)
Definition getRelativeTimeString (now : Z) (timestamp : JsVal) : string :=
  match jsSub (JNum now) timestamp with
  | None => "just now"
  | Some diff =>
      let days := diff / (60 * 60 * 24) in
      let hours := Z.rem diff (60 * 60 * 24) / (60 * 60) in
      let minutes := Z.rem diff (60 * 60) / 60 in
      if 30 <? days then
        let months := days / 30 in
        Str.ofZ months ++ " month" ++ (if 1 <? months then "s" else "") ++ " ago"
      else if 0 <? days then
        Str.ofZ days ++ " day" ++ (if 1 <? days then "s" else "") ++ " ago"
      else if 0 <? hours then
        Str.ofZ hours ++ " hour" ++ (if 1 <? hours then "s" else "") ++ " ago"
      else if 0 <? minutes then
        Str.ofZ minutes ++ " minute" ++ (if 1 <? minutes then "s" else "") ++ " ago"
      else "just now"
  end.

(** The line of a manifest of a branch in the menu of [selectManifest]. *)
Definition currentLine (manifest : SteamClient.Manifest.t) : string :=
  toStr (SteamClient.Manifest.branch manifest) ++ " (Build ID: "
    ++ toStr (SteamClient.Manifest.buildId manifest) ++ ")"
    ++ (if truthy (SteamClient.Manifest.timeupdated manifest)
        then " - Updated: " ++ dateOf (SteamClient.Manifest.timeupdated manifest)
        else "")
    ++ (if SteamClient.Manifest.isPublic manifest then " [Public]" else " [Private]")
    ++ (if truthy (SteamClient.Manifest.description manifest)
        then " - " ++ toStr (SteamClient.Manifest.description manifest)
        else "").

(** The line of a historical manifest; [now] is the clock when the line is
    made. *)
Definition historicalLine (now : Z) (manifest : SteamClient.Manifest.t) : string :=
  "Manifest: " ++ toStr (SteamClient.Manifest.manifestId manifest)
    ++ (if truthy (SteamClient.Manifest.timeupdated manifest)
        then " - Seen: " ++ dateOf (SteamClient.Manifest.timeupdated manifest)
               ++ " (" ++ getRelativeTimeString now (SteamClient.Manifest.timeupdated manifest)
               ++ ")"
        else "").

(** The choices of [selectManifest]: the manifests of the branches under
    their heading, then the historical ones under theirs; a group that is
    empty has no heading.  [clock i] is the clock when the line of the
    [i]-th historical manifest is made. *)
Definition manifestChoices (clock : nat -> Z) (manifestList : list SteamClient.Manifest.t)
  : list (Choice SteamClient.Manifest.t) :=
  let currentManifests :=
    filter (fun m => negb (SteamClient.Manifest.isHistorical m)) manifestList in
  let historicalManifests :=
    filter (fun m => SteamClient.Manifest.isHistorical m) manifestList in
  ((match currentManifests with
    | [] => []
    | _ :: _ =>
        Separator "---- Current Branch Manifests ----"
          :: map (fun m => Item (currentLine m) m) currentManifests
    end)
   ++ (match historicalManifests with
       | [] => []
       | _ :: _ =>
           Separator (nl ++ "---- Previously Seen Manifests ----")
             :: map (fun im => Item (historicalLine (clock (fst im)) (snd im)) (snd im))
                    (combine (seq 0 (List.length historicalManifests)) historicalManifests)
       end))%list.

(** [selectManifest(manifestList)]; the inner [None] is [null]. *)
Definition selectManifest (clock : nat -> Z) (manifestList : list SteamClient.Manifest.t)
           (pick : nat)
  : list Event * option (option SteamClient.Manifest.t) :=
  match manifestList with
  | [] => ([ConsoleLog (nl ++ "No manifests found for this depot.")], Some None)
  | _ :: _ =>
      ([ConsoleLog (nl ++ "Found " ++ count manifestList ++ " manifests for this depot:" ++ nl)],
       option_map Some (listPrompt (manifestChoices clock manifestList) pick))
  end.

(** [displayManifestDetails(manifest, appId, depotId)]; [None] is [null].
    The handler remembers the three ids, prints the details and goes on in
    [generateSteamCommand]. *)
Definition displayManifestDetails (cli : t) (manifest : option SteamClient.Manifest.t)
           (appId depotId : JsVal) : t * list Event :=
  match manifest with
  | None => (cli, [])
  | Some manifest =>
      let cli' :=
        {| currentAppId := appId;
           currentDepotId := depotId;
           currentManifestId := SteamClient.Manifest.manifestId manifest |} in
      let timeupdated := SteamClient.Manifest.timeupdated manifest in
      let details :=
        if SteamClient.Manifest.isHistorical manifest then
          ([ConsoleLog ("Manifest ID: " ++ toStr (SteamClient.Manifest.manifestId manifest))]
           ++ (if truthy timeupdated
               then [ConsoleLog ("First Seen: " ++ dateOf timeupdated)]
               else [])
           ++ [ConsoleLog "Type: Previously seen manifest"])%list
        else
          ([ ConsoleLog ("Branch: " ++ toStr (SteamClient.Manifest.branch manifest));
             ConsoleLog ("Build ID: " ++ toStr (SteamClient.Manifest.buildId manifest));
             ConsoleLog ("Manifest ID: " ++ toStr (SteamClient.Manifest.manifestId manifest)) ]
           ++ (if truthy (SteamClient.Manifest.description manifest)
               then [ConsoleLog ("Description: "
                                   ++ toStr (SteamClient.Manifest.description manifest))]
               else [])
           ++ [ConsoleLog ("Public: "
                             ++ (if SteamClient.Manifest.isPublic manifest then "Yes" else "No"))]
           ++ (if truthy timeupdated
               then [ConsoleLog ("Last Updated: " ++ dateOf timeupdated)]
               else []))%list in
      (cli',
       (ConsoleLog (nl ++ "Selected Manifest Details:") :: details
        ++ generateSteamCommand cli')%list)
  end.

End Formats.

(** [displayCompletion()] *)
Definition displayCompletion (cli : t) : list Event :=
  if truthy (currentAppId cli) && truthy (currentDepotId cli)
     && truthy (currentManifestId cli)
  then
    [ ConsoleLog (nl ++ "Process completed successfully.");
      ConsoleLog (nl ++ "COMMAND TO USE IN STEAM CONSOLE:");
      ConsoleLog (" " ++ steamCommand cli ++ " ");
      ConsoleLog (nl ++ "When the Steam console opens, paste the command to start the download.") ]
  else [ConsoleLog (nl ++ "Search completed.")].

Definition contentFolder (cli : t) : string :=
  "Steam\steamapps\content\app_" ++ toStr (currentAppId cli)
    ++ "\depot_" ++ toStr (currentDepotId cli).

(** [displayPostDownloadInstructions()] *)
Definition displayPostDownloadInstructions (cli : t) : list Event :=
  [ ConsoleLog (nl ++ "IMPORTANT POST-DOWNLOAD INSTRUCTIONS:");
    ConsoleLog "1. After running the command, wait for the download to complete (there is no progress indicator)";
    ConsoleLog ("2. When complete, you'll see a message like: " ++ dquote
                  ++ "Depot download complete : [path] ([files], manifest [id])" ++ dquote);
    ConsoleLog ("3. Go to the download location shown in the message (usually in "
                  ++ contentFolder cli ++ ")");
    ConsoleLog "4. Copy all files from this folder to your game installation directory to complete the update";
    ConsoleLog (nl ++ "Tip: You can open the download location directly by entering this in File Explorer address bar:");
    ConsoleLog (" %PROGRAMFILES(X86)%\" ++ contentFolder cli ++ " ") ].

(** [openSteamConsole(steamCommand, clipboardSuccess)]; [opened] is the
    error [exec] passes to the callback for the command that opens the
    console, [null] when it ran. *)
Definition openSteamConsole (cli : t) (steamCommand : string) (clipboardSuccess : bool)
           (opened : JsVal) : list Event :=
  let note :=
    "IMPORTANT: Wait for download to complete (no progress indicator). After completion, copy files from "
      ++ contentFolder cli ++ " to your game folder." in
  let commandWithNotes := steamCommand ++ nl ++ nl ++ note in
  Exec "start steam://open/console" ::
  if truthy opened then
    ([ ConsoleLog (nl ++ "Could not open Steam console: "
                      ++ toStr (getPropOpt opened "message"));
       ConsoleLog "Please open Steam console manually and paste the command." ]
     ++ (if clipboardSuccess
         then [ConsoleLog (nl ++ "✓ Command copied to clipboard")]
         else [ ConsoleLog (nl ++ "Could not copy command to clipboard.");
                ConsoleLog (nl ++ "USE THIS COMMAND:");
                ConsoleLog (" " ++ commandWithNotes ++ " ") ]))%list
  else
    (ConsoleLog (nl ++ "✓ Steam console activated with command!")
     :: (if clipboardSuccess
         then [ ConsoleLog "✓ Command copied to clipboard";
                ConsoleLog "The download command should automatically appear in the Steam console." ]
         else [ ConsoleLog "Could not copy command to clipboard.";
                ConsoleLog "Verify that the command is in the Steam console:";
                ConsoleLog (" " ++ steamCommand ++ " ") ])
     ++ displayPostDownloadInstructions cli)%list.

(** What follows [generateSteamCommand] once the copy to the clipboard has
    settled: the callback of its [exec] opens the console.  [copied] is the
    error of the copy, [null] when it succeeded. *)
Definition afterClipboard (cli : t) (copied opened : JsVal) : list Event :=
  openSteamConsole cli (steamCommand cli) (negb (truthy copied)) opened.

End CLI.

(** ** The application: [start], up to the search

    [start] logs in, asks for the search term and searches; the steps after
    the search send nothing to the store. *)
Module SteamSearchApp.

(** The world a run meets: how the login settles, what [tasklist] gives,
    what the user types at the search prompt, what the store answers. *)
Record World : Type := mkWorld {
  login : Res unit;
  tasklist : CLI.ExecResult;
  typed : list string;
  store : SteamSearch.Store
}.

(** [None] when the run waits at the prompt for ever. *)
Definition startSearch (w : World)
  : list Event * option (Res (list SteamSearch.App.t)) :=
  let loggingIn := [ConsoleLog "Logging in anonymously to Steam..."] in
  match login w with
  | Throw err =>
      ((loggingIn ++ [ConsoleError [JStr "Error logging in:"; getPropOpt err "message"]])%list,
       Some (Throw err))
  | Ok _ =>
      let loggedIn := (loggingIn ++ [ConsoleLog "✓ Successfully logged in anonymously"])%list in
      let (asked, answer) := CLI.getSearchTerm (tasklist w) (typed w) in
      match answer with
      | None => ((loggedIn ++ asked)%list, None)
      | Some (Throw e) => ((loggedIn ++ asked)%list, Some (Throw e))
      | Some (Ok searchTerm) =>
          let (searched, games) := SteamSearch.searchGames (store w) searchTerm in
          ((loggedIn ++ asked ++ searched)%list, Some games)
      end
  end.

End SteamSearchApp.

(** ** The application: a whole run of [start]

    A run is what [start] does from the login to the end, with what the
    callback of the copy to the clipboard does after it.  Its trace holds
    what [CLI] and [SteamSearch] print, ask and send, and the log-offs; the
    lines [SteamClient] prints while it fetches are left out of it, as they
    are out of its model. *)
Module Flow.

Inductive Step : Type :=
| Did (e : Event)
| LogOff.

(** How a run ends: [start] returns, [process.exit] is called with a code,
    a prompt stays open, an error leaves [start] uncaught, or a callback
    throws. *)
Inductive Ending : Type :=
| Completed
| Exited (code : Z)
| Waiting
| Threw (error : JsVal)
| Crashed (error : JsVal).

(** What a run meets: the error of the login, if any; what [tasklist]
    gives; what the user types at the search prompt; what the store
    answers; the places of the user's picks in the three menus; what Steam
    gives for the product when the depots and when the manifests are
    fetched; the clock; how the copy to the clipboard and the opening of the
    console go. *)
Record Run : Type := mkRun {
  loginError : option JsVal;
  tasklist : CLI.ExecResult;
  typed : list string;
  store : SteamSearch.Store;
  pickGame : nat;
  depotFetch : SteamClient.Fetch;
  pickDepot : nat;
  manifestFetch : SteamClient.Fetch;
  clock : SteamClient.Clock;
  menuClock : nat -> Z;
  pickManifest : nat;
  copied : JsVal;
  opened : JsVal
}.

(** A part of a run: its trace, and its result or the end of the run. *)
Definition Stage (A : Type) : Type := list Step * (A + Ending).

Definition andThen {A B : Type} (s : Stage A) (k : A -> Stage B) : Stage B :=
  match s with
  | (trace, inl a) => let (more, r) := k a in ((trace ++ more)%list, r)
  | (trace, inr ending) => (trace, inr ending)
  end.

Notation "x <~ s ;; k" := (andThen s (fun x => k))
  (at level 61, s at next level, right associativity).

Definition did (events : list Event) : list Step := map Did events.

(** A function that prints and returns. *)
Definition printed (events : list Event) : Stage unit := (did events, inl tt).

(** A promise inside the [try] block of [start]. *)
Definition awaited {A : Type} (r : list Event * option (Res A)) : Stage A :=
  match r with
  | (events, Some (Ok a)) => (did events, inl a)
  | (events, Some (Throw e)) => (did events, inr (Threw e))
  | (events, None) => (did events, inr Waiting)
  end.

(** A prompt that cannot fail. *)
Definition asked {A : Type} (r : list Event * option A) : Stage A :=
  awaited (fst r, option_map Ok (snd r)).

(** [SteamClient.login()] *)
Definition login (loginError : option JsVal) : Stage unit :=
  match loginError with
  | None =>
      printed [ ConsoleLog "Logging in anonymously to Steam...";
                ConsoleLog "✓ Successfully logged in anonymously" ]
  | Some err =>
      match getProp err "message" with
      | Ok message =>
          (did [ ConsoleLog "Logging in anonymously to Steam...";
                 ConsoleError [JStr "Error logging in:"; message] ],
           inr (Threw err))
      | Throw raised =>
          (did [ConsoleLog "Logging in anonymously to Steam..."], inr (Crashed raised))
      end
  end.

(** [SteamClient.logout()] *)
Definition logout : Stage unit :=
  ([LogOff; Did (ConsoleLog "Logged out of Steam.")], inl tt).

(** [process.exit(code)] *)
Definition exit {A : Type} (code : Z) : Stage A := ([], inr (Exited code)).

Section Formats.
Variable formatSize : JsVal -> string.
Variable toLocaleString : option Z -> string.

(** What [start] does with the depot that was picked; it returns the
    handler as the details of the manifest left it. *)
Definition withDepot (w : Run) (appid : JsVal) (selectedDepot : SteamClient.Depot.t)
  : Stage CLI.t :=
  _ <~ printed (CLI.displayDepotDetails formatSize (Some selectedDepot)) ;;
  manifests <~ awaited ([], Some (SteamClient.getDepotManifests
                                     (clock w) appid
                                     (SteamClient.Depot.id selectedDepot)
                                     (manifestFetch w))) ;;
  selectedManifest <~ asked (CLI.selectManifest toLocaleString (menuClock w)
                                                manifests (pickManifest w)) ;;
  match selectedManifest with
  | Some manifest =>
      let (cli, events) :=
        CLI.displayManifestDetails toLocaleString CLI.new (Some manifest) appid
                                   (SteamClient.Depot.id selectedDepot) in
      (did events, inl cli)
  | None => ([], inl CLI.new)
  end.

(** The [try] block of [start] from the menu of the games on. *)
Definition afterSearch (w : Run) (games : list SteamSearch.App.t) : Stage CLI.t :=
  selectedGame <~ asked (CLI.selectGame games (pickGame w)) ;;
  _ <~ printed (CLI.displayGameDetails selectedGame) ;;
  depots <~ awaited ([], Some (SteamClient.getGameDepots
                                 (SteamSearch.App.appid selectedGame) (depotFetch w))) ;;
  selectedDepot <~ asked (CLI.selectDepot depots (pickDepot w)) ;;
  cli <~ (match selectedDepot with
          | Some depot => withDepot w (SteamSearch.App.appid selectedGame) depot
          | None => ([], inl CLI.new)
          end) ;;
  _ <~ logout ;;
  _ <~ printed (CLI.displayCompletion cli) ;;
  ([], inl cli).

(** The [try] block of [start]. *)
Definition startBody (w : Run) : Stage CLI.t :=
  _ <~ login (loginError w) ;;
  searchTerm <~ awaited (CLI.getSearchTerm (tasklist w) (typed w)) ;;
  games <~ awaited (let (events, r) := SteamSearch.searchGames (store w) searchTerm in
                    (events, Some r)) ;;
  match games with
  | [] => _ <~ logout ;; exit 0
  | _ :: _ => afterSearch w games
  end.

(** The command was made and sent to the clipboard. *)
Definition commandMade (cli : CLI.t) : bool :=
  truthy (CLI.currentAppId cli) && truthy (CLI.currentDepotId cli)
  && truthy (CLI.currentManifestId cli).

(** [start()], and the callbacks that follow it. *)
Definition start (w : Run) : list Step * Ending :=
  match startBody w with
  | (trace, inl cli) =>
      ((trace ++ (if commandMade cli
                  then did (CLI.afterClipboard cli (copied w) (opened w))
                  else []))%list,
       Completed)
  | (trace, inr (Threw error)) =>
      match getProp error "message" with
      | Ok message =>
          ((trace ++ Did (ConsoleError [JStr "Error:"; message])
                  :: LogOff :: Did (ConsoleLog "Logged out of Steam.") :: [])%list,
           Exited 1)
      | Throw raised => (trace, Threw raised)
      end
  | (trace, inr ending) => (trace, ending)
  end.

End Formats.

End Flow.

(** ** The words of the specification *)

(** A depot key that is a valid positive integer id: decimal digits only,
    at least one, with a value above zero. *)
Definition isPositiveIntegerId (k : string) : bool :=
  negb (k =? "")%string && Str.allDigits k &&
  match Str.digitsFrom Str.isDigit Str.digitValue 10 None k with
  | Some n => 0 <? n
  | None => false
  end.

(** [sub] occurs in [s]. *)
Definition Substring (sub s : string) : Prop :=
  exists pre post, s = pre ++ sub ++ post.

(** A manifest carries a timestamp when its [timeupdated] is truthy and
    reads as a number: a number other than 0, or the digits of one, as Steam
    gives them.  The entries without a timestamp hold [null]. *)
Definition carriesTimestamp (m : SteamClient.Manifest.t) : bool :=
  truthy (SteamClient.Manifest.timeupdated m) &&
  negb (isNaN (toNumber (SteamClient.Manifest.timeupdated m))).

Definition epochSeconds (m : SteamClient.Manifest.t) : Z :=
  match toNumber (SteamClient.Manifest.timeupdated m) with
  | Some n => n
  | None => 0
  end.

(** A list is in descending order of timestamp. *)
Definition Descending (l : list SteamClient.Manifest.t) : Prop :=
  StronglySorted (fun a b => epochSeconds b <= epochSeconds a) l.

(** The test of the comparison function: [timeupdated] is truthy. *)
Definition hasTime (m : SteamClient.Manifest.t) : bool :=
  truthy (SteamClient.Manifest.timeupdated m).


(** The fixed form of the console command. *)
Definition commandForm (appId depotId manifestId : string) : string :=
  joinWith " " ["download_depot"; appId; depotId; manifestId].

(** A string that holds no line feed and no carriage return. *)
Fixpoint singleLine (s : string) : bool :=
  match s with
  | String c r =>
      negb (Nat.eqb (nat_of_ascii c) 10) && negb (Nat.eqb (nat_of_ascii c) 13)
      && singleLine r
  | EmptyString => true
  end.

(** The lines of a list up to the first that is not blank, and that line. *)
Fixpoint blankPrefix (typed : list string) : list string :=
  match typed with
  | [] => []
  | input :: later =>
      if Str.allWhiteSpace input then input :: blankPrefix later else []
  end.

Fixpoint firstNonBlank (typed : list string) : option string :=
  match typed with
  | [] => None
  | input :: later =>
      if Str.allWhiteSpace input then firstNonBlank later else Some input
  end.

(** The terms of the search requests of a trace. *)
Definition searchedTerms (trace : list Event) : list string :=
  flat_map (fun e => match e with
                     | HttpGet _ params _ =>
                         map snd (filter (fun p => (fst p =? "term")%string) params)
                     | _ => []
                     end) trace.

Import SteamClient.

(** ** Notions of the statements *)

Definition isNullish (v : JsVal) : bool :=
  match v with
  | JUndefined | JNull => true
  | _ => false
  end.

Definition depotsOrNone (r : Res (list Depot.t)) : list Depot.t :=
  match r with
  | Ok depots => depots
  | Throw _ => []
  end.

(** What a computation throws, when it throws, is an object. *)
Definition ThrowsObject {A : Type} (r : Res A) : Prop :=
  match r with
  | Ok _ => True
  | Throw e => isNullish e = false
  end.

(** An explicit OS list: an array, or a string that is not empty. *)
Definition isOsList (v : JsVal) : bool :=
  match v with
  | JArr _ => true
  | JStr s => negb (s =? "")%string
  | _ => false
  end.

(** The OS list names [x]: it holds [x] when an array, and [x] occurs in it
    when a string. *)
Definition Names (oslist : JsVal) (x : string) : Prop :=
  match oslist with
  | JArr elems => In (JStr x) elems
  | JStr s => Substring x s
  | _ => False
  end.

(** The depot table of a product, [undefined] when a step to it is missing. *)
Definition depotTable (productInfo : JsVal) : JsVal :=
  getPropOpt (getPropOpt productInfo "appinfo") "depots".

(** No entry of an object is [null] or [undefined]. *)
Definition entriesDefined (v : JsVal) : bool :=
  forallb (fun k => negb (isNullish (getPropOpt v k))) (forInKeys v) &&
  forallb (fun entry => negb (isNullish (snd entry))) (entries v).

(** The manifest map of the depot [depotId] in a depot table. *)
Definition manifestMap (depotData depotId : JsVal) : JsVal :=
  getPropOpt (getPropOpt depotData (toStr depotId)) "manifests".

Definition branchTable (depotData : JsVal) : JsVal :=
  getPropOpt depotData "branches".

Definition sampleIds : list JsVal :=
  [ JStr "2946550127499212992"; JStr "4931450830400310210";
    JStr "9512939615798864588"; JStr "2488226670458163874";
    JStr "8387145243060614243" ].

Definition manifestsOrNone (r : Res (list Manifest.t)) : list Manifest.t :=
  match r with
  | Ok manifests => manifests
  | Throw _ => []
  end.

Definition pleaseEnter : JsVal := JStr "Please enter a game name to search".

(** ** Inputs of the examples *)

(** A request that failed. *)
Definition timedOut : Fetch :=
  {| err := JObj [("name", JStr "Error"); ("message", JStr "Request timed out")];
     productInfo := JUndefined |}.

Definition noProductInfo : JsVal := JUndefined.

Definition noAppinfo : JsVal := JObj [("changenumber", JNum 1)].

(** The product information of an application that declares no depot. *)
Definition stardewWithoutDepots : JsVal :=
  JObj [("appinfo",
         JObj [("appid", JStr "413150");
               ("common", JObj [("name", JStr "Stardew Valley")]);
               ("depots", JObj [("branches",
                                 JObj [("public", JObj [("buildid", JStr "8071262")])]);
                                ("baselanguages", JStr "english")])])].

(** A depot table as Steam gives it, with three keys that are not ids. *)
Definition stardewDepots : JsVal :=
  JObj [("413153", JObj [("name", JStr "Windows content");
                         ("config", JObj [("oslist", JStr "windows")]);
                         ("maxsize", JStr "657457152")]);
        ("413154", JObj [("name", JStr "Mac content");
                         ("config", JObj [("oslist", JStr "macos")])]);
        ("413155", JObj [("name", JStr "Linux content")]);
        ("baselanguages", JStr "english");
        ("branches", JObj [("public", JObj [("buildid", JStr "8071262");
                                            ("timeupdated", JStr "1647678332")])])].

(** A depot table with a key that [parseInt] reads as a number although it
    is no positive integer id. *)
Definition signedKeyDepots : JsVal :=
  JObj [("413153", JObj [("name", JStr "Windows content")]);
        ("-5", JObj [("name", JStr "Old content")]);
        ("branches", JObj [("public", JObj [("buildid", JStr "8071262")])])].

(** A depot for two systems: the first name the list holds, in the order
    windows, macos, linux, decides. *)
Definition macAndLinuxDepot : JsVal :=
  JObj [("name", JStr "Unix content");
        ("config", JObj [("oslist", JArr [JStr "linux"; JStr "macos"])])].

Definition stardew (depots : JsVal) : JsVal :=
  JObj [("appinfo",
         JObj [("appid", JStr "413150");
               ("common", JObj [("name", JStr "Stardew Valley")]);
               ("depots", depots)])].

(** A clock that stands still. *)
Definition at1700000000 : Clock := fun _ => 1700000000.

(** A depot table whose branch table holds [null] for a branch. *)
Definition nullBranchDepots : JsVal :=
  JObj [("413153", JObj [("name", JStr "Windows content")]);
        ("branches", JObj [("public", JNull)])].

(** A depot table in which the depot has no manifest map, and that declares
    no branches. *)
Definition bareDepots : JsVal :=
  JObj [("413153", JObj [("name", JStr "Windows content")])].

(** A branch that gives no time of update. *)
Definition untimedBranchDepots : JsVal :=
  JObj [("413153", JObj [("name", JStr "Windows content")]);
        ("branches", JObj [("public", JObj [("buildid", JStr "8071262")])])].

Definition untimedBranchManifests : list Manifest.t :=
  manifestsOrNone
    (getDepotManifests at1700000000 (JNum 413150) (JStr "413153")
       (Resolved (stardew untimedBranchDepots))).

(** The manifest of a branch, with a given time of update. *)
Definition publicBranch (timeupdated : JsVal) : Manifest.t :=
  {| Manifest.manifestId := JStr "8881193748180768755";
     Manifest.buildId := JStr "8071262";
     Manifest.branch := JStr "public";
     Manifest.description := JStr "";
     Manifest.timeupdated := timeupdated;
     Manifest.size := JUndefined;
     Manifest.isPublic := true;
     Manifest.isHistorical := false;
     Manifest.rawData := JObj [("buildid", JStr "8071262")] |}.

Definition emptyStore : SteamSearch.Store :=
  fun _ => SteamSearch.HttpOk
             (JObj [("data", JObj [("total", JNum 0); ("items", JArr [])])]).

Definition steamIsRunning : CLI.ExecResult :=
  {| CLI.error := JNull;
     CLI.stdout := "steam.exe                     4242 Console                    1    212,104 K" |}.

(** A run in which the user submits two blank lines and then a name. *)
Definition twoBlankLines : SteamSearchApp.World :=
  {| SteamSearchApp.login := Ok tt;
     SteamSearchApp.tasklist := steamIsRunning;
     SteamSearchApp.typed := [""; "   "; "Stardew Valley"];
     SteamSearchApp.store := emptyStore |}.

(** The state after a manifest of Stardew Valley has been chosen. *)
Definition stardewChoice : CLI.t :=
  {| CLI.currentAppId := JNum 413150;
     CLI.currentDepotId := JStr "413153";
     CLI.currentManifestId := JStr "8881193748180768755" |}.

(** ** Notions and inputs of the further properties *)

Definition searching (searchTerm : string) : list Event :=
  [ ConsoleLog ("Searching for games matching: " ++ searchTerm);
    HttpGet SteamSearch.apiUrl [("term", searchTerm); ("l", "english"); ("cc", "US")]
      SteamSearch.headers ].

Definition refusingStore : SteamSearch.Store :=
  fun _ => SteamSearch.HttpFail
             (JObj [("name", JStr "AxiosError");
                    ("message", JStr "Request failed with status code 429")]).

(** What the store answers for "Stardew Valley": the game, with a price,
    and its soundtrack, without one. *)
Definition stardewStore : SteamSearch.Store :=
  fun _ => SteamSearch.HttpOk
    (JObj [("data",
            JObj [("total", JNum 2);
                  ("items",
                   JArr [ JObj [("type", JStr "app"); ("name", JStr "Stardew Valley");
                                ("id", JNum 413150);
                                ("price", JObj [("currency", JStr "USD");
                                                ("initial", JNum 1499);
                                                ("final", JNum 1499);
                                                ("discount_percent", JNum 0)]);
                                ("tiny_image", JStr "capsule_231x87.jpg")];
                          JObj [("type", JStr "app");
                                ("name", JStr "Stardew Valley Soundtrack");
                                ("id", JNum 440820);
                                ("tiny_image", JStr "capsule_231x87.jpg")] ])])]).

Definition isExec (e : Event) : bool :=
  match e with
  | Exec _ => true
  | _ => false
  end.

(** The number of log-offs of a trace. *)
Definition logOffs (trace : list Flow.Step) : nat :=
  List.length (filter (fun s => match s with Flow.LogOff => true | _ => false end) trace).

(** The number of log-offs a run owes at its end: one when [start] has
    returned or the process has exited, none as long as it waits or when it
    was left by an error that nothing caught. *)
Definition logOffsDue (ending : Flow.Ending) : nat :=
  match ending with
  | Flow.Completed | Flow.Exited _ => 1
  | Flow.Waiting | Flow.Threw _ | Flow.Crashed _ => 0
  end.

(** A part of a run that leaves [n] log-offs behind when the run goes on,
    and the log-offs due when the run ends in it. *)
Definition Counted (n : nat) {A : Type} (s : Flow.Stage A) : Prop :=
  match snd s with
  | inl _ => logOffs (fst s) = n
  | inr ending => logOffs (fst s) = logOffsDue ending
  end.

(** Where a part of a run can end; the parts after the search end in no
    exit. *)
Definition EndsIn (P : Flow.Ending -> Prop) {A : Type} (s : Flow.Stage A) : Prop :=
  forall ending, snd s = inr ending -> P ending.

(** A run in which the store knows no game of the name. *)
Definition nothingFound : Flow.Run :=
  {| Flow.loginError := None;
     Flow.tasklist := steamIsRunning;
     Flow.typed := ["Stardew Valey"];
     Flow.store := emptyStore;
     Flow.pickGame := 0;
     Flow.depotFetch := timedOut;
     Flow.pickDepot := 0;
     Flow.manifestFetch := timedOut;
     Flow.clock := at1700000000;
     Flow.menuClock := at1700000000;
     Flow.pickManifest := 0;
     Flow.copied := JNull;
     Flow.opened := JNull |}.

(** A run in which Steam is not running. *)
Definition steamClosed : Flow.Run :=
  {| Flow.loginError := None;
     Flow.tasklist := {| CLI.error := JNull;
                         CLI.stdout := "INFO: No tasks are running which match the specified criteria." |};
     Flow.typed := ["Stardew Valley"];
     Flow.store := stardewStore;
     Flow.pickGame := 0;
     Flow.depotFetch := Resolved (stardew stardewDepots);
     Flow.pickDepot := 0;
     Flow.manifestFetch := Resolved (stardew stardewDepots);
     Flow.clock := at1700000000;
     Flow.menuClock := at1700000000;
     Flow.pickManifest := 0;
     Flow.copied := JNull;
     Flow.opened := JNull |}.

(** A depot with a manifest map, as Steam gives it for a branch. *)
Definition depotWithManifests : JsVal :=
  JObj [("413153",
         JObj [("name", JStr "Windows content");
               ("manifests",
                JObj [("public", JObj [("gid", JStr "8881193748180768755");
                                       ("size", JStr "657457152")])])])].

(** The events of a trace, and the commands among them: what a run has
    executed, in order. *)
Definition eventsOf (trace : list Flow.Step) : list Event :=
  flat_map (fun s => match s with Flow.Did e => [e] | Flow.LogOff => [] end) trace.

Definition executed (trace : list Flow.Step) : list Event :=
  filter isExec (eventsOf trace).

(** The copy to the clipboard [generateSteamCommand] starts for a handler
    that holds the three ids. *)
Definition clipboardCommand (cli : CLI.t) : string :=
  "powershell -command " ++ dquote ++ "Set-Clipboard -Value '"
    ++ CLI.commandWithNotes cli ++ "'" ++ dquote.

Definition clipboard (cli : CLI.t) : list Event :=
  if Flow.commandMade cli then [Exec (clipboardCommand cli)] else [].

(** A part of a run that executes nothing, and a part that executes the
    copy to the clipboard of the handler it leaves, and nothing when the run
    ends in it. *)
Definition Quiet {A : Type} (s : Flow.Stage A) : Prop := executed (fst s) = [].

Definition Copies (s : Flow.Stage CLI.t) : Prop :=
  executed (fst s) = match snd s with
                     | inl cli => clipboard cli
                     | inr _ => []
                     end.

(** A run that goes through: the user picks the first game, its first depot
    and the first manifest of the menu. *)
Definition stardewRun : Flow.Run :=
  {| Flow.loginError := None;
     Flow.tasklist := steamIsRunning;
     Flow.typed := ["Stardew Valley"];
     Flow.store := stardewStore;
     Flow.pickGame := 0;
     Flow.depotFetch := Resolved (stardew stardewDepots);
     Flow.pickDepot := 0;
     Flow.manifestFetch := Resolved (stardew stardewDepots);
     Flow.clock := at1700000000;
     Flow.menuClock := at1700000000;
     Flow.pickManifest := 0;
     Flow.copied := JNull;
     Flow.opened := JNull |}.

(** ** Notions and inputs of the order of the manifests *)


(** The manifest of a branch has no time, or the historical manifest
    carries a timestamp. *)
Definition timedByKind (m : Manifest.t) : bool :=
  if Manifest.isHistorical m then carriesTimestamp m else negb (hasTime m).

(** Keys by which the comparison orders a list: the larger key first.
    [newest] is above no timestamp of the list. *)
Definition newest (l : list Manifest.t) : Z :=
  fold_right Z.max 0 (map epochSeconds l).

Definition kindKey (l : list Manifest.t) (m : Manifest.t) : Z :=
  if Manifest.isHistorical m then epochSeconds m else newest l + 1.

Definition currentKey (m : Manifest.t) : Z :=
  if Manifest.isHistorical m then 0 else 1.


(** A request of the trace. *)
Definition isHttpGet (e : Event) : bool :=
  match e with
  | HttpGet _ _ _ => true
  | _ => false
  end.

(** * Properties *)

(** ** Property access and loops *)

Lemma getProp_defined (v : JsVal) (k : string) :
  isNullish v = false -> getProp v k = Ok (getPropOpt v k).
Proof.
  destruct v; simpl; try discriminate; intros _; try reflexivity.
  - destruct (String.eqb k "length"); [reflexivity|].
    destruct (arrayIndex k); reflexivity.
  - destruct (String.eqb k "length"); [reflexivity|].
    destruct (arrayIndex k); reflexivity.
Qed.

Lemma truthy_defined (v : JsVal) : truthy v = true -> isNullish v = false.
Proof. destruct v; simpl; congruence. Qed.

Lemma getProp_truthy (v : JsVal) (k : string) :
  truthy v = true -> getProp v k = Ok (getPropOpt v k).
Proof. intros H. apply getProp_defined, truthy_defined, H. Qed.

Lemma getPropOpt_falsy (v : JsVal) (k : string) :
  truthy v = false -> truthy (getPropOpt v k) = false.
Proof.
  intros H. destruct v as [| |b|n|s|elems|props]; simpl in *;
    try reflexivity; try discriminate.
  destruct (String.eqb_spec s ""); [|discriminate]. subst.
  destruct (String.eqb k "length"); [reflexivity|].
  destruct (arrayIndex k) as [[|i]|]; reflexivity.
Qed.

Lemma forEachM_nil {A B : Type} (f : A -> Res (list B)) (l : list A) :
  (forall x, In x l -> f x = Ok []) -> forEachM f l = Ok [].
Proof.
  induction l as [|x r IH]; intros H; simpl; [reflexivity|].
  rewrite (H x (or_introl eq_refl)). simpl.
  rewrite IH; [reflexivity|]. intros y Hy. apply H. right. exact Hy.
Qed.

(** When the loop completes, what it has pushed is what its body pushed for
    some element. *)
Lemma forEachM_In {A B : Type} (f : A -> Res (list B)) (l : list A) (out : list B) :
  forEachM f l = Ok out ->
  forall b, In b out <-> exists x pushed, In x l /\ f x = Ok pushed /\ In b pushed.
Proof.
  revert out. induction l as [|x r IH]; intros out H b; simpl in H.
  - injection H as <-. split; [intros []|intros (x & p & [] & _)].
  - destruct (f x) as [pushed|e] eqn:Ef; simpl in H; [|discriminate].
    destruct (forEachM f r) as [rest|e] eqn:Er; simpl in H; [|discriminate].
    injection H as <-. rewrite in_app_iff, (IH rest eq_refl b). split.
    + intros [Hb|(y & p & Hy & Hp & Hb)].
      * exists x, pushed. simpl. auto.
      * exists y, p. simpl. auto.
    + intros (y & p & [<-|Hy] & Hp & Hb).
      * left. rewrite Ef in Hp. injection Hp as <-. exact Hb.
      * right. exists y, p. auto.
Qed.

(** ** What is thrown *)

Lemma thrown_bind {A B : Type} (r : Res A) (k : A -> Res B) :
  ThrowsObject r -> (forall a, ThrowsObject (k a)) -> ThrowsObject (bind r k).
Proof. destruct r as [a|e]; simpl; intros Hr Hk; [apply Hk|exact Hr]. Qed.

Lemma thrown_getProp (v : JsVal) (k : string) : ThrowsObject (getProp v k).
Proof.
  destruct v; simpl; try reflexivity; try exact I;
    destruct (String.eqb k "length"); try exact I;
    destruct (arrayIndex k); exact I.
Qed.

Lemma thrown_includes (v : JsVal) (x : string) : ThrowsObject (includes v x).
Proof. destruct v; simpl; try reflexivity; exact I. Qed.

Lemma thrown_toLowerCase (v : JsVal) : ThrowsObject (toLowerCase v).
Proof. destruct v; simpl; try reflexivity; exact I. Qed.

Lemma thrown_forEachM {A B : Type} (f : A -> Res (list B)) (l : list A) :
  (forall x, ThrowsObject (f x)) -> ThrowsObject (forEachM f l).
Proof.
  intros Hf. induction l as [|x r IH]; simpl; [exact I|].
  apply thrown_bind; [apply Hf|]. intros pushed.
  apply thrown_bind; [exact IH|]. intros rest. exact I.
Qed.

Lemma thrown_await (fetch : Fetch) : ThrowsObject (await fetch).
Proof.
  unfold await. destruct (truthy (err fetch)) eqn:He; simpl; [|exact I].
  apply truthy_defined, He.
Qed.

Ltac thrown :=
  repeat first
    [ exact I
    | apply thrown_getProp
    | apply thrown_includes
    | apply thrown_toLowerCase
    | apply thrown_await
    | apply thrown_forEachM; intros
    | apply thrown_bind; [|intros]
    | match goal with
      | |- ThrowsObject (if ?c then _ else _) => destruct c
      | |- ThrowsObject (let (_, _) := ?c in _) => destruct c
      | |- ThrowsObject (match ?c with Some _ => _ | None => _ end) => destruct c
      | |- ThrowsObject (match ?c with nil => _ | cons _ _ => _ end) => destruct c
      end
    | progress cbn beta iota ].

Lemma thrown_getOsType (depot : JsVal) : ThrowsObject (getOsType depot).
Proof. unfold getOsType. thrown. Qed.

Lemma thrown_getGameDepotsBody (appId : JsVal) (fetch : Fetch) :
  ThrowsObject (getGameDepotsBody appId fetch).
Proof.
  unfold getGameDepotsBody, extractDepots, depotOf.
  thrown; apply thrown_getOsType.
Qed.

Lemma thrown_getDepotManifestsBody (clock : Clock) (appId depotId : JsVal) (fetch : Fetch) :
  ThrowsObject (getDepotManifestsBody clock appId depotId fetch).
Proof.
  unfold getDepotManifestsBody, collectManifests, directManifests, branchManifests,
    branchManifest.
  thrown.
Qed.

(** Neither function raises: what its [try] block throws is caught, and the
    [catch] block reads the message of an object. *)
Lemma getGameDepots_returns (appId : JsVal) (fetch : Fetch) :
  exists depots, getGameDepots appId fetch = Ok depots.
Proof.
  unfold getGameDepots, tryCatch.
  pose proof (thrown_getGameDepotsBody appId fetch) as H.
  destruct (getGameDepotsBody appId fetch) as [depots|e]; [eexists; reflexivity|].
  simpl in H. rewrite (getProp_defined _ _ H). eexists. reflexivity.
Qed.

Lemma getDepotManifests_caught (clock : Clock) (appId depotId : JsVal) (fetch : Fetch)
      (e : JsVal) :
  getDepotManifestsBody clock appId depotId fetch = Throw e ->
  getDepotManifests clock appId depotId fetch = Ok [].
Proof.
  intros He. unfold getDepotManifests, tryCatch.
  pose proof (thrown_getDepotManifestsBody clock appId depotId fetch) as H.
  rewrite He in *. simpl in H. rewrite (getProp_defined _ _ H). reflexivity.
Qed.

(** ** Depots *)

Lemma extractDepots_none (depotData : JsVal) :
  (forall k, In k (forInKeys depotData) -> skipsKey k = true) ->
  extractDepots depotData = Ok [].
Proof.
  intros H. unfold extractDepots. apply forEachM_nil.
  intros k Hk. rewrite (H k Hk). reflexivity.
Qed.

Lemma depotOf_id (depotData : JsVal) (k : string) (d : Depot.t) :
  depotOf depotData k = Ok d -> Depot.id d = JStr k.
Proof.
  unfold depotOf, bind. intros H.
  repeat match type of H with
         | match ?c with Ok _ => _ | Throw _ => _ end = _ =>
             destruct c; [|discriminate]
         end.
  injection H as <-. reflexivity.
Qed.

(** C10: when the fetch of the product information fails, whatever the
    error, [getGameDepots] does not fail: it returns exactly one depot, whose
    id is the requested app id, whose name is "App <appId>" and whose OS type
    is "Unknown". *)
Theorem getGameDepots_fetch_error (appId : JsVal) (fetch : Fetch) :
  truthy (err fetch) = true ->
  exists d,
    getGameDepots appId fetch = Ok [d] /\
    Depot.id d = appId /\
    Depot.name d = JStr ("App " ++ toStr appId) /\
    Depot.osType d = JStr "Unknown".
Proof.
  intros He. exists (fallbackDepot appId (JStr ("App " ++ toStr appId))).
  split; [|repeat split].
  unfold getGameDepots, getGameDepotsBody, await. rewrite He. simpl.
  rewrite (getProp_truthy _ _ He). reflexivity.
Qed.

Lemma getGameDepots_fetch_error_witness :
  exists d,
    getGameDepots (JNum 413150) timedOut = Ok [d] /\
    Depot.id d = JNum 413150 /\
    Depot.name d = JStr "App 413150" /\
    Depot.osType d = JStr "Unknown".
Proof.
  apply (getGameDepots_fetch_error (JNum 413150) timedOut). reflexivity.
Defined.

(** C1, as the code has it: without product information, or without its
    [appinfo] record, [getGameDepots] returns the empty list; with an
    [appinfo] record whose depot table is absent or holds no key that is
    kept, it returns exactly one depot, whose id is the app id, whose name is
    the display name of the app, or "App <appId>" without one, and whose OS
    type is "Unknown". *)
Theorem getGameDepots_fallback (appId productInfo : JsVal) :
  let appinfo := getPropOpt productInfo "appinfo" in
  let depotData := getPropOpt appinfo "depots" in
  let displayName := getPropOpt (getPropOpt appinfo "common") "name" in
  (truthy appinfo = false ->
   getGameDepots appId (Resolved productInfo) = Ok []) /\
  (truthy appinfo = true ->
   (truthy depotData = true ->
    forall k, In k (forInKeys depotData) -> skipsKey k = true) ->
   exists d,
     getGameDepots appId (Resolved productInfo) = Ok [d] /\
     Depot.id d = appId /\
     Depot.name d = jsOr displayName (JStr ("App " ++ toStr appId)) /\
     Depot.osType d = JStr "Unknown").
Proof.
  intros appinfo depotData displayName.
  unfold getGameDepots, getGameDepotsBody. simpl.
  destruct (truthy productInfo) eqn:Hp; simpl.
  - rewrite (getProp_truthy _ _ Hp). fold appinfo. simpl. split.
    + intros Ha. rewrite Ha. reflexivity.
    + intros Ha Hkeys. rewrite Ha. simpl.
      rewrite (getProp_truthy _ _ Ha). fold depotData. simpl.
      assert (Hd : (if truthy depotData then extractDepots depotData else Ok [])
                   = Ok []).
      { destruct (truthy depotData); [|reflexivity].
        apply extractDepots_none. apply Hkeys. reflexivity. }
      rewrite Hd. simpl. rewrite (getProp_truthy _ _ Ha). simpl.
      eexists. repeat split.
  - split; [reflexivity|].
    intros Ha. unfold appinfo in Ha.
    rewrite (getPropOpt_falsy _ _ Hp) in Ha. discriminate.
Qed.

Lemma getGameDepots_fallback_witness :
  exists d,
    getGameDepots (JNum 413150) (Resolved stardewWithoutDepots) = Ok [d] /\
    Depot.id d = JNum 413150 /\
    Depot.name d = JStr "Stardew Valley" /\
    Depot.osType d = JStr "Unknown".
Proof.
  apply (proj2 (getGameDepots_fallback (JNum 413150) stardewWithoutDepots)).
  - reflexivity.
  - intros _ k Hk. simpl in Hk.
    destruct Hk as [<-|[<-|[]]]; reflexivity.
Defined.

(** C1, as stated, fails: for an application Steam returns no record of,
    and for a record without [appinfo], [getGameDepots] returns the empty
    list. *)
Lemma getGameDepots_may_return_empty :
  getGameDepots (JNum 413150) (Resolved noProductInfo) = Ok [] /\
  getGameDepots (JNum 413150) (Resolved noAppinfo) = Ok [].
Proof. split; reflexivity. Qed.

Lemma forEachM_defined {A B : Type} (f : A -> Res (list B)) (l : list A) (out : list B) :
  forEachM f l = Ok out -> forall x, In x l -> exists pushed, f x = Ok pushed.
Proof.
  revert out. induction l as [|y r IH]; intros out H x Hx; simpl in *; [contradiction|].
  destruct (f y) as [pushed|e] eqn:Ef; simpl in H; [|discriminate].
  destruct (forEachM f r) as [rest|e] eqn:Er; simpl in H; [|discriminate].
  destruct Hx as [<-|Hx].
  - exists pushed. exact Ef.
  - apply (IH rest eq_refl x Hx).
Qed.

Lemma digit_facts (c : ascii) :
  Str.isDigit c = true ->
  Str.isWhiteSpace c = false /\ Ascii.eqb c "-" = false /\ Ascii.eqb c "+" = false /\
  Ascii.eqb c "x" = false /\ Ascii.eqb c "X" = false /\ Ascii.eqb c "b" = false.
Proof.
  destruct c as [[] [] [] [] [] [] [] []]; vm_compute; intros H;
    try discriminate H; repeat split.
Qed.

Lemma digitsFrom_some (p : ascii -> bool) (val : ascii -> Z) (radix a : Z) (s : string) :
  Str.digitsFrom p val radix (Some a) s <> None.
Proof.
  revert a. induction s as [|c r IH]; intros a; simpl; [discriminate|].
  destruct (p c); [apply IH|discriminate].
Qed.

Lemma parseInt_digits (c : ascii) (r : string) :
  Str.allDigits (String c r) = true -> parseInt (String c r) <> None.
Proof.
  simpl. intros H. apply andb_true_iff in H as [Hc Hr].
  destruct (digit_facts c Hc) as (Hw & Hm & Hp & _).
  unfold parseInt. simpl. rewrite Hw, Hm, Hp.
  assert (Hdec : Str.digitsFrom Str.isDigit Str.digitValue 10 None (String c r) <> None).
  { simpl. rewrite Hc. apply digitsFrom_some. }
  match goal with
  | |- option_map _ ?m <> None =>
      assert (Hbody : m <> None); [|destruct m; [discriminate|contradiction]]
  end.
  destruct r as [|x r0].
  - destruct c as [[] [] [] [] [] [] [] []]; exact Hdec.
  - simpl in Hr. apply andb_true_iff in Hr as [Hx _].
    destruct (digit_facts x Hx) as (_ & _ & _ & Hx1 & Hx2 & _).
    rewrite Hx1, Hx2.
    destruct c as [[] [] [] [] [] [] [] []]; exact Hdec.
Qed.

Lemma positiveId_kept (k : string) :
  isPositiveIntegerId k = true -> skipsKey k = false.
Proof.
  unfold isPositiveIntegerId, skipsKey. intros H.
  apply andb_true_iff in H as [H _]. apply andb_true_iff in H as [Hne Hd].
  destruct k as [|c r]; [discriminate|].
  pose proof (parseInt_digits c r Hd) as Hp.
  apply orb_false_iff. split.
  - simpl in Hd. apply andb_true_iff in Hd as [Hc _].
    destruct (digit_facts c Hc) as (_ & _ & _ & _ & _ & Hb).
    simpl. rewrite Hb. reflexivity.
  - destruct (parseInt (String c r)); [reflexivity|contradiction].
Qed.

(** C7, as the code has it: when the loop over the depot table completes,
    a depot is produced for a key of the table exactly when the key is kept,
    that is, when it is not "branches" and [parseInt] of it is a number;
    every key that is a valid positive integer id is kept. *)
Theorem extractDepots_keys (depotData : JsVal) (depots : list Depot.t) :
  extractDepots depotData = Ok depots ->
  forall k, In k (forInKeys depotData) ->
    ((exists d, In d depots /\ Depot.id d = JStr k) <->
     k <> "branches" /\ parseInt k <> None) /\
    (isPositiveIntegerId k = true -> exists d, In d depots /\ Depot.id d = JStr k).
Proof.
  intros H k Hk.
  assert (Hkept : (exists d, In d depots /\ Depot.id d = JStr k) <-> skipsKey k = false).
  { split.
    - intros (d & Hd & Hid).
      apply (forEachM_In _ _ _ H) in Hd as (x & pushed & Hx & Hf & Hin).
      cbv beta in Hf. destruct (skipsKey x) eqn:Hs.
      + injection Hf as <-. destruct Hin.
      + destruct (depotOf depotData x) as [d'|e] eqn:Ed; simpl in Hf; [|discriminate].
        injection Hf as <-. destruct Hin as [<-|[]].
        apply depotOf_id in Ed. rewrite Ed in Hid. injection Hid as ->. exact Hs.
    - intros Hs.
      destruct (forEachM_defined _ _ _ H k Hk) as (pushed & Hf).
      cbv beta in Hf. rewrite Hs in Hf.
      destruct (depotOf depotData k) as [d|e] eqn:Ed; simpl in Hf; [|discriminate].
      exists d. split.
      + apply (forEachM_In _ _ _ H). exists k, [d]. rewrite Hs, Ed. simpl. auto.
      + apply (depotOf_id _ _ _ Ed). }
  split.
  - rewrite Hkept. unfold skipsKey. rewrite orb_false_iff. split.
    + intros [Hb Hn]. split.
      * intros ->. discriminate.
      * intros Hp. rewrite Hp in Hn. discriminate.
    + intros [Hb Hn]. split.
      * apply String.eqb_neq. exact Hb.
      * destruct (parseInt k); [reflexivity|contradiction].
  - intros Hpos. apply Hkept. apply positiveId_kept. exact Hpos.
Qed.

Lemma extractDepots_keys_witness :
  exists d,
    In d (depotsOrNone (extractDepots stardewDepots)) /\ Depot.id d = JStr "413155".
Proof.
  apply (proj2 (extractDepots_keys stardewDepots
                  (depotsOrNone (extractDepots stardewDepots))
                  eq_refl "413155" ltac:(simpl; tauto))).
  reflexivity.
Defined.

(** C7, as stated, fails: the key "-5" is no valid positive integer id, and
    a depot is produced for it. *)
Lemma getGameDepots_keeps_signed_key :
  In "-5" (forInKeys signedKeyDepots) /\
  isPositiveIntegerId "-5" = false /\
  exists d1 d2,
    getGameDepots (JNum 413150)
      (Resolved (JObj [("appinfo", JObj [("depots", signedKeyDepots)])]))
    = Ok [d1; d2] /\
    Depot.id d1 = JStr "413153" /\ Depot.id d2 = JStr "-5".
Proof.
  split; [simpl; tauto|]. split; [reflexivity|].
  eexists. eexists. split; [reflexivity|]. split; reflexivity.
Qed.

(** ** OS classification *)

Lemma prefix_app (p s : string) :
  prefix p s = true <-> exists post, s = p ++ post.
Proof.
  revert s. induction p as [|a p IH]; intros s.
  - split; [intros _; exists s; reflexivity|]. intros _. destruct s; reflexivity.
  - destruct s as [|b s]; simpl.
    + split; [discriminate|intros (post & H); discriminate].
    + destruct (ascii_dec a b) as [->|Hab].
      * rewrite IH. split; intros (post & H); exists post; congruence.
      * split; [discriminate|]. intros (post & H). congruence.
Qed.

Lemma includes_Substring (s sub : string) :
  Str.includes s sub = true <-> Substring sub s.
Proof.
  unfold Substring. induction s as [|c r IH].
  - cbn [Str.includes]. rewrite orb_false_r, prefix_app. split.
    + intros (post & H). exists "", post. exact H.
    + intros (pre & post & H). destruct pre; [|discriminate].
      exists post. exact H.
  - cbn [Str.includes]. rewrite orb_true_iff, prefix_app, IH. split.
    + intros [(post & H)|(pre & post & H)].
      * exists "", post. exact H.
      * exists (String c pre), post. simpl. rewrite H. reflexivity.
    + intros (pre & post & H). destruct pre as [|c' pre].
      * left. exists post. exact H.
      * right. exists pre, post. simpl in H. congruence.
Qed.

Lemma includes_Names (oslist : JsVal) (x : string) :
  isOsList oslist = true ->
  exists b, includes oslist x = Ok b /\ (b = true <-> Names oslist x).
Proof.
  destruct oslist as [| |b|n|s|elems|props]; simpl; try discriminate; intros _.
  - eexists. split; [reflexivity|]. apply includes_Substring.
  - eexists. split; [reflexivity|]. rewrite existsb_exists. split.
    + intros (e & He & Hx). destruct e; try discriminate.
      apply String.eqb_eq in Hx. subst. exact He.
    + intros H. exists (JStr x). split; [exact H|]. apply String.eqb_refl.
Qed.

Lemma getOsType_unfold (depot : JsVal) :
  isNullish depot = false ->
  let oslist := getPropOpt (getPropOpt depot "config") "oslist" in
  let depotName := getPropOpt depot "name" in
  getOsType depot =
  if truthy oslist then
    w <- includes oslist "windows" ;;
    if w then Ok (JStr "Windows") else
    m <- includes oslist "macos" ;;
    if m then Ok (JStr "Mac") else
    l <- includes oslist "linux" ;;
    if l then Ok (JStr "Linux") else Ok oslist
  else if truthy depotName then
    lower <- toLowerCase depotName ;;
    if Str.includes lower "windows" then Ok (JStr "Windows")
    else if Str.includes lower "mac" || Str.includes lower "osx" then Ok (JStr "Mac")
    else if Str.includes lower "linux" then Ok (JStr "Linux")
    else Ok (JStr "Unknown")
  else Ok (JStr "Unknown").
Proof.
  intros Hd oslist depotName. unfold getOsType.
  rewrite !(getProp_defined _ _ Hd). simpl.
  fold depotName.
  destruct (truthy (getPropOpt depot "config")) eqn:Hc.
  - rewrite (getProp_truthy _ _ Hc). fold oslist. simpl.
    destruct (truthy oslist); [|reflexivity].
    destruct (includes oslist "windows") as [[]|]; simpl; try reflexivity.
    destruct (includes oslist "macos") as [[]|]; simpl; try reflexivity.
    destruct (includes oslist "linux") as [[]|]; simpl; reflexivity.
  - simpl. unfold oslist. rewrite (getPropOpt_falsy _ _ Hc). reflexivity.
Qed.

Ltac decide_includes oslist x :=
  let b := fresh "b" in
  let Hb := fresh "Hb" in
  let Hn := fresh "Hn" in
  match goal with
  | Hl : isOsList oslist = true |- _ =>
      destruct (includes_Names oslist x Hl) as (b & Hb & Hn);
      rewrite Hb; cbn [bind];
      destruct b;
      [ assert (Names oslist x) by (apply Hn; reflexivity)
      | assert (~ Names oslist x) by (intros ?; assert (false = true) by (apply Hn; assumption); discriminate) ]
  end.

(** C6: the OS type of a depot.  With an explicit OS list, "windows",
    "macos" and "linux" give Windows, Mac and Linux, the first of them the
    list names deciding, and a list that names none of them is returned as
    it is.  Without an OS list, the name of the depot is searched, in lower
    case, for "windows", then "mac" or "osx", then "linux".  With neither the
    result is Unknown.  So the OS list ["windows"] gives Windows, the name
    "Linux content" alone gives Linux, and a depot with neither gives
    Unknown. *)
Theorem getOsType_policy :
  (forall depot, isNullish depot = false ->
     let oslist := getPropOpt (getPropOpt depot "config") "oslist" in
     let depotName := getPropOpt depot "name" in
     (isOsList oslist = true ->
      (Names oslist "windows" -> getOsType depot = Ok (JStr "Windows")) /\
      (~ Names oslist "windows" -> Names oslist "macos" ->
       getOsType depot = Ok (JStr "Mac")) /\
      (~ Names oslist "windows" -> ~ Names oslist "macos" -> Names oslist "linux" ->
       getOsType depot = Ok (JStr "Linux")) /\
      (~ Names oslist "windows" -> ~ Names oslist "macos" -> ~ Names oslist "linux" ->
       getOsType depot = Ok oslist)) /\
     (truthy oslist = false ->
      forall s, depotName = JStr s ->
        let lower := Str.toLowerCase s in
        (Substring "windows" lower -> getOsType depot = Ok (JStr "Windows")) /\
        (~ Substring "windows" lower ->
         Substring "mac" lower \/ Substring "osx" lower ->
         getOsType depot = Ok (JStr "Mac")) /\
        (~ Substring "windows" lower -> ~ Substring "mac" lower ->
         ~ Substring "osx" lower -> Substring "linux" lower ->
         getOsType depot = Ok (JStr "Linux")) /\
        (~ Substring "windows" lower -> ~ Substring "mac" lower ->
         ~ Substring "osx" lower -> ~ Substring "linux" lower ->
         getOsType depot = Ok (JStr "Unknown"))) /\
     (truthy oslist = false -> truthy depotName = false ->
      getOsType depot = Ok (JStr "Unknown"))) /\
  getOsType (JObj [("config", JObj [("oslist", JArr [JStr "windows"])])])
    = Ok (JStr "Windows") /\
  getOsType (JObj [("name", JStr "Linux content")]) = Ok (JStr "Linux") /\
  getOsType (JObj []) = Ok (JStr "Unknown").
Proof.
  split; [|repeat split; reflexivity].
  intros depot Hd oslist depotName.
  rewrite (getOsType_unfold depot Hd). fold oslist depotName.
  split; [|split].
  - intros Hl.
    assert (Ht : truthy oslist = true).
    { destruct oslist; simpl in *; congruence. }
    rewrite Ht.
    decide_includes oslist "windows";
      [repeat split; intros; (reflexivity || contradiction)|].
    decide_includes oslist "macos";
      [repeat split; intros; (reflexivity || contradiction)|].
    decide_includes oslist "linux";
      repeat split; intros; (reflexivity || contradiction).
  - intros Ht s Hs lower. rewrite Ht, Hs. simpl. fold lower.
    destruct (s =? "")%string eqn:Es; simpl.
    + apply String.eqb_eq in Es. subst s.
      repeat split; intros; try reflexivity;
        repeat match goal with
               | H : Substring _ lower |- _ => destruct H as ([|? ?] & ? & H); discriminate H
               | H : _ \/ _ |- _ => destruct H
               end.
    + pose proof (includes_Substring lower "windows") as Hw.
      pose proof (includes_Substring lower "mac") as Hm.
      pose proof (includes_Substring lower "osx") as Hx.
      pose proof (includes_Substring lower "linux") as Hl.
      destruct (Str.includes lower "windows"), (Str.includes lower "mac"),
        (Str.includes lower "osx"), (Str.includes lower "linux"); simpl;
        repeat split; intros; try reflexivity;
        repeat match goal with
               | H : _ \/ _ |- _ => destruct H
               end;
        try (exfalso;
             match goal with
             | H : ~ Substring ?x lower, E : true = true <-> Substring ?x lower |- _ =>
                 apply H, E; reflexivity
             | H : Substring ?x lower, E : false = true <-> Substring ?x lower |- _ =>
                 apply E in H; discriminate H
             end).
  - intros Ht Hn. rewrite Ht, Hn. reflexivity.
Qed.

Lemma getOsType_policy_witness :
  getOsType macAndLinuxDepot = Ok (JStr "Mac").
Proof.
  apply (proj1 (proj2 (proj1 (proj1 getOsType_policy macAndLinuxDepot eq_refl) eq_refl))).
  - simpl. intros [H|[H|[]]]; discriminate H.
  - simpl. right. left. reflexivity.
Defined.

(** ** Sorting *)

Section SortFacts.
Context {A : Type} (comparefn : A -> A -> option Z).

Lemma insertSorted_perm (x : A) (sorted : list A) :
  Permutation (x :: sorted) (insertSorted comparefn x sorted).
Proof.
  induction sorted as [|y r IH]; simpl; [apply Permutation_refl|].
  destruct (below comparefn x y); [apply Permutation_refl|].
  eapply perm_trans; [apply perm_swap|]. apply perm_skip, IH.
Qed.

Lemma arraySort_perm (l : list A) : Permutation l (arraySort comparefn l).
Proof.
  unfold arraySort.
  assert (H : forall sorted,
             Permutation (l ++ sorted)
               (fold_left (fun s x => insertSorted comparefn x s) l sorted)).
  { induction l as [|x r IH]; intros sorted; simpl; [apply Permutation_refl|].
    eapply perm_trans; [|apply IH].
    eapply perm_trans; [apply Permutation_middle|].
    apply Permutation_app_head, insertSorted_perm. }
  specialize (H []). rewrite app_nil_r in H. exact H.
Qed.

(** Where the comparison is by a key, the larger key first, the result is
    in descending order of the key. *)
Section ByKey.
Variable P : A -> Prop.
Variable key : A -> Z.
Hypothesis below_key :
  forall x y, P x -> P y -> below comparefn x y = (key y <? key x).

Let R (a b : A) : Prop := key b <= key a.

Lemma insertSorted_sorted (x : A) (sorted : list A) :
  P x -> Forall P sorted -> StronglySorted R sorted ->
  StronglySorted R (insertSorted comparefn x sorted).
Proof.
  intros Hx HP HS. induction HS as [|y r HSr IH Hy]; simpl.
  - constructor; constructor.
  - inversion HP as [|? ? HPy HPr]; subst.
    rewrite (below_key x y Hx HPy).
    destruct (Z.ltb_spec (key y) (key x)) as [Hlt|Hge].
    + constructor; [constructor; assumption|].
      constructor; [unfold R; lia|].
      eapply Forall_impl; [|exact Hy]. unfold R. intros z Hz. lia.
    + constructor; [apply IH; exact HPr|].
      eapply Permutation_Forall; [apply insertSorted_perm|].
      constructor; [exact Hge|exact Hy].
Qed.

Lemma arraySort_sorted (l : list A) :
  Forall P l -> StronglySorted R (arraySort comparefn l).
Proof.
  unfold arraySort. intros Hl.
  assert (H : forall sorted,
             Forall P sorted -> StronglySorted R sorted ->
             StronglySorted R
               (fold_left (fun s x => insertSorted comparefn x s) l sorted)).
  { induction Hl as [|x r Hx Hr IH]; intros sorted HP HS; simpl; [exact HS|].
    apply IH.
    - eapply Permutation_Forall; [apply insertSorted_perm|].
      constructor; assumption.
    - apply insertSorted_sorted; assumption. }
  apply H; constructor.
Qed.

(** The elements of one key keep their order. *)
Lemma filter_key_below (k : Z) (l : list A) :
  Forall (fun z => key z < k) l -> filter (fun a => key a =? k) l = [].
Proof.
  induction 1 as [|z r Hz _ IH]; simpl; [reflexivity|].
  destruct (Z.eqb_spec (key z) k); [lia|exact IH].
Qed.

Lemma insertSorted_stable (k : Z) (x : A) (sorted : list A) :
  P x -> Forall P sorted -> StronglySorted R sorted ->
  filter (fun a => key a =? k) (insertSorted comparefn x sorted)
  = (filter (fun a => key a =? k) sorted ++ filter (fun a => key a =? k) [x])%list.
Proof.
  intros Hx HP HS. induction HS as [|y r HSr IH Hy]; [reflexivity|].
  inversion HP as [|? ? HPy HPr]; subst.
  cbn [insertSorted]. rewrite (below_key x y Hx HPy).
  destruct (Z.ltb_spec (key y) (key x)) as [Hlt|Hge].
  - cbn [filter]. destruct (Z.eqb_spec (key x) k) as [Hk|Hk].
    + assert (E : filter (fun a => key a =? k) (y :: r) = []).
      { apply filter_key_below. constructor; [lia|].
        eapply Forall_impl; [|exact Hy]. unfold R. intros z Hz. lia. }
      cbn [filter] in E. rewrite E. reflexivity.
    + rewrite app_nil_r. reflexivity.
  - cbn [filter]. rewrite (IH HPr).
    destruct (key y =? k); reflexivity.
Qed.

Lemma arraySort_stable (k : Z) (l : list A) :
  Forall P l ->
  filter (fun a => key a =? k) (arraySort comparefn l) = filter (fun a => key a =? k) l.
Proof.
  unfold arraySort. intros Hl.
  assert (H : forall sorted,
             Forall P sorted -> StronglySorted R sorted ->
             filter (fun a => key a =? k)
                    (fold_left (fun s x => insertSorted comparefn x s) l sorted)
             = (filter (fun a => key a =? k) sorted
                ++ filter (fun a => key a =? k) l)%list).
  { induction Hl as [|x r Hx Hr IH]; intros sorted HP HS; cbn [fold_left].
    - cbn [filter]. rewrite app_nil_r. reflexivity.
    - rewrite IH.
      + rewrite (insertSorted_stable k x sorted Hx HP HS), <- app_assoc. f_equal.
        cbn [filter]. destruct (key x =? k); reflexivity.
      + eapply Permutation_Forall; [apply insertSorted_perm|].
        constructor; assumption.
      + apply insertSorted_sorted; assumption. }
  apply (H []); constructor.
Qed.

(** A list is fixed by its being sorted and by the order of the elements
    of each key. *)
Lemma sorted_stable_unique (l1 l2 : list A) :
  StronglySorted R l1 -> StronglySorted R l2 ->
  (forall k, filter (fun a => key a =? k) l1 = filter (fun a => key a =? k) l2) ->
  l1 = l2.
Proof.
  intros H1. revert l2. induction H1 as [|x r1 HS1 IH Hx]; intros l2 H2 Hf.
  - destruct l2 as [|y r2]; [reflexivity|].
    specialize (Hf (key y)). cbn [filter] in Hf. rewrite Z.eqb_refl in Hf.
    discriminate Hf.
  - destruct H2 as [|y r2 HS2 Hy].
    { specialize (Hf (key x)). cbn [filter] in Hf. rewrite Z.eqb_refl in Hf.
      discriminate Hf. }
    assert (Hkey : key x = key y).
    { destruct (Z.lt_trichotomy (key x) (key y)) as [Hlt|[Heq|Hgt]]; [|exact Heq|].
      - exfalso. specialize (Hf (key y)).
        assert (E : filter (fun a => key a =? key y) (x :: r1) = []).
        { apply filter_key_below. constructor; [exact Hlt|].
          eapply Forall_impl; [|exact Hx]. unfold R. intros z Hz. lia. }
        rewrite E in Hf. cbn [filter] in Hf. rewrite Z.eqb_refl in Hf.
        discriminate Hf.
      - exfalso. specialize (Hf (key x)).
        assert (E : filter (fun a => key a =? key x) (y :: r2) = []).
        { apply filter_key_below. constructor; [lia|].
          eapply Forall_impl; [|exact Hy]. unfold R. intros z Hz. lia. }
        rewrite E in Hf. cbn [filter] in Hf. rewrite Z.eqb_refl in Hf.
        discriminate Hf. }
    pose proof (Hf (key x)) as Hfx. cbn [filter] in Hfx.
    rewrite <- Hkey, Z.eqb_refl in Hfx. injection Hfx as <- _.
    f_equal. apply IH; [exact HS2|]. intros k. specialize (Hf k).
    cbn [filter] in Hf. destruct (key x =? k); [injection Hf as Hf|]; exact Hf.
Qed.

(** Where the comparison is by a key, [arraySort] gives the one list that
    is sorted and stable: what every sort gives that is so. *)
Lemma arraySort_unique (l out : list A) :
  Forall P l ->
  StronglySorted R out ->
  (forall k, filter (fun a => key a =? k) out = filter (fun a => key a =? k) l) ->
  out = arraySort comparefn l.
Proof.
  intros Hl Hs Hf. apply sorted_stable_unique.
  - exact Hs.
  - apply arraySort_sorted, Hl.
  - intros k. rewrite Hf, arraySort_stable; [reflexivity|exact Hl].
Qed.
End ByKey.
End SortFacts.

(** ** Manifests *)

Lemma forEachM_completes {A B : Type} (f : A -> Res (list B)) (l : list A) :
  (forall x, In x l -> exists pushed, f x = Ok pushed) ->
  exists out, forEachM f l = Ok out.
Proof.
  induction l as [|x r IH]; intros H; simpl; [eexists; reflexivity|].
  destruct (H x (or_introl eq_refl)) as (pushed & ->).
  destruct IH as (rest & ->); [intros y Hy; apply H; right; exact Hy|].
  eexists. reflexivity.
Qed.

Lemma getDepotManifestsBody_table (clock : Clock) (appId depotId productInfo : JsVal) :
  getDepotManifestsBody clock appId depotId (Resolved productInfo) =
  if truthy (depotTable productInfo)
  then manifests <- collectManifests clock (depotTable productInfo) depotId ;;
       Ok (sortManifests manifests)
  else Ok [].
Proof.
  unfold getDepotManifestsBody, depotTable. simpl.
  destruct (truthy productInfo) eqn:Hp; simpl.
  - rewrite (getProp_truthy _ _ Hp). simpl.
    destruct (truthy (getPropOpt productInfo "appinfo")) eqn:Ha; simpl.
    + rewrite (getProp_truthy _ _ Ha). simpl.
      destruct (truthy (getPropOpt (getPropOpt productInfo "appinfo") "depots"));
        reflexivity.
    + rewrite (getPropOpt_falsy _ "depots" Ha). reflexivity.
  - pose proof (getPropOpt_falsy _ "appinfo" Hp) as Ha.
    rewrite (getPropOpt_falsy _ "depots" Ha). reflexivity.
Qed.

Lemma getDepotManifests_sorted (clock : Clock) (appId depotId productInfo : JsVal)
      (manifests : list Manifest.t) :
  truthy (depotTable productInfo) = true ->
  collectManifests clock (depotTable productInfo) depotId = Ok manifests ->
  getDepotManifests clock appId depotId (Resolved productInfo)
  = Ok (sortManifests manifests).
Proof.
  intros Ht Hc. unfold getDepotManifests.
  rewrite getDepotManifestsBody_table, Ht, Hc. reflexivity.
Qed.

Lemma directManifests_none (depotData depotId : JsVal) :
  isNullish depotData = false ->
  truthy (manifestMap depotData depotId) = false ->
  directManifests depotData depotId = Ok [].
Proof.
  unfold manifestMap, directManifests. intros Hd Hm.
  rewrite (getProp_defined _ _ Hd). simpl.
  destruct (truthy (getPropOpt depotData (toStr depotId))) eqn:Ht; [|reflexivity].
  rewrite (getProp_truthy _ _ Ht). simpl. rewrite Hm. reflexivity.
Qed.

Lemma directManifests_completes (depotData depotId : JsVal) :
  isNullish depotData = false ->
  entriesDefined (manifestMap depotData depotId) = true ->
  exists direct, directManifests depotData depotId = Ok direct.
Proof.
  unfold manifestMap, directManifests, entriesDefined. intros Hd He.
  apply andb_true_iff in He as [_ He].
  rewrite (getProp_defined _ _ Hd). simpl.
  destruct (truthy (getPropOpt depotData (toStr depotId))) eqn:Ht;
    [|eexists; reflexivity].
  rewrite (getProp_truthy _ _ Ht). simpl.
  destruct (truthy (getPropOpt (getPropOpt depotData (toStr depotId)) "manifests"));
    [|eexists; reflexivity].
  apply forEachM_completes. intros [k details] Hin.
  rewrite forallb_forall in He. specialize (He _ Hin). simpl in He.
  apply negb_true_iff in He.
  rewrite !(getProp_defined _ _ He). simpl. eexists. reflexivity.
Qed.

Lemma branchManifest_completes (branches depotId : JsVal) (branchName : string) :
  isNullish branches = false ->
  isNullish (getPropOpt branches branchName) = false ->
  exists pushed, branchManifest branches depotId branchName = Ok pushed.
Proof.
  intros Hb Hn. unfold branchManifest.
  rewrite (getProp_defined _ _ Hb). simpl.
  set (branch := getPropOpt branches branchName) in *.
  rewrite !(getProp_defined _ _ Hn). simpl.
  destruct (truthy (getPropOpt branch "buildid")) eqn:Hbuild;
    [|eexists; reflexivity].
  set (specific :=
         if truthy (getPropOpt branch "depots")
         then entry <- getProp (getPropOpt branch "depots") (toStr depotId) ;;
              (if truthy entry
               then m <- getProp entry "manifest" ;; (if truthy m then Ok m else Ok JNull)
               else Ok JNull)
         else Ok JNull).
  assert (Hs : exists v, specific = Ok v).
  { unfold specific.
    destruct (truthy (getPropOpt branch "depots")) eqn:Hdep; [|eexists; reflexivity].
    rewrite (getProp_truthy _ _ Hdep). simpl.
    destruct (truthy (getPropOpt (getPropOpt branch "depots") (toStr depotId))) eqn:He;
      [|eexists; reflexivity].
    rewrite (getProp_truthy _ _ He). simpl.
    match goal with
    | |- exists v, (if ?c then _ else _) = _ => destruct c; eexists; reflexivity
    end. }
  destruct Hs as (v & ->). simpl.
  match goal with
  | |- exists p, (if ?c then _ else _) = _ => destruct c; eexists; reflexivity
  end.
Qed.

Lemma branchManifests_none (depotData depotId : JsVal) :
  isNullish depotData = false ->
  truthy (branchTable depotData) = false ->
  branchManifests depotData depotId = Ok [].
Proof.
  unfold branchTable, branchManifests. intros Hd Hb.
  rewrite (getProp_defined _ _ Hd). simpl. rewrite Hb. reflexivity.
Qed.

Lemma branchManifests_completes (depotData depotId : JsVal) :
  isNullish depotData = false ->
  entriesDefined (branchTable depotData) = true ->
  exists fromBranches, branchManifests depotData depotId = Ok fromBranches.
Proof.
  unfold branchTable, branchManifests, entriesDefined. intros Hd He.
  apply andb_true_iff in He as [He _].
  rewrite (getProp_defined _ _ Hd). simpl.
  destruct (truthy (getPropOpt depotData "branches")) eqn:Ht;
    [|eexists; reflexivity].
  apply forEachM_completes. intros k Hk.
  rewrite forallb_forall in He. specialize (He _ Hk).
  apply negb_true_iff in He.
  apply branchManifest_completes; [apply truthy_defined, Ht|exact He].
Qed.

Lemma collectManifests_completes (clock : Clock) (depotData depotId : JsVal) :
  isNullish depotData = false ->
  entriesDefined (manifestMap depotData depotId) = true ->
  entriesDefined (branchTable depotData) = true ->
  exists front,
    collectManifests clock depotData depotId
    = Ok (front ++ historicalManifests clock)%list.
Proof.
  intros Hd Hm Hb. unfold collectManifests.
  destruct (directManifests_completes _ _ Hd Hm) as (direct & ->).
  destruct (branchManifests_completes _ depotId Hd Hb) as (fromBranches & ->).
  simpl. exists (direct ++ fromBranches)%list. rewrite app_assoc. reflexivity.
Qed.

Lemma historicalManifests_fields (clock : Clock) :
  map Manifest.manifestId (historicalManifests clock) = sampleIds /\
  Forall (fun m => Manifest.isHistorical m = true /\ Manifest.isPublic m = true /\
                   Manifest.branch m = JStr "historical")
         (historicalManifests clock).
Proof. split; [reflexivity|]. repeat constructor. Qed.

(** C9, as the code has it: for a product with a depot table in which no
    entry of the depot's manifest map and no branch is [null] or
    [undefined], [getDepotManifests] appends the five sample manifests, with
    the five fixed ids, each historical, public and of branch "historical",
    and returns a list that holds them: at least five elements. *)
Theorem getDepotManifests_samples (clock : Clock) (appId depotId productInfo : JsVal) :
  let depotData := depotTable productInfo in
  truthy depotData = true ->
  entriesDefined (manifestMap depotData depotId) = true ->
  entriesDefined (branchTable depotData) = true ->
  exists front out,
    collectManifests clock depotData depotId
    = Ok (front ++ historicalManifests clock)%list /\
    getDepotManifests clock appId depotId (Resolved productInfo) = Ok out /\
    Permutation (front ++ historicalManifests clock) out /\
    incl (historicalManifests clock) out /\
    (5 <= List.length out)%nat /\
    map Manifest.manifestId (historicalManifests clock) = sampleIds /\
    Forall (fun m => Manifest.isHistorical m = true /\ Manifest.isPublic m = true /\
                     Manifest.branch m = JStr "historical")
           (historicalManifests clock).
Proof.
  intros depotData Ht Hm Hb.
  destruct (collectManifests_completes clock depotData depotId
              (truthy_defined _ Ht) Hm Hb) as (front & Hc).
  exists front, (sortManifests (front ++ historicalManifests clock)).
  pose proof (arraySort_perm compareManifests (front ++ historicalManifests clock))
    as Hperm. fold (sortManifests (front ++ historicalManifests clock)) in Hperm.
  split; [exact Hc|]. split; [apply getDepotManifests_sorted; assumption|].
  split; [exact Hperm|]. split; [|split].
  - intros m Hin. eapply Permutation_in; [exact Hperm|].
    apply in_or_app. right. exact Hin.
  - rewrite <- (Permutation_length Hperm), length_app. simpl. lia.
  - apply historicalManifests_fields.
Qed.

Lemma getDepotManifests_samples_witness :
  exists out,
    getDepotManifests at1700000000 (JNum 413150) (JStr "413153")
      (Resolved (stardew stardewDepots)) = Ok out /\
    incl (historicalManifests at1700000000) out /\
    (5 <= List.length out)%nat.
Proof.
  destruct (getDepotManifests_samples at1700000000 (JNum 413150) (JStr "413153")
              (stardew stardewDepots) eq_refl eq_refl eq_refl)
    as (front & out & _ & Hout & _ & Hincl & Hlen & _).
  exists out. split; [exact Hout|]. split; [exact Hincl|exact Hlen].
Defined.

(** C9, as stated, fails: the product has a depot table, reading the build
    id of the branch that is [null] throws, and the list returned is
    empty. *)
Lemma getDepotManifests_null_branch :
  truthy (depotTable (stardew nullBranchDepots)) = true /\
  getDepotManifests at1700000000 (JNum 413150) (JStr "413153")
    (Resolved (stardew nullBranchDepots)) = Ok [].
Proof. split; reflexivity. Qed.

(** C3, as the code has it: [getDepotManifests] never raises.  It returns
    the empty list when the fetch fails, when its [try] block throws, and
    when the product, its [appinfo] or its depot table is missing.  With a
    depot table in which the depot has no manifest map and that declares no
    branches, it returns the five sample manifests. *)
Theorem getDepotManifests_never_raises (clock : Clock) (appId depotId : JsVal) :
  (forall fetch, exists out, getDepotManifests clock appId depotId fetch = Ok out) /\
  (forall fetch,
     truthy (err fetch) = true -> getDepotManifests clock appId depotId fetch = Ok []) /\
  (forall fetch e,
     getDepotManifestsBody clock appId depotId fetch = Throw e ->
     getDepotManifests clock appId depotId fetch = Ok []) /\
  (forall productInfo,
     truthy (depotTable productInfo) = false ->
     getDepotManifests clock appId depotId (Resolved productInfo) = Ok []) /\
  (forall productInfo,
     truthy (depotTable productInfo) = true ->
     truthy (manifestMap (depotTable productInfo) depotId) = false ->
     truthy (branchTable (depotTable productInfo)) = false ->
     getDepotManifests clock appId depotId (Resolved productInfo)
     = Ok (sortManifests (historicalManifests clock)) /\
     Permutation (historicalManifests clock) (sortManifests (historicalManifests clock)) /\
     List.length (sortManifests (historicalManifests clock)) = 5%nat).
Proof.
  split; [|split; [|split; [|split]]].
  - intros fetch.
    destruct (getDepotManifestsBody clock appId depotId fetch) as [out|e] eqn:E.
    + exists out. unfold getDepotManifests. rewrite E. reflexivity.
    + exists []. eapply getDepotManifests_caught, E.
  - intros fetch He. apply (getDepotManifests_caught _ _ _ _ (err fetch)).
    unfold getDepotManifestsBody, await. rewrite He. reflexivity.
  - apply getDepotManifests_caught.
  - intros productInfo Ht. unfold getDepotManifests.
    rewrite getDepotManifestsBody_table, Ht. reflexivity.
  - intros productInfo Ht Hm Hb.
    pose proof (arraySort_perm compareManifests (historicalManifests clock)) as Hperm.
    fold (sortManifests (historicalManifests clock)) in Hperm.
    split; [|split; [exact Hperm|]].
    + apply getDepotManifests_sorted; [exact Ht|].
      unfold collectManifests.
      rewrite (directManifests_none _ _ (truthy_defined _ Ht) Hm).
      rewrite (branchManifests_none _ _ (truthy_defined _ Ht) Hb).
      reflexivity.
    + rewrite <- (Permutation_length Hperm). reflexivity.
Qed.

Lemma getDepotManifests_never_raises_witness :
  getDepotManifests at1700000000 (JNum 413150) (JStr "413153")
    (Resolved (stardew bareDepots))
  = Ok (sortManifests (historicalManifests at1700000000)).
Proof.
  apply (proj2 (proj2 (proj2 (proj2 (getDepotManifests_never_raises
                                       at1700000000 (JNum 413150) (JStr "413153"))))));
    reflexivity.
Defined.

(** C3, as stated, fails: the depot has no manifest map and the product
    declares no branches, and the list returned is not empty: it holds the
    five samples. *)
Lemma getDepotManifests_bare_not_empty :
  truthy (manifestMap (depotTable (stardew bareDepots)) (JStr "413153")) = false /\
  truthy (branchTable (depotTable (stardew bareDepots))) = false /\
  exists out,
    getDepotManifests at1700000000 (JNum 413150) (JStr "413153")
      (Resolved (stardew bareDepots)) = Ok out /\
    map Manifest.manifestId out = sampleIds /\
    out <> [].
Proof.
  split; [reflexivity|]. split; [reflexivity|].
  eexists. split; [reflexivity|]. split; [reflexivity|]. discriminate.
Qed.

(** ** Order of the manifests *)

Lemma compareManifests_without_time (a b : Manifest.t) :
  hasTime a && hasTime b = false ->
  compareManifests a b =
  Some (if Manifest.isHistorical a && negb (Manifest.isHistorical b) then 1
        else if negb (Manifest.isHistorical a) && Manifest.isHistorical b then -1
        else 0).
Proof.
  unfold compareManifests, hasTime, jsAnd. intros H.
  assert (Ht : truthy (if truthy (Manifest.timeupdated a)
                       then Manifest.timeupdated b
                       else Manifest.timeupdated a) = false).
  { destruct (truthy (Manifest.timeupdated a)) eqn:Ha; [exact H|exact Ha]. }
  rewrite Ht.
  destruct (Manifest.isHistorical a), (Manifest.isHistorical b); reflexivity.
Qed.

Lemma below_without_time (x y : Manifest.t) :
  hasTime x = false ->
  below compareManifests x y
  = negb (Manifest.isHistorical x) && Manifest.isHistorical y.
Proof.
  intros Hx. unfold below.
  rewrite (compareManifests_without_time x y); [|rewrite Hx; reflexivity].
  destruct (Manifest.isHistorical x), (Manifest.isHistorical y); reflexivity.
Qed.

Lemma insertSorted_historical (x : Manifest.t) (sorted : list Manifest.t) :
  hasTime x = false -> Manifest.isHistorical x = true ->
  insertSorted compareManifests x sorted = (sorted ++ [x])%list.
Proof.
  intros Ht Hh. induction sorted as [|y r IH]; simpl; [reflexivity|].
  rewrite (below_without_time x y Ht), Hh, IH. reflexivity.
Qed.

Lemma insertSorted_current (x : Manifest.t) (current historical : list Manifest.t) :
  hasTime x = false -> Manifest.isHistorical x = false ->
  Forall (fun m => Manifest.isHistorical m = false) current ->
  Forall (fun m => Manifest.isHistorical m = true) historical ->
  insertSorted compareManifests x (current ++ historical)
  = (current ++ x :: historical)%list.
Proof.
  intros Ht Hc Hcur Hhis. induction Hcur as [|y r Hy _ IH]; simpl.
  - destruct Hhis as [|y r Hy _]; simpl; [reflexivity|].
    rewrite (below_without_time x y Ht), Hc, Hy. reflexivity.
  - rewrite (below_without_time x y Ht), Hc, Hy, IH. reflexivity.
Qed.


Lemma below_by_time (x y : Manifest.t) :
  carriesTimestamp x = true -> carriesTimestamp y = true ->
  below compareManifests x y = (epochSeconds y <? epochSeconds x).
Proof.
  unfold carriesTimestamp, epochSeconds, below, compareManifests, jsAnd, jsSub.
  intros Hx Hy.
  apply andb_true_iff in Hx as [Tx Nx]. apply andb_true_iff in Hy as [Ty Ny].
  rewrite Tx, Ty.
  destruct (toNumber (Manifest.timeupdated x)) as [n|]; [|discriminate].
  destruct (toNumber (Manifest.timeupdated y)) as [m|]; [|discriminate].
  destruct (Z.ltb_spec (m - n) 0), (Z.ltb_spec m n); try reflexivity; lia.
Qed.







(** C5: a list of manifests that all carry a timestamp is sorted into
    descending order of the timestamp, and so is what [getDepotManifests]
    returns when every manifest it has collected carries one; manifests with
    the timestamps 100, 300 and 200, historical or not, come out in the order
    300, 200, 100. *)
Theorem sortManifests_descending :
  (forall manifests,
     forallb carriesTimestamp manifests = true ->
     Permutation manifests (sortManifests manifests) /\
     Descending (sortManifests manifests)) /\
  (forall clock appId depotId productInfo manifests,
     truthy (depotTable productInfo) = true ->
     collectManifests clock (depotTable productInfo) depotId = Ok manifests ->
     forallb carriesTimestamp manifests = true ->
     exists out,
       getDepotManifests clock appId depotId (Resolved productInfo) = Ok out /\
       Permutation manifests out /\ Descending out) /\
  (forall m1 m2 m3,
     Manifest.timeupdated m1 = JNum 100 ->
     Manifest.timeupdated m2 = JNum 300 ->
     Manifest.timeupdated m3 = JNum 200 ->
     sortManifests [m1; m2; m3] = [m2; m3; m1] /\
     map epochSeconds (sortManifests [m1; m2; m3]) = [300; 200; 100]).
Proof.
  assert (Hsort : forall manifests,
             forallb carriesTimestamp manifests = true ->
             Permutation manifests (sortManifests manifests) /\
             Descending (sortManifests manifests)).
  { intros manifests Hall. split; [apply arraySort_perm|].
    apply (arraySort_sorted compareManifests
             (fun m => carriesTimestamp m = true) epochSeconds below_by_time).
    apply Forall_forall. apply forallb_forall. exact Hall. }
  split; [exact Hsort|]. split.
  - intros clock appId depotId productInfo manifests Ht Hc Hall.
    exists (sortManifests manifests).
    split; [apply getDepotManifests_sorted; assumption|apply Hsort, Hall].
  - intros m1 m2 m3 H1 H2 H3.
    assert (E : sortManifests [m1; m2; m3] = [m2; m3; m1]).
    { assert (B21 : below compareManifests m2 m1 = true).
      { rewrite below_by_time; unfold carriesTimestamp, epochSeconds;
          rewrite ?H1, ?H2; reflexivity. }
      assert (B32 : below compareManifests m3 m2 = false).
      { rewrite below_by_time; unfold carriesTimestamp, epochSeconds;
          rewrite ?H2, ?H3; reflexivity. }
      assert (B31 : below compareManifests m3 m1 = true).
      { rewrite below_by_time; unfold carriesTimestamp, epochSeconds;
          rewrite ?H1, ?H3; reflexivity. }
      unfold sortManifests, arraySort. simpl.
      rewrite B21. simpl. rewrite B32, B31. reflexivity. }
    rewrite E. split; [reflexivity|].
    unfold epochSeconds. simpl. rewrite H1, H2, H3. reflexivity.
Qed.

Lemma sortManifests_descending_witness :
  map epochSeconds
    (sortManifests [ historicalManifest "2488226670458163874" 100 "Older";
                     publicBranch (JNum 300);
                     historicalManifest "9512939615798864588" 200 "Older" ])
  = [300; 200; 100] /\
  exists out,
    getDepotManifests at1700000000 (JNum 413150) (JStr "413153")
      (Resolved (stardew stardewDepots)) = Ok out /\
    map epochSeconds out
    = [1699827200; 1699823600; 1699136000; 1698704000; 1698617600; 1647678332] /\
    Descending out.
Proof.
  split.
  - apply (proj2 (proj2 sortManifests_descending)); reflexivity.
  - destruct (proj1 (proj2 sortManifests_descending)
                at1700000000 (JNum 413150) (JStr "413153") (stardew stardewDepots)
                (manifestsOrNone
                   (collectManifests at1700000000
                      (depotTable (stardew stardewDepots)) (JStr "413153")))
                eq_refl eq_refl eq_refl) as (out & Hout & _ & Hdesc).
    exists out. split; [exact Hout|]. split; [|exact Hdesc].
    vm_compute in Hout. injection Hout as <-. reflexivity.
Defined.

(** ** The search prompt *)

Lemma trimStart_blank (s : string) :
  Str.allWhiteSpace s = true -> Str.trimStart s = "".
Proof.
  induction s as [|c r IH]; simpl; [reflexivity|].
  intros H. apply andb_true_iff in H as [Hc Hr]. rewrite Hc. apply IH, Hr.
Qed.

Lemma trimStart_not_blank (s : string) :
  Str.allWhiteSpace s = false ->
  exists c r, Str.trimStart s = String c r /\ Str.allWhiteSpace (String c r) = false.
Proof.
  induction s as [|c r IH]; simpl; [discriminate|].
  destruct (Str.isWhiteSpace c) eqn:Hc; simpl.
  - exact IH.
  - intros _. exists c, r. simpl. rewrite Hc. split; reflexivity.
Qed.

Lemma trimEnd_blank (s : string) :
  Str.trimEnd s = "" <-> Str.allWhiteSpace s = true.
Proof.
  destruct s as [|c r]; [split; reflexivity|].
  cbn [Str.trimEnd]. destruct (Str.allWhiteSpace (String c r)).
  - split; reflexivity.
  - split; discriminate.
Qed.

Lemma trim_blank (s : string) :
  Str.trim s = "" <-> Str.allWhiteSpace s = true.
Proof.
  unfold Str.trim. rewrite trimEnd_blank.
  destruct (Str.allWhiteSpace s) eqn:Hs.
  - rewrite (trimStart_blank s Hs). split; reflexivity.
  - destruct (trimStart_not_blank s Hs) as (c & r & -> & Hn).
    rewrite Hn. split; discriminate.
Qed.

Lemma validate_blank (input : string) :
  CLI.validate input = if Str.allWhiteSpace input then pleaseEnter else JBool true.
Proof.
  unfold CLI.validate. simpl.
  destruct (Str.allWhiteSpace input) eqn:Hb.
  - apply trim_blank in Hb. rewrite Hb. reflexivity.
  - destruct (String.eqb_spec (Str.trim input) "") as [E|E]; [|reflexivity].
    apply trim_blank in E. congruence.
Qed.

Lemma prompt_validate (typed : list string) :
  CLI.prompt CLI.validate typed =
  (map (fun input => PromptRejected input pleaseEnter) (blankPrefix typed),
   firstNonBlank typed).
Proof.
  induction typed as [|input later IH]; simpl; [reflexivity|].
  rewrite validate_blank. destruct (Str.allWhiteSpace input); [|reflexivity].
  simpl. rewrite IH. reflexivity.
Qed.

Lemma firstNonBlank_not_blank (typed : list string) (term : string) :
  firstNonBlank typed = Some term -> Str.allWhiteSpace term = false.
Proof.
  induction typed as [|input later IH]; simpl; [discriminate|].
  destruct (Str.allWhiteSpace input) eqn:Hb; [exact IH|].
  intros H. injection H as <-. exact Hb.
Qed.

Lemma searchedTerms_app (t1 t2 : list Event) :
  searchedTerms (t1 ++ t2) = (searchedTerms t1 ++ searchedTerms t2)%list.
Proof. apply flat_map_app. Qed.

Lemma searchedTerms_rejected (inputs : list string) :
  searchedTerms (map (fun input => PromptRejected input pleaseEnter) inputs) = [].
Proof. induction inputs as [|i r IH]; simpl; [reflexivity|exact IH]. Qed.

Lemma searchedTerms_checkSteamRunning (tasklist : CLI.ExecResult) :
  searchedTerms (fst (CLI.checkSteamRunning tasklist)) = [].
Proof.
  unfold CLI.checkSteamRunning.
  destruct (truthy (CLI.error tasklist)); [reflexivity|].
  destruct (Str.includes (Str.toLowerCase (CLI.stdout tasklist)) "steam.exe");
    reflexivity.
Qed.

Lemma searchedTerms_readResponse (response : JsVal) (printed : list Event)
      (apps : list SteamSearch.App.t) :
  SteamSearch.readResponse response = Ok (printed, apps) -> searchedTerms printed = [].
Proof.
  unfold SteamSearch.readResponse, bind. intros H.
  repeat match type of H with
         | match ?c with Ok _ => _ | Throw _ => _ end = _ =>
             destruct c; [|discriminate]
         | (if ?c then _ else _) = _ => destruct c
         | match ?c with JNum _ => _ | _ => _ end = _ => destruct c
         | match ?c with Z0 => _ | _ => _ end = _ => destruct c
         | Ok _ = Ok _ => injection H as <- <-
         end; reflexivity.
Qed.

Lemma searchedTerms_searchGames (store : SteamSearch.Store) (searchTerm : string) :
  searchedTerms (fst (SteamSearch.searchGames store searchTerm)) = [searchTerm].
Proof.
  unfold SteamSearch.searchGames.
  destruct (match store searchTerm with
            | SteamSearch.HttpFail error => Throw error
            | SteamSearch.HttpOk response => SteamSearch.readResponse response
            end) as [[printed apps]|error] eqn:E.
  - assert (Hp : searchedTerms printed = []).
    { destruct (store searchTerm) as [err|response]; [discriminate|].
      eapply searchedTerms_readResponse, E. }
    simpl. rewrite Hp. reflexivity.
  - destruct (getProp error "message"); reflexivity.
Qed.

(** C4, as the code has it: the prompt rejects every blank line with the
    message "Please enter a game name to search" and resolves with the first
    line that is not blank; a run of [start] sends the store no search for a
    blank term. *)
Theorem blank_term_never_searched :
  (forall input,
     Str.allWhiteSpace input = true -> CLI.validate input = pleaseEnter) /\
  (forall typed,
     CLI.prompt CLI.validate typed =
     (map (fun input => PromptRejected input pleaseEnter) (blankPrefix typed),
      firstNonBlank typed)) /\
  (forall w term,
     In term (searchedTerms (fst (SteamSearchApp.startSearch w))) ->
     Str.allWhiteSpace term = false /\ firstNonBlank (SteamSearchApp.typed w) = Some term).
Proof.
  split; [|split].
  - intros input Hb. rewrite validate_blank, Hb. reflexivity.
  - exact prompt_validate.
  - intros [login tasklist typed store] term. unfold SteamSearchApp.startSearch.
    simpl. destruct login as [[]|err]; [|simpl; contradiction].
    unfold CLI.getSearchTerm.
    pose proof (searchedTerms_checkSteamRunning tasklist) as Hc.
    destruct (CLI.checkSteamRunning tasklist) as [checked running].
    simpl in Hc. destruct running; simpl.
    + rewrite prompt_validate.
      destruct (firstNonBlank typed) as [answer|] eqn:Ef; simpl.
      * pose proof (searchedTerms_searchGames store answer) as Hs.
        destruct (SteamSearch.searchGames store answer) as [searched games].
        simpl in Hs. simpl.
        rewrite !searchedTerms_app, Hc, searchedTerms_rejected, Hs. simpl.
        intros [<-|[]]. split; [|reflexivity].
        eapply firstNonBlank_not_blank, Ef.
      * rewrite searchedTerms_app, Hc, searchedTerms_rejected. simpl. contradiction.
    + rewrite Hc. simpl. contradiction.
Qed.

Lemma blank_term_never_searched_witness :
  searchedTerms (fst (SteamSearchApp.startSearch twoBlankLines)) = ["Stardew Valley"] /\
  Str.allWhiteSpace "Stardew Valley" = false /\
  firstNonBlank (SteamSearchApp.typed twoBlankLines) = Some "Stardew Valley".
Proof.
  split; [reflexivity|].
  apply (proj2 (proj2 blank_term_never_searched) twoBlankLines "Stardew Valley").
  simpl. left. reflexivity.
Defined.

(** C4, as stated, fails: [searchGames] does not look at the term, and
    sends the store a search for a term of three spaces. *)
Lemma searchGames_blank_term_sent :
  Str.allWhiteSpace "   " = true /\
  SteamSearch.searchGames emptyStore "   " =
  ([ ConsoleLog "Searching for games matching:    ";
     HttpGet SteamSearch.apiUrl [("term", "   "); ("l", "english"); ("cc", "US")]
       SteamSearch.headers;
     ConsoleLog "No matching games found." ],
   Ok []).
Proof. split; reflexivity. Qed.

(** ** The console command *)

Lemma singleLine_app (s t : string) :
  singleLine (s ++ t) = singleLine s && singleLine t.
Proof.
  induction s as [|c r IH]; simpl; [reflexivity|].
  rewrite IH, andb_assoc. reflexivity.
Qed.

(** C8: for the app 413150, the depot "413153" and the manifest
    "8881193748180768755" the command is
    "download_depot 413150 413153 8881193748180768755", and it is what
    [generateSteamCommand] prints.  For every app, depot and manifest the
    command is [download_depot], the app id, the depot id and the manifest
    id, separated by single spaces; it is printed whenever none of the three
    is missing, and it is one line when the three ids are. *)
Theorem steamCommand_form :
  CLI.steamCommand stardewChoice = "download_depot 413150 413153 8881193748180768755" /\
  nth_error (CLI.generateSteamCommand stardewChoice) 1
  = Some (ConsoleLog "download_depot 413150 413153 8881193748180768755") /\
  (forall cli,
     CLI.steamCommand cli =
     commandForm (toStr (CLI.currentAppId cli)) (toStr (CLI.currentDepotId cli))
                 (toStr (CLI.currentManifestId cli))) /\
  (forall cli,
     truthy (CLI.currentAppId cli) = true ->
     truthy (CLI.currentDepotId cli) = true ->
     truthy (CLI.currentManifestId cli) = true ->
     nth_error (CLI.generateSteamCommand cli) 1 = Some (ConsoleLog (CLI.steamCommand cli))) /\
  (forall cli,
     singleLine (toStr (CLI.currentAppId cli)) = true ->
     singleLine (toStr (CLI.currentDepotId cli)) = true ->
     singleLine (toStr (CLI.currentManifestId cli)) = true ->
     singleLine (CLI.steamCommand cli) = true).
Proof.
  split; [reflexivity|]. split; [reflexivity|]. split; [|split].
  - intros cli. reflexivity.
  - intros cli Ha Hd Hm. unfold CLI.generateSteamCommand.
    rewrite Ha, Hd, Hm. reflexivity.
  - intros cli Ha Hd Hm. unfold CLI.steamCommand.
    rewrite !singleLine_app, Ha, Hd, Hm. reflexivity.
Qed.

Lemma steamCommand_form_witness :
  nth_error (CLI.generateSteamCommand stardewChoice) 1
  = Some (ConsoleLog (CLI.steamCommand stardewChoice)) /\
  singleLine (CLI.steamCommand stardewChoice) = true.
Proof.
  split.
  - apply (proj1 (proj2 (proj2 (proj2 steamCommand_form))) stardewChoice); reflexivity.
  - apply (proj2 (proj2 (proj2 (proj2 steamCommand_form))) stardewChoice); reflexivity.
Defined.

(** * Further properties *)

(** ** What [getGameDepots] returns *)

(** X1: [getGameDepots] never raises: whatever the request gives and
    whatever the product information holds, it returns a list of depots. *)
Theorem getGameDepots_never_raises (appId : JsVal) (fetch : Fetch) :
  exists depots, getGameDepots appId fetch = Ok depots.
Proof. apply getGameDepots_returns. Qed.

Lemma getGameDepotsBody_resolved (appId : JsVal) (fetch : Fetch) :
  truthy (err fetch) = false ->
  let appinfo := getPropOpt (productInfo fetch) "appinfo" in
  getGameDepotsBody appId fetch =
  if truthy appinfo then
    depots <- (if truthy (getPropOpt appinfo "depots")
               then extractDepots (getPropOpt appinfo "depots")
               else Ok []) ;;
    match depots with
    | [] =>
        Ok [fallbackDepot appId
              (jsOr (getPropOpt (getPropOpt appinfo "common") "name")
                    (JStr ("App " ++ toStr appId)))]
    | _ :: _ => Ok depots
    end
  else Ok [].
Proof.
  intros He appinfo. unfold getGameDepotsBody, await. rewrite He. simpl.
  destruct (truthy (productInfo fetch)) eqn:Hp; simpl.
  - rewrite (getProp_truthy _ _ Hp). fold appinfo. simpl.
    destruct (truthy appinfo) eqn:Ha; simpl; [|reflexivity].
    rewrite (getProp_truthy _ _ Ha). simpl.
    destruct (if truthy (getPropOpt appinfo "depots")
              then extractDepots (getPropOpt appinfo "depots")
              else Ok []) as [[|d ds]|e]; simpl; try reflexivity.
    rewrite (getProp_truthy _ _ Ha). reflexivity.
  - unfold appinfo. rewrite (getPropOpt_falsy _ "appinfo" Hp). reflexivity.
Qed.

(** What [getGameDepots] returns is the empty list, a single fallback depot
    with a name, or the depots of the loop over the depot table. *)
Lemma getGameDepots_cases (appId : JsVal) (fetch : Fetch) (depots : list Depot.t) :
  getGameDepots appId fetch = Ok depots ->
  let appinfo := getPropOpt (productInfo fetch) "appinfo" in
  (depots = [] /\ truthy (err fetch) = false /\ truthy appinfo = false) \/
  (exists n, depots = [fallbackDepot appId n] /\ truthy n = true) \/
  (depots <> [] /\ truthy (err fetch) = false /\
   extractDepots (getPropOpt appinfo "depots") = Ok depots).
Proof.
  intros H appinfo.
  assert (Hname : forall v, truthy (jsOr v (JStr ("App " ++ toStr appId))) = true).
  { intros v. unfold jsOr. destruct (truthy v) eqn:Hv; [exact Hv|reflexivity]. }
  assert (Hcatch : forall e,
             isNullish e = false ->
             (message <- getProp e "message" ;;
              Ok [fallbackDepot appId (JStr ("App " ++ toStr appId))]) = Ok depots ->
             exists n, depots = [fallbackDepot appId n] /\ truthy n = true).
  { intros e Hn Hc. rewrite (getProp_defined _ _ Hn) in Hc. simpl in Hc.
    injection Hc as <-. eexists. split; reflexivity. }
  unfold getGameDepots, tryCatch in H.
  pose proof (thrown_getGameDepotsBody appId fetch) as Hthrown.
  destruct (truthy (err fetch)) eqn:He.
  - right. left.
    destruct (getGameDepotsBody appId fetch) as [ds|e] eqn:Eb.
    + unfold getGameDepotsBody, await in Eb. rewrite He in Eb. discriminate Eb.
    + apply (Hcatch e Hthrown H).
  - rewrite (getGameDepotsBody_resolved appId fetch He) in H, Hthrown.
    fold appinfo in H, Hthrown.
    destruct (truthy appinfo) eqn:Ha.
    + destruct (truthy (getPropOpt appinfo "depots")) eqn:Ht.
      * destruct (extractDepots (getPropOpt appinfo "depots")) as [[|d ds]|e] eqn:Ex;
          simpl in H, Hthrown.
        -- injection H as <-. right. left. eexists. split; [reflexivity|apply Hname].
        -- injection H as <-. right. right.
           split; [discriminate|]. split; reflexivity.
        -- right. left. apply (Hcatch e Hthrown H).
      * simpl in H. injection H as <-. right. left.
        eexists. split; [reflexivity|apply Hname].
    + injection H as <-. left. repeat split.
Qed.

(** X2: [getGameDepots] returns the empty list exactly when the request
    succeeded and gave no product information, or product information
    without [appinfo]; in every other case the list has a depot. *)
Theorem getGameDepots_empty_iff (appId : JsVal) (fetch : Fetch) :
  getGameDepots appId fetch = Ok [] <->
  truthy (err fetch) = false /\
  truthy (getPropOpt (productInfo fetch) "appinfo") = false.
Proof.
  split.
  - intros H. destruct (getGameDepots_cases appId fetch [] H)
      as [(_ & He & Ha)|[(n & Hn & _)|(Hne & _)]].
    + split; assumption.
    + discriminate Hn.
    + contradiction Hne. reflexivity.
  - intros [He Ha]. unfold getGameDepots.
    rewrite (getGameDepotsBody_resolved appId fetch He), Ha. reflexivity.
Qed.

Lemma getOsType_truthy (depot os : JsVal) :
  getOsType depot = Ok os -> truthy os = true.
Proof.
  destruct (isNullish depot) eqn:Hd.
  - destruct depot; discriminate.
  - rewrite (getOsType_unfold depot Hd).
    set (oslist := getPropOpt (getPropOpt depot "config") "oslist").
    set (depotName := getPropOpt depot "name").
    destruct (truthy oslist) eqn:Ho.
    + destruct (includes oslist "windows") as [[]|]; simpl;
        [intros H; injection H as <-; reflexivity| |discriminate].
      destruct (includes oslist "macos") as [[]|]; simpl;
        [intros H; injection H as <-; reflexivity| |discriminate].
      destruct (includes oslist "linux") as [[]|]; simpl;
        [intros H; injection H as <-; reflexivity| |discriminate].
      intros H. injection H as <-. exact Ho.
    + destruct (truthy depotName); [|intros H; injection H as <-; reflexivity].
      destruct (toLowerCase depotName) as [lower|]; simpl; [|discriminate].
      destruct (Str.includes lower "windows"),
        (Str.includes lower "mac" || Str.includes lower "osx"),
        (Str.includes lower "linux");
        intros H; injection H as <-; reflexivity.
Qed.

Lemma depotOf_labels (depotData : JsVal) (k : string) (d : Depot.t) :
  depotOf depotData k = Ok d ->
  truthy (Depot.name d) = true /\ truthy (Depot.osType d) = true /\
  Depot.rawData d = getPropOpt depotData k.
Proof.
  unfold depotOf. intros H.
  destruct (getProp depotData k) as [depot|] eqn:Eg; simpl in H; [|discriminate].
  assert (Hraw : depot = getPropOpt depotData k).
  { destruct depotData; simpl in Eg; try discriminate;
      unfold getPropOpt; simpl; rewrite ?Eg; try (injection Eg as <-); reflexivity. }
  destruct (getProp depot "name") as [n|]; simpl in H; [|discriminate].
  destruct (getOsType depot) as [os|] eqn:Eo; simpl in H; [|discriminate].
  repeat match type of H with
         | bind ?c _ = _ => destruct c; simpl in H; [|discriminate]
         end.
  injection H as <-. simpl. split; [|split].
  - unfold jsOr. destruct (truthy n) eqn:Hn; [exact Hn|reflexivity].
  - apply (getOsType_truthy _ _ Eo).
  - exact Hraw.
Qed.

(** X3: every depot [getGameDepots] returns has a name and an OS type that
    are truthy, so a menu line never falls back on "Unknown OS" for a
    depot of this list. *)
Theorem getGameDepots_labels (appId : JsVal) (fetch : Fetch) (depots : list Depot.t) :
  getGameDepots appId fetch = Ok depots ->
  forall d, In d depots ->
    truthy (Depot.name d) = true /\ truthy (Depot.osType d) = true.
Proof.
  intros H d Hd.
  destruct (getGameDepots_cases appId fetch depots H)
    as [(-> & _)|[(n & -> & Hn)|(_ & _ & Hex)]].
  - destruct Hd.
  - destruct Hd as [<-|[]]. split; [exact Hn|reflexivity].
  - apply (forEachM_In _ _ _ Hex) in Hd as (k & pushed & _ & Hf & Hin).
    cbv beta in Hf. destruct (skipsKey k).
    + injection Hf as <-. destruct Hin.
    + destruct (depotOf _ k) as [d'|] eqn:Ed; simpl in Hf; [|discriminate].
      injection Hf as <-. destruct Hin as [<-|[]].
      destruct (depotOf_labels _ _ _ Ed) as (H1 & H2 & _). split; assumption.
Qed.

(** X4: when the loop over the depot table completes it has produced one
    depot for each key that is kept, in the order of the keys, with the key
    as its id and the entry of the table as its raw data. *)
Theorem extractDepots_in_order (depotData : JsVal) (depots : list Depot.t) :
  extractDepots depotData = Ok depots ->
  map (fun d => (Depot.id d, Depot.rawData d)) depots =
  map (fun k => (JStr k, getPropOpt depotData k))
      (filter (fun k => negb (skipsKey k)) (forInKeys depotData)).
Proof.
  unfold extractDepots. generalize (forInKeys depotData) as keys.
  intros keys. revert depots.
  induction keys as [|k r IH]; intros depots H; simpl in H.
  - injection H as <-. reflexivity.
  - destruct (skipsKey k) eqn:Hs; simpl in H.
    + destruct (forEachM _ r) as [rest|] eqn:Er; simpl in H; [|discriminate].
      injection H as <-. simpl. rewrite Hs. simpl. apply IH. reflexivity.
    + destruct (depotOf depotData k) as [d|] eqn:Ed; simpl in H; [|discriminate].
      destruct (forEachM _ r) as [rest|] eqn:Er; simpl in H; [|discriminate].
      injection H as <-. simpl. rewrite Hs. simpl.
      destruct (depotOf_labels _ _ _ Ed) as (_ & _ & Hraw).
      rewrite (depotOf_id _ _ _ Ed), Hraw. f_equal. apply IH. reflexivity.
Qed.

Lemma extractDepots_in_order_witness :
  map (fun d => Depot.id d) (depotsOrNone (extractDepots stardewDepots))
  = [JStr "413153"; JStr "413154"; JStr "413155"].
Proof.
  pose proof (extractDepots_in_order stardewDepots
                (depotsOrNone (extractDepots stardewDepots)) eq_refl) as H.
  apply (f_equal (map fst)) in H. rewrite !map_map in H. exact H.
Defined.

(** ** What [getDepotManifests] returns *)

(** What [getDepotManifests] returns is the empty list, or the sorted list
    of what the two loops and the samples gave. *)
Lemma getDepotManifests_cases (clock : Clock) (appId depotId : JsVal) (fetch : Fetch)
      (out : list Manifest.t) :
  getDepotManifests clock appId depotId fetch = Ok out ->
  let depotData := depotTable (productInfo fetch) in
  out = [] \/
  exists direct fromBranches,
    directManifests depotData depotId = Ok direct /\
    branchManifests depotData depotId = Ok fromBranches /\
    out = sortManifests (direct ++ fromBranches ++ historicalManifests clock).
Proof.
  intros H depotData.
  destruct (getDepotManifestsBody clock appId depotId fetch) as [ms|e] eqn:Eb.
  - unfold getDepotManifests in H. rewrite Eb in H. simpl in H. injection H as <-.
    destruct (truthy (err fetch)) eqn:He.
    + unfold getDepotManifestsBody, await in Eb. rewrite He in Eb. discriminate Eb.
    + assert (Er : fetch = Resolved (productInfo fetch) \/ True) by (right; exact I).
      assert (Eb' : getDepotManifestsBody clock appId depotId
                      (Resolved (productInfo fetch)) = Ok ms).
      { rewrite <- Eb. unfold getDepotManifestsBody, await. rewrite He. reflexivity. }
      rewrite getDepotManifestsBody_table in Eb'. fold depotData in Eb'.
      destruct (truthy depotData); [|injection Eb' as <-; left; reflexivity].
      unfold collectManifests in Eb'.
      destruct (directManifests depotData depotId) as [direct|]; simpl in Eb';
        [|discriminate].
      destruct (branchManifests depotData depotId) as [fromBranches|]; simpl in Eb';
        [|discriminate].
      injection Eb' as <-. right. exists direct, fromBranches. repeat split.
  - rewrite (getDepotManifests_caught _ _ _ _ _ Eb) in H. injection H as <-.
    left. reflexivity.
Qed.

Lemma branchManifest_entry (branches depotId : JsVal) (branchName : string)
      (pushed : list Manifest.t) (m : Manifest.t) :
  branchManifest branches depotId branchName = Ok pushed -> In m pushed ->
  let branch := getPropOpt branches branchName in
  let specific :=
    getPropOpt (getPropOpt (getPropOpt branch "depots") (toStr depotId)) "manifest" in
  Manifest.isHistorical m = false /\
  Manifest.branch m = JStr branchName /\
  Manifest.rawData m = branch /\
  Manifest.buildId m = getPropOpt branch "buildid" /\
  truthy (Manifest.buildId m) = true /\
  Manifest.manifestId m = (if truthy specific then specific else Manifest.buildId m) /\
  truthy (Manifest.manifestId m) = true.
Proof.
  intros H Hin branch specific. unfold branchManifest in H.
  destruct (getProp branches branchName) as [b|] eqn:Eb; simpl in H; [|discriminate].
  assert (Hb : isNullish branches = false).
  { destruct branches; try reflexivity; discriminate Eb. }
  rewrite (getProp_defined _ _ Hb) in Eb. injection Eb as Eb. fold branch in Eb. subst b.
  destruct (getProp branch "buildid") as [buildid|] eqn:Ebuild; simpl in H;
    [|discriminate].
  assert (Hn : isNullish branch = false).
  { destruct branch; try reflexivity; discriminate Ebuild. }
  rewrite (getProp_defined _ _ Hn) in Ebuild. injection Ebuild as <-.
  rewrite !(getProp_defined _ _ Hn) in H. simpl in H.
  destruct (truthy (getPropOpt branch "buildid")) eqn:Hbuild;
    [|injection H as <-; destruct Hin].
  assert (Hs : (if truthy (getPropOpt branch "depots")
                then entry <- getProp (getPropOpt branch "depots") (toStr depotId) ;;
                     (if truthy entry
                      then m0 <- getProp entry "manifest" ;;
                           (if truthy m0 then Ok m0 else Ok JNull)
                      else Ok JNull)
                else Ok JNull)
               = Ok (if truthy specific then specific else JNull)).
  { unfold specific.
    destruct (truthy (getPropOpt branch "depots")) eqn:Hdep.
    - rewrite (getProp_truthy _ _ Hdep). simpl.
      destruct (truthy (getPropOpt (getPropOpt branch "depots") (toStr depotId))) eqn:He.
      + rewrite (getProp_truthy _ _ He). simpl.
        destruct (truthy (getPropOpt _ "manifest")); reflexivity.
      + rewrite (getPropOpt_falsy _ "manifest" He). reflexivity.
    - pose proof (getPropOpt_falsy _ (toStr depotId) Hdep) as He.
      rewrite (getPropOpt_falsy _ "manifest" He). reflexivity. }
  rewrite Hs in H. simpl in H.
  destruct (truthy specific) eqn:Hspec; simpl in H.
  - rewrite Hspec in H. simpl in H. rewrite Hspec in H.
    injection H as <-. destruct Hin as [<-|[]]. simpl.
    repeat split; assumption.
  - rewrite Hbuild in H. injection H as <-. destruct Hin as [<-|[]]. simpl.
    repeat split; assumption.
Qed.

Lemma directManifests_historical (depotData depotId : JsVal) (direct : list Manifest.t) :
  directManifests depotData depotId = Ok direct ->
  forall m, In m direct -> Manifest.isHistorical m = true.
Proof.
  unfold directManifests. intros H m Hin.
  destruct (getProp depotData (toStr depotId)) as [depot|]; simpl in H; [|discriminate].
  destruct (truthy depot); [|injection H as <-; destruct Hin].
  destruct (getProp depot "manifests") as [manifests|]; simpl in H; [|discriminate].
  destruct (truthy manifests); [|injection H as <-; destruct Hin].
  apply (forEachM_In _ _ _ H) in Hin as ([k details] & pushed & _ & Hf & Hp).
  cbv beta iota in Hf.
  repeat match type of Hf with
         | bind ?c _ = _ => destruct c; simpl in Hf; [|discriminate]
         end.
  injection Hf as <-. destruct Hp as [<-|[]]. reflexivity.
Qed.

(** X5: every manifest [getDepotManifests] returns that is not historical
    comes from a branch of the branch table that has a build id: it carries
    the name and the build id of that branch, and its manifest id is the
    manifest the branch gives for the depot when it gives one, and the build
    id otherwise; both ids are truthy. *)
Theorem getDepotManifests_current (clock : Clock) (appId depotId : JsVal) (fetch : Fetch)
        (out : list Manifest.t) :
  getDepotManifests clock appId depotId fetch = Ok out ->
  forall m, In m out -> Manifest.isHistorical m = false ->
  exists branchName,
    let branch := getPropOpt (branchTable (depotTable (productInfo fetch))) branchName in
    let specific :=
      getPropOpt (getPropOpt (getPropOpt branch "depots") (toStr depotId)) "manifest" in
    In branchName (forInKeys (branchTable (depotTable (productInfo fetch)))) /\
    Manifest.branch m = JStr branchName /\
    Manifest.buildId m = getPropOpt branch "buildid" /\
    truthy (Manifest.buildId m) = true /\
    Manifest.manifestId m = (if truthy specific then specific else Manifest.buildId m) /\
    truthy (Manifest.manifestId m) = true.
Proof.
  intros H m Hin Hcur.
  destruct (getDepotManifests_cases _ _ _ _ _ H)
    as [->|(direct & fromBranches & Hd & Hb & ->)]; [destruct Hin|].
  apply (Permutation_in m (Permutation_sym (arraySort_perm compareManifests _))) in Hin.
  apply in_app_or in Hin as [Hin|Hin].
  { rewrite (directManifests_historical _ _ _ Hd m Hin) in Hcur. discriminate. }
  apply in_app_or in Hin as [Hin|Hin].
  2:{ destruct (historicalManifests_fields clock) as [_ Hf].
      rewrite Forall_forall in Hf. destruct (Hf m Hin) as [Hh _].
      rewrite Hh in Hcur. discriminate. }
  unfold branchManifests in Hb.
  set (depotData := depotTable (productInfo fetch)) in *.
  destruct (getProp depotData "branches") as [branches|] eqn:Eg; simpl in Hb;
    [|discriminate].
  assert (Hbr : branches = branchTable depotData).
  { assert (Hn : isNullish depotData = false).
    { destruct depotData; try reflexivity; discriminate Eg. }
    rewrite (getProp_defined _ _ Hn) in Eg. injection Eg as <-. reflexivity. }
  destruct (truthy branches); [|injection Hb as <-; destruct Hin].
  apply (forEachM_In _ _ _ Hb) in Hin as (k & pushed & Hk & Hf & Hp).
  destruct (branchManifest_entry _ _ _ _ _ Hf Hp) as (_ & B1 & _ & B2 & B3 & B4 & B5).
  exists k. rewrite <- Hbr. repeat split; assumption.
Qed.

Lemma getDepotManifests_current_witness :
  exists out,
    getDepotManifests at1700000000 (JNum 413150) (JStr "413153")
      (Resolved (stardew stardewDepots)) = Ok out /\
    forall m, In m out -> Manifest.isHistorical m = false ->
      Manifest.branch m = JStr "public" /\ Manifest.manifestId m = JStr "8071262".
Proof.
  eexists. split; [reflexivity|]. intros m Hin Hcur.
  destruct (getDepotManifests_current at1700000000 (JNum 413150) (JStr "413153")
              (Resolved (stardew stardewDepots)) _ eq_refl m Hin Hcur)
    as (k & Hk & Hbranch & _ & _ & Hid & _).
  simpl in Hk. destruct Hk as [<-|[]]. split; [exact Hbranch|].
  rewrite Hid. destruct m as [mid bid ? ? ? ? ? ? ?]. simpl in *.
  destruct Hin as [E|[E|[E|[E|[E|[E|[]]]]]]]; inversion E; subst; try discriminate;
    reflexivity.
Defined.

(** ** Manifests without a time *)

(** X6: a list of manifests of which none has a time is sorted into the
    manifests that are not historical, in the order of the list, followed by
    the historical ones, in the order of the list. *)
Theorem sortManifests_without_time (manifests : list Manifest.t) :
  forallb (fun m => negb (hasTime m)) manifests = true ->
  sortManifests manifests =
  (filter (fun m => negb (Manifest.isHistorical m)) manifests
   ++ filter Manifest.isHistorical manifests)%list.
Proof.
  intros Hall. unfold sortManifests, arraySort.
  assert (H : forall current historical,
             Forall (fun m => Manifest.isHistorical m = false) current ->
             Forall (fun m => Manifest.isHistorical m = true) historical ->
             fold_left (fun s x => insertSorted compareManifests x s) manifests
                       (current ++ historical)%list
             = ((current ++ filter (fun m => negb (Manifest.isHistorical m)) manifests)
                ++ historical ++ filter Manifest.isHistorical manifests)%list).
  { induction manifests as [|x r IH]; intros current historical Hcur Hhis; simpl.
    - rewrite !app_nil_r. reflexivity.
    - simpl in Hall. apply andb_true_iff in Hall as [Hx Hr].
      apply negb_true_iff in Hx.
      destruct (Manifest.isHistorical x) eqn:Hh; simpl.
      + rewrite (insertSorted_historical x _ Hx Hh), <- app_assoc.
        rewrite (IH Hr current (historical ++ [x])%list Hcur).
        * rewrite <- !app_assoc. reflexivity.
        * apply Forall_app. split; [exact Hhis|]. constructor; [exact Hh|constructor].
      + rewrite (insertSorted_current x _ _ Hx Hh Hcur Hhis).
        change (current ++ x :: historical)%list
          with (current ++ [x] ++ historical)%list.
        rewrite app_assoc.
        rewrite (IH Hr (current ++ [x])%list historical).
        * rewrite <- !app_assoc. reflexivity.
        * apply Forall_app. split; [exact Hcur|]. constructor; [exact Hh|constructor].
        * exact Hhis. }
  apply (H [] []); constructor.
Qed.

Lemma sortManifests_without_time_witness :
  sortManifests
    [ historicalManifest "2946550127499212992" 0 "Recent";
      publicBranch JNull;
      historicalManifest "4931450830400310210" 0 "Recent";
      publicBranch (JStr "") ]
  = [ publicBranch JNull;
      publicBranch (JStr "");
      historicalManifest "2946550127499212992" 0 "Recent";
      historicalManifest "4931450830400310210" 0 "Recent" ].
Proof.
  apply (sortManifests_without_time
           [ historicalManifest "2946550127499212992" 0 "Recent";
             publicBranch JNull;
             historicalManifest "4931450830400310210" 0 "Recent";
             publicBranch (JStr "") ]).
  reflexivity.
Defined.

(** ** The order does not depend on the sort

    In the three cases in which an order of the result is stated the
    comparison is by a key, the larger key first: the timestamp where every
    manifest carries one, the kind where none has a time, and the kind
    before the timestamp where the manifests of the branches have no time
    and the historical ones carry a timestamp.  A sort that gives a sorted
    list and leaves the manifests of one key in their order then gives the
    list of [sortManifests]. *)

Lemma epochSeconds_newest (l : list Manifest.t) (m : Manifest.t) :
  In m l -> epochSeconds m <= newest l.
Proof.
  unfold newest. induction l as [|x r IH]; intros Hin; [destruct Hin|].
  cbn [map fold_right]. destruct Hin as [<-|Hin]; [lia|].
  specialize (IH Hin). lia.
Qed.

Lemma below_by_kind (l : list Manifest.t) (x y : Manifest.t) :
  forallb timedByKind l = true ->
  In x l -> In y l ->
  below compareManifests x y = (kindKey l y <? kindKey l x).
Proof.
  intros Hall Hx Hy. rewrite forallb_forall in Hall.
  pose proof (Hall x Hx) as Kx. pose proof (Hall y Hy) as Ky.
  pose proof (epochSeconds_newest l x Hx) as Nx.
  pose proof (epochSeconds_newest l y Hy) as Ny.
  unfold timedByKind, kindKey in *.
  destruct (Manifest.isHistorical x) eqn:Hhx.
  - destruct (Manifest.isHistorical y) eqn:Hhy.
    + apply below_by_time; assumption.
    + apply negb_true_iff in Ky. unfold below.
      rewrite (compareManifests_without_time x y); [|rewrite Ky; apply andb_false_r].
      rewrite Hhx, Hhy. cbn. symmetry. apply Z.ltb_ge. lia.
  - apply negb_true_iff in Kx. rewrite (below_without_time x y Kx), Hhx.
    destruct (Manifest.isHistorical y); cbn; symmetry.
    + apply Z.ltb_lt. lia.
    + apply Z.ltb_irrefl.
Qed.

Lemma sortManifests_by_kind_unique (manifests out : list Manifest.t) :
  forallb timedByKind manifests = true ->
  StronglySorted (fun a b => kindKey manifests b <= kindKey manifests a) out ->
  (forall k, filter (fun m => kindKey manifests m =? k) out
             = filter (fun m => kindKey manifests m =? k) manifests) ->
  out = sortManifests manifests.
Proof.
  intros Hall Hs Hf.
  apply (arraySort_unique compareManifests (fun m => In m manifests)
           (kindKey manifests) (fun x y => below_by_kind manifests x y Hall));
    [|exact Hs|exact Hf].
  apply Forall_forall. intros m Hm. exact Hm.
Qed.

Lemma sortManifests_descending_unique (manifests out : list Manifest.t) :
  forallb carriesTimestamp manifests = true ->
  Descending out ->
  (forall k, filter (fun m => epochSeconds m =? k) out
             = filter (fun m => epochSeconds m =? k) manifests) ->
  out = sortManifests manifests.
Proof.
  intros Hall Hs Hf.
  apply (arraySort_unique compareManifests (fun m => carriesTimestamp m = true)
           epochSeconds below_by_time); [|exact Hs|exact Hf].
  apply Forall_forall. apply forallb_forall. exact Hall.
Qed.

Lemma below_by_currentKey (x y : Manifest.t) :
  hasTime x = false -> hasTime y = false ->
  below compareManifests x y = (currentKey y <? currentKey x).
Proof.
  intros Hx _. rewrite (below_without_time x y Hx). unfold currentKey.
  destruct (Manifest.isHistorical x), (Manifest.isHistorical y); reflexivity.
Qed.

Lemma sortManifests_without_time_unique (manifests out : list Manifest.t) :
  forallb (fun m => negb (hasTime m)) manifests = true ->
  StronglySorted (fun a b => currentKey b <= currentKey a) out ->
  (forall k, filter (fun m => currentKey m =? k) out
             = filter (fun m => currentKey m =? k) manifests) ->
  out = sortManifests manifests.
Proof.
  intros Hall Hs Hf.
  apply (arraySort_unique compareManifests (fun m => hasTime m = false)
           currentKey below_by_currentKey); [|exact Hs|exact Hf].
  apply Forall_forall. intros m Hm. rewrite forallb_forall in Hall.
  apply negb_true_iff, Hall, Hm.
Qed.

(** ** The search *)

Lemma readResponse_printed (response : JsVal) (printed : list Event)
      (apps : list SteamSearch.App.t) :
  SteamSearch.readResponse response = Ok (printed, apps) ->
  printed = [] \/ printed = [ConsoleLog "No matching games found."].
Proof.
  unfold SteamSearch.readResponse.
  destruct (getProp response "data") as [data|]; simpl; [|discriminate].
  destruct (truthy data); simpl; [|intros H; injection H as <- _; right; reflexivity].
  destruct (getProp data "items") as [items|]; simpl; [|discriminate].
  destruct (truthy items); simpl; [|intros H; injection H as <- _; right; reflexivity].
  destruct (getProp items "length") as [len|]; simpl; [|discriminate].
  assert (Hmap : (apps' <- SteamSearch.arrayMap SteamSearch.appOf items ;;
                  Ok ([], apps')) = Ok (printed, apps) -> printed = []).
  { destruct (SteamSearch.arrayMap SteamSearch.appOf items); simpl; [|discriminate].
    intros H; injection H as <- _; reflexivity. }
  destruct len as [| |b|n|str|elems|fields]; try (intros H; left; exact (Hmap H)).
  destruct n; try (intros H; left; exact (Hmap H)).
  intros H; injection H as <- _; right; reflexivity.
Qed.

(** X7: whatever the store answers, [searchGames] sends it exactly one
    request: the trace holds one request, the first thing after the line
    that announces the search, for the term as it was given, in English and
    for the US store, and nothing that follows it is a request. *)
Theorem searchGames_one_request (store : SteamSearch.Store) (searchTerm : string) :
  filter isHttpGet (fst (SteamSearch.searchGames store searchTerm))
  = [HttpGet SteamSearch.apiUrl [("term", searchTerm); ("l", "english"); ("cc", "US")]
       SteamSearch.headers] /\
  exists rest,
    fst (SteamSearch.searchGames store searchTerm)
    = (ConsoleLog ("Searching for games matching: " ++ searchTerm)
         :: HttpGet SteamSearch.apiUrl
              [("term", searchTerm); ("l", "english"); ("cc", "US")] SteamSearch.headers
         :: rest) /\
    filter isHttpGet rest = [].
Proof.
  assert (H : exists rest,
             fst (SteamSearch.searchGames store searchTerm)
             = (ConsoleLog ("Searching for games matching: " ++ searchTerm)
                  :: HttpGet SteamSearch.apiUrl
                       [("term", searchTerm); ("l", "english"); ("cc", "US")]
                       SteamSearch.headers
                  :: rest) /\
             filter isHttpGet rest = []).
  { unfold SteamSearch.searchGames.
    destruct (match store searchTerm with
              | SteamSearch.HttpFail error => Throw error
              | SteamSearch.HttpOk response => SteamSearch.readResponse response
              end) as [[printed apps]|error] eqn:E.
    - exists printed. split; [reflexivity|].
      destruct (store searchTerm) as [err|response]; [discriminate|].
      destruct (readResponse_printed _ _ _ E) as [-> | ->]; reflexivity.
    - destruct (getProp error "message").
      + eexists. split; reflexivity.
      + exists []. split; reflexivity. }
  split; [|exact H].
  destruct H as (rest & -> & Hrest). cbn [filter isHttpGet]. rewrite Hrest. reflexivity.
Qed.

(** X8: when the response has no data, no items, or items of length 0,
    [searchGames] prints "No matching games found." and returns the empty
    list. *)
Theorem searchGames_no_items (store : SteamSearch.Store) (searchTerm : string)
        (response : JsVal) :
  store searchTerm = SteamSearch.HttpOk response ->
  isNullish response = false ->
  let items := getPropOpt (getPropOpt response "data") "items" in
  truthy items = false \/ getPropOpt items "length" = JNum 0 ->
  SteamSearch.searchGames store searchTerm =
  ((searching searchTerm ++ [ConsoleLog "No matching games found."])%list, Ok []).
Proof.
  intros Hs Hr items Hitems. unfold SteamSearch.searchGames. rewrite Hs.
  unfold SteamSearch.readResponse. rewrite (getProp_defined _ _ Hr). simpl.
  destruct (truthy (getPropOpt response "data")) eqn:Hd; simpl; [|reflexivity].
  rewrite (getProp_truthy _ _ Hd). fold items. simpl.
  destruct (truthy items) eqn:Hi; simpl; [|reflexivity].
  destruct Hitems as [Hf|Hl]; [discriminate|].
  rewrite (getProp_truthy _ _ Hi), Hl. reflexivity.
Qed.

Lemma searchGames_no_items_witness :
  SteamSearch.searchGames emptyStore "Stardew Valley" =
  ((searching "Stardew Valley" ++ [ConsoleLog "No matching games found."])%list, Ok []).
Proof.
  apply (searchGames_no_items emptyStore "Stardew Valley"
           (JObj [("data", JObj [("total", JNum 0); ("items", JArr [])])])).
  - reflexivity.
  - reflexivity.
  - right. reflexivity.
Defined.

Lemma thrown_appOf (item : JsVal) : ThrowsObject (SteamSearch.appOf item).
Proof. unfold SteamSearch.appOf. thrown. Qed.

Lemma thrown_readResponse (response : JsVal) :
  ThrowsObject (SteamSearch.readResponse response).
Proof.
  unfold SteamSearch.readResponse.
  apply thrown_bind; [apply thrown_getProp|]. intros data.
  destruct (negb (truthy data)); [exact I|].
  apply thrown_bind; [apply thrown_getProp|]. intros items.
  destruct (negb (truthy items)); [exact I|].
  apply thrown_bind; [apply thrown_getProp|]. intros len.
  assert (Hmap : ThrowsObject (apps <- SteamSearch.arrayMap SteamSearch.appOf items ;;
                               Ok ([] : list Event, apps))).
  { apply thrown_bind; [|intros; exact I].
    destruct items; simpl; try reflexivity.
    apply thrown_forEachM. intros e.
    apply thrown_bind; [apply thrown_appOf|]. intros; exact I. }
  destruct len as [| |?|[|?|?]|?|?|?]; try exact Hmap. exact I.
Qed.

(** X9: when [searchGames] fails, with the error of the request or with
    one raised by what the store answered, the last thing it has printed is
    that error's message, and what it throws is that error. *)
Theorem searchGames_failure_reported (store : SteamSearch.Store) (searchTerm : string)
        (e : JsVal) :
  (forall error, store searchTerm = SteamSearch.HttpFail error -> isNullish error = false) ->
  snd (SteamSearch.searchGames store searchTerm) = Throw e ->
  fst (SteamSearch.searchGames store searchTerm) =
  (searching searchTerm
   ++ [ConsoleError [JStr "Error searching Steam:"; getPropOpt e "message"]])%list /\
  (store searchTerm = SteamSearch.HttpFail e \/
   exists response,
     store searchTerm = SteamSearch.HttpOk response /\
     SteamSearch.readResponse response = Throw e).
Proof.
  intros Hstore. unfold SteamSearch.searchGames.
  destruct (store searchTerm) as [error|response] eqn:Es.
  - specialize (Hstore error eq_refl).
    rewrite (getProp_defined _ _ Hstore). simpl. intros H. injection H as <-.
    split; [reflexivity|]. left. reflexivity.
  - pose proof (thrown_readResponse response) as Ht.
    destruct (SteamSearch.readResponse response) as [[printed apps]|error] eqn:Er.
    + simpl. discriminate.
    + simpl in Ht. rewrite (getProp_defined _ _ Ht). simpl. intros H.
      injection H as <-. split; [reflexivity|]. right. exists response.
      split; [reflexivity|exact Er].
Qed.

Lemma searchGames_failure_reported_witness :
  fst (SteamSearch.searchGames refusingStore "Stardew Valley") =
  (searching "Stardew Valley"
   ++ [ConsoleError [JStr "Error searching Steam:";
                     JStr "Request failed with status code 429"]])%list.
Proof.
  apply (searchGames_failure_reported refusingStore "Stardew Valley"
           (JObj [("name", JStr "AxiosError");
                  ("message", JStr "Request failed with status code 429")])).
  - intros error H. injection H as <-. reflexivity.
  - reflexivity.
Defined.

Lemma appOf_defined (item : JsVal) :
  isNullish item = false ->
  exists app,
    SteamSearch.appOf item = Ok app /\
    SteamSearch.App.appid app = getPropOpt item "id" /\
    SteamSearch.App.name app = getPropOpt item "name" /\
    SteamSearch.App.type app = getPropOpt item "type" /\
    SteamSearch.App.image app = getPropOpt item "tiny_image" /\
    (truthy (getPropOpt item "price") = false ->
     SteamSearch.App.price app = Some (0, 1) /\
     SteamSearch.App.discount app = JNum 0) /\
    (truthy (getPropOpt item "price") = true ->
     SteamSearch.App.price app =
     option_map (fun n => (n, 100)) (toNumber (getPropOpt (getPropOpt item "price") "final")) /\
     SteamSearch.App.discount app = getPropOpt (getPropOpt item "price") "discount_percent").
Proof.
  intros Hn. unfold SteamSearch.appOf.
  rewrite !(getProp_defined _ _ Hn). simpl.
  destruct (truthy (getPropOpt item "price")) eqn:Hp.
  - rewrite !(getProp_truthy _ _ Hp). simpl. eexists. split; [reflexivity|].
    simpl. repeat split; try reflexivity; discriminate.
  - simpl. eexists. split; [reflexivity|].
    simpl. repeat split; try reflexivity; discriminate.
Qed.

Lemma arrayMap_Forall2 {B : Type} (f : JsVal -> Res B) (R : JsVal -> B -> Prop)
      (elems : list JsVal) :
  (forall e, In e elems -> exists b, f e = Ok b /\ R e b) ->
  exists out, SteamSearch.arrayMap f (JArr elems) = Ok out /\ Forall2 R elems out.
Proof.
  simpl. induction elems as [|e r IH]; intros H; simpl.
  - exists []. split; [reflexivity|constructor].
  - destruct (H e (or_introl eq_refl)) as (b & -> & Hb). simpl.
    destruct IH as (out & -> & Hout); [intros x Hx; apply H; right; exact Hx|].
    simpl. exists (b :: out). split; [reflexivity|]. constructor; assumption.
Qed.

(** X10: when the response lists items, [searchGames] returns one
    application for each item, in order, with the id, name, type and image of
    the item; the price of an item without a price is 0 and its discount 0,
    and the price of an item with one is its final price over 100, with the
    discount the item gives. *)
Theorem searchGames_apps (store : SteamSearch.Store) (searchTerm : string)
        (response : JsVal) (elems : list JsVal) :
  store searchTerm = SteamSearch.HttpOk response ->
  getPropOpt (getPropOpt response "data") "items" = JArr elems ->
  elems <> [] ->
  forallb (fun item => negb (isNullish item)) elems = true ->
  exists apps,
    SteamSearch.searchGames store searchTerm = (searching searchTerm, Ok apps) /\
    Forall2
      (fun item app =>
         SteamSearch.App.appid app = getPropOpt item "id" /\
         SteamSearch.App.name app = getPropOpt item "name" /\
         SteamSearch.App.type app = getPropOpt item "type" /\
         SteamSearch.App.image app = getPropOpt item "tiny_image" /\
         (truthy (getPropOpt item "price") = false ->
          SteamSearch.App.price app = Some (0, 1) /\
          SteamSearch.App.discount app = JNum 0) /\
         (truthy (getPropOpt item "price") = true ->
          SteamSearch.App.price app =
          option_map (fun n => (n, 100))
                     (toNumber (getPropOpt (getPropOpt item "price") "final")) /\
          SteamSearch.App.discount app
          = getPropOpt (getPropOpt item "price") "discount_percent"))
      elems apps.
Proof.
  intros Hs Hitems Hne Hall.
  assert (Hd : truthy (getPropOpt response "data") = true).
  { destruct (truthy (getPropOpt response "data")) eqn:E; [reflexivity|].
    pose proof (getPropOpt_falsy _ "items" E) as F. rewrite Hitems in F. discriminate. }
  assert (Hr : isNullish response = false).
  { destruct response; try reflexivity; discriminate Hd. }
  destruct (arrayMap_Forall2 SteamSearch.appOf
              (fun item app =>
                 SteamSearch.App.appid app = getPropOpt item "id" /\
                 SteamSearch.App.name app = getPropOpt item "name" /\
                 SteamSearch.App.type app = getPropOpt item "type" /\
                 SteamSearch.App.image app = getPropOpt item "tiny_image" /\
                 (truthy (getPropOpt item "price") = false ->
                  SteamSearch.App.price app = Some (0, 1) /\
                  SteamSearch.App.discount app = JNum 0) /\
                 (truthy (getPropOpt item "price") = true ->
                  SteamSearch.App.price app =
                  option_map (fun n => (n, 100))
                             (toNumber (getPropOpt (getPropOpt item "price") "final")) /\
                  SteamSearch.App.discount app
                  = getPropOpt (getPropOpt item "price") "discount_percent"))
              elems) as (apps & Hmap & HF).
  { intros e He. rewrite forallb_forall in Hall. specialize (Hall e He).
    apply negb_true_iff in Hall. destruct (appOf_defined e Hall) as (app & Ha & Hrest).
    exists app. split; [exact Ha|exact Hrest]. }
  exists apps. split; [|exact HF].
  unfold SteamSearch.searchGames. rewrite Hs.
  unfold SteamSearch.readResponse. rewrite (getProp_defined _ _ Hr).
  cbn [bind]. rewrite Hd. cbn [negb]. rewrite (getProp_truthy _ _ Hd), Hitems.
  cbn [bind truthy negb getProp]. rewrite Hmap.
  destruct elems as [|e r]; [contradiction Hne; reflexivity|].
  simpl. reflexivity.
Qed.

Lemma searchGames_apps_witness :
  exists game soundtrack,
    SteamSearch.searchGames stardewStore "Stardew Valley"
    = (searching "Stardew Valley", Ok [game; soundtrack]) /\
    SteamSearch.App.appid game = JNum 413150 /\
    SteamSearch.App.price game = Some (1499, 100) /\
    SteamSearch.App.price soundtrack = Some (0, 1).
Proof.
  destruct (searchGames_apps stardewStore "Stardew Valley" _ _
              eq_refl eq_refl ltac:(discriminate) eq_refl)
    as (apps & Hs & HF).
  inversion HF as [|item1 game r1 r2 H1 HF']; subst.
  inversion HF' as [|item2 soundtrack r3 r4 H2 HF'']; subst.
  inversion HF''; subst.
  exists game, soundtrack. split; [exact Hs|].
  destruct H1 as (Hid & _ & _ & _ & _ & Hp1).
  destruct H2 as (_ & _ & _ & _ & Hp2 & _).
  split; [exact Hid|]. split.
  - apply Hp1. reflexivity.
  - apply Hp2. reflexivity.
Defined.

(** ** Relative times *)

(** X11: for a timestamp that is a number, [getRelativeTimeString] gives
    "just now" when less than a minute has passed, also for a timestamp in
    the future; otherwise it counts whole minutes below an hour, whole hours
    below a day, whole days up to thirty days and months of thirty days
    beyond, with a plural "s" for a count above one. *)
Theorem getRelativeTimeString_units (now timestamp : Z) :
  let diff := now - timestamp in
  let ago (n : Z) (unit : string) :=
    Str.ofZ n ++ " " ++ unit ++ (if 1 <? n then "s" else "") ++ " ago" in
  (diff < 60 -> CLI.getRelativeTimeString now (JNum timestamp) = "just now") /\
  (60 <= diff < 3600 ->
   CLI.getRelativeTimeString now (JNum timestamp) = ago (diff / 60) "minute") /\
  (3600 <= diff < 86400 ->
   CLI.getRelativeTimeString now (JNum timestamp) = ago (diff / 3600) "hour") /\
  (86400 <= diff < 31 * 86400 ->
   CLI.getRelativeTimeString now (JNum timestamp) = ago (diff / 86400) "day") /\
  (31 * 86400 <= diff ->
   CLI.getRelativeTimeString now (JNum timestamp) = ago (diff / 86400 / 30) "month").
Proof.
  intros diff ago. subst diff.
  cbv beta iota zeta delta [CLI.getRelativeTimeString jsSub toNumber].
  change (60 * 60 * 24) with 86400. change (60 * 60) with 3600.
  generalize (now - timestamp). intros diff.
  assert (Hrem : forall d, 0 < d -> 0 <= diff -> Z.rem diff d = diff mod d).
  { intros d Hd Hdiff. apply Z.rem_mod_nonneg; lia. }
  repeat split; intros H.
  - (* less than a minute *)
    destruct (Z.ltb_spec 30 (diff / 86400)) as [Hd|Hd].
    { assert (diff / 86400 < 1) by (apply Z.div_lt_upper_bound; lia). lia. }
    destruct (Z.ltb_spec 0 (diff / 86400)) as [Hd0|Hd0].
    { assert (diff / 86400 < 1) by (apply Z.div_lt_upper_bound; lia). lia. }
    destruct (Z.le_gt_cases 0 diff) as [Hpos|Hneg].
    + rewrite !Hrem by lia. rewrite !Z.mod_small by lia.
      rewrite (Z.div_small diff 3600), (Z.div_small diff 60) by lia. reflexivity.
    + assert (H1 : Z.rem diff 86400 / 3600 <= 0).
      { apply Z.div_le_upper_bound; [lia|].
        pose proof (Z.rem_nonpos diff 86400 ltac:(lia) ltac:(lia)). lia. }
      assert (H2 : Z.rem diff 3600 / 60 <= 0).
      { apply Z.div_le_upper_bound; [lia|].
        pose proof (Z.rem_nonpos diff 3600 ltac:(lia) ltac:(lia)). lia. }
      destruct (Z.ltb_spec 0 (Z.rem diff 86400 / 3600)); [lia|].
      destruct (Z.ltb_spec 0 (Z.rem diff 3600 / 60)); [lia|]. reflexivity.
  - (* minutes *)
    rewrite !Hrem by lia. rewrite !Z.mod_small by lia.
    rewrite (Z.div_small diff 86400), (Z.div_small diff 3600) by lia. simpl.
    assert (1 <= diff / 60) by (apply Z.div_le_lower_bound; lia).
    destruct (Z.ltb_spec 0 (diff / 60)); [|lia]. reflexivity.
  - (* hours *)
    rewrite !Hrem by lia. rewrite (Z.mod_small diff 86400) by lia.
    rewrite (Z.div_small diff 86400) by lia. simpl.
    assert (1 <= diff / 3600) by (apply Z.div_le_lower_bound; lia).
    destruct (Z.ltb_spec 0 (diff / 3600)); [|lia]. reflexivity.
  - (* days *)
    assert (1 <= diff / 86400) by (apply Z.div_le_lower_bound; lia).
    assert (diff / 86400 < 31) by (apply Z.div_lt_upper_bound; lia).
    destruct (Z.ltb_spec 30 (diff / 86400)); [lia|].
    destruct (Z.ltb_spec 0 (diff / 86400)); [|lia]. reflexivity.
  - (* months *)
    assert (31 <= diff / 86400) by (apply Z.div_le_lower_bound; lia).
    destruct (Z.ltb_spec 30 (diff / 86400)); [|lia]. reflexivity.
Qed.

Lemma getRelativeTimeString_units_witness :
  CLI.getRelativeTimeString 1700000000 (JNum (1700000000 - 2 * 24 * 60 * 60)) = "2 days ago" /\
  CLI.getRelativeTimeString 1700000000 (JNum 1700000300) = "just now".
Proof.
  split.
  - apply (proj1 (proj2 (proj2 (proj2
             (getRelativeTimeString_units 1700000000 (1700000000 - 2 * 24 * 60 * 60)))))).
    lia.
  - apply (proj1 (getRelativeTimeString_units 1700000000 1700000300)). lia.
Defined.

(** ** Menus *)

Lemma offered_items {V : Type} (line : V -> string) (l : list V) :
  CLI.offered (map (fun v => CLI.Item (line v) v) l) = l.
Proof. induction l as [|v r IH]; simpl; [reflexivity|]. rewrite IH. reflexivity. Qed.

Lemma offered_app {V : Type} (c1 c2 : list (CLI.Choice V)) :
  CLI.offered (c1 ++ c2) = (CLI.offered c1 ++ CLI.offered c2)%list.
Proof.
  induction c1 as [|[line|name value] r IH]; simpl; [reflexivity|exact IH|].
  rewrite IH. reflexivity.
Qed.

Lemma offered_numbered {V : Type} (line : nat -> V -> string) (l : list V) (start : nat) :
  CLI.offered (map (fun iv => CLI.Item (line (fst iv) (snd iv)) (snd iv))
                   (combine (seq start (List.length l)) l)) = l.
Proof.
  revert start. induction l as [|v r IH]; intros start; simpl; [reflexivity|].
  rewrite IH. reflexivity.
Qed.

Lemma manifestChoices_offered (toLocaleString : option Z -> string) (clock : nat -> Z)
      (manifestList : list Manifest.t) :
  CLI.offered (CLI.manifestChoices toLocaleString clock manifestList) =
  (filter (fun m => negb (Manifest.isHistorical m)) manifestList
   ++ filter Manifest.isHistorical manifestList)%list.
Proof.
  unfold CLI.manifestChoices. rewrite offered_app. f_equal.
  - destruct (filter (fun m => negb (Manifest.isHistorical m)) manifestList) as [|m r] eqn:E;
      [reflexivity|].
    cbn [CLI.offered]. rewrite offered_items. reflexivity.
  - change (fun m : Manifest.t => Manifest.isHistorical m) with Manifest.isHistorical.
    destruct (filter Manifest.isHistorical manifestList) as [|m r] eqn:E; [reflexivity|].
    cbn [CLI.offered].
    apply (offered_numbered
             (fun i m => CLI.historicalLine toLocaleString (clock i) m) (m :: r) 0).
Qed.

Lemma partition_perm {V : Type} (p : V -> bool) (l : list V) :
  Permutation l (filter (fun v => negb (p v)) l ++ filter p l).
Proof.
  induction l as [|v r IH]; simpl; [constructor|].
  destruct (p v); simpl.
  - apply Permutation_cons_app. exact IH.
  - constructor. exact IH.
Qed.

(** X12: the menu of [selectManifest] offers every manifest of the list
    once, those of the branches first and the historical ones after them,
    each group in the order of the list; what the user picks is a manifest of
    the list, and every place of the menu can be picked.  The result is
    [null] exactly for the empty list: then [selectManifest] prints that no
    manifests were found, asks nothing and returns [null] whatever the user
    would pick. *)
Theorem selectManifest_offers (toLocaleString : option Z -> string) (clock : nat -> Z)
        (manifestList : list Manifest.t) :
  CLI.offered (CLI.manifestChoices toLocaleString clock manifestList) =
  (filter (fun m => negb (Manifest.isHistorical m)) manifestList
   ++ filter Manifest.isHistorical manifestList)%list /\
  Permutation manifestList
    (CLI.offered (CLI.manifestChoices toLocaleString clock manifestList)) /\
  (forall pick m,
     snd (CLI.selectManifest toLocaleString clock manifestList pick) = Some (Some m) ->
     In m manifestList) /\
  (forall pick,
     snd (CLI.selectManifest toLocaleString clock manifestList pick) = Some None <->
     manifestList = []) /\
  (forall pick,
     CLI.selectManifest toLocaleString clock [] pick
     = ([ConsoleLog (nl ++ "No manifests found for this depot.")], Some None)) /\
  (forall pick,
     (pick < List.length manifestList)%nat ->
     exists m, snd (CLI.selectManifest toLocaleString clock manifestList pick)
               = Some (Some m)).
Proof.
  pose proof (manifestChoices_offered toLocaleString clock manifestList) as Hoff.
  pose proof (partition_perm Manifest.isHistorical manifestList) as Hperm.
  rewrite <- Hoff in Hperm.
  split; [exact Hoff|]. split; [exact Hperm|]. split; [|split; [|split]].
  - intros pick m H. destruct manifestList as [|m0 r]; [discriminate|].
    cbn [CLI.selectManifest snd] in H. unfold CLI.listPrompt in H.
    destruct (nth_error _ pick) as [m'|] eqn:E; [|discriminate].
    injection H as <-. apply nth_error_In in E.
    eapply Permutation_in; [apply Permutation_sym, Hperm|exact E].
  - intros pick. split.
    + intros H. destruct manifestList as [|m0 r]; [reflexivity|].
      cbn [CLI.selectManifest snd] in H.
      destruct (CLI.listPrompt _ pick); discriminate.
    + intros ->. reflexivity.
  - intros pick. reflexivity.
  - intros pick Hlt. destruct manifestList as [|m0 r]; [simpl in Hlt; lia|].
    cbn [CLI.selectManifest snd]. unfold CLI.listPrompt.
    rewrite (Permutation_length Hperm) in Hlt.
    destruct (nth_error _ pick) as [m|] eqn:E.
    + exists m. reflexivity.
    + apply nth_error_None in E. lia.
Qed.

Lemma selectManifest_offers_witness :
  exists m,
    snd (CLI.selectManifest (fun _ => "11/14/2023, 10:13:20 PM") at1700000000
           untimedBranchManifests 0) = Some (Some m) /\
    In m untimedBranchManifests.
Proof.
  destruct (proj2 (proj2 (proj2 (proj2 (proj2
              (selectManifest_offers (fun _ => "11/14/2023, 10:13:20 PM")
                 at1700000000 untimedBranchManifests))))) 0%nat
              ltac:(vm_compute; lia)) as (m & Hm).
  exists m. split; [exact Hm|].
  apply (proj1 (proj2 (proj2
           (selectManifest_offers (fun _ => "11/14/2023, 10:13:20 PM")
              at1700000000 untimedBranchManifests))) 0%nat m Hm).
Defined.

(** ** From the manifest to the command *)

Lemma details_no_exec (toLocaleString : option Z -> string) (cli : CLI.t)
      (manifest : Manifest.t) (appId depotId : JsVal) :
  exists details,
    snd (CLI.displayManifestDetails toLocaleString cli (Some manifest) appId depotId)
    = (details
       ++ CLI.generateSteamCommand
            (fst (CLI.displayManifestDetails toLocaleString cli (Some manifest)
                    appId depotId)))%list /\
    filter isExec details = [].
Proof.
  cbn [CLI.displayManifestDetails fst snd].
  eexists (_ :: _). split; [rewrite <- app_comm_cons; reflexivity|].
  destruct (Manifest.isHistorical manifest), (truthy (Manifest.timeupdated manifest)),
    (truthy (Manifest.description manifest)); reflexivity.
Qed.

(** X13: [displayManifestDetails] leaves the handler with the app, the
    depot and the manifest it was given, whatever it held before.  When none
    of the three ids is falsy, the command it prints and the command
    [displayCompletion] prints afterwards are the same, made of these three
    ids, and that command is sent to the clipboard once.  When one of them is
    falsy, nothing is sent to the clipboard and [displayCompletion] only
    prints "Search completed.".  For [null] instead of a manifest nothing
    changes and nothing is printed. *)
Theorem displayManifestDetails_command (toLocaleString : option Z -> string)
        (cli : CLI.t) (manifest : Manifest.t) (appId depotId : JsVal) :
  let after :=
    fst (CLI.displayManifestDetails toLocaleString cli (Some manifest) appId depotId) in
  let events :=
    snd (CLI.displayManifestDetails toLocaleString cli (Some manifest) appId depotId) in
  let command :=
    commandForm (toStr appId) (toStr depotId) (toStr (Manifest.manifestId manifest)) in
  CLI.displayManifestDetails toLocaleString cli None appId depotId = (cli, []) /\
  CLI.steamCommand after = command /\
  (truthy appId && truthy depotId && truthy (Manifest.manifestId manifest) = true ->
   In (ConsoleLog command) events /\
   In (ConsoleLog (" " ++ command ++ " ")) (CLI.displayCompletion after) /\
   filter isExec events =
   [Exec ("powershell -command " ++ dquote ++ "Set-Clipboard -Value '"
            ++ CLI.commandWithNotes after ++ "'" ++ dquote)]) /\
  (truthy appId && truthy depotId && truthy (Manifest.manifestId manifest) = false ->
   filter isExec events = [] /\
   In (ConsoleLog (nl ++ "Missing required information to generate Steam command."))
      events /\
   CLI.displayCompletion after = [ConsoleLog (nl ++ "Search completed.")]).
Proof.
  intros after events command.
  destruct (details_no_exec toLocaleString cli manifest appId depotId)
    as (details & Hev & Hno).
  fold after in Hev. fold events in Hev.
  split; [reflexivity|]. split; [reflexivity|].
  assert (Hguard : forall b,
             truthy appId && truthy depotId && truthy (Manifest.manifestId manifest) = b ->
             negb (truthy (CLI.currentAppId after))
             || negb (truthy (CLI.currentDepotId after))
             || negb (truthy (CLI.currentManifestId after)) = negb b).
  { intros b <-. subst after. cbn [CLI.displayManifestDetails fst CLI.currentAppId
                                     CLI.currentDepotId CLI.currentManifestId].
    destruct (truthy appId), (truthy depotId), (truthy (Manifest.manifestId manifest));
      reflexivity. }
  split; intros Ht.
  - rewrite Hev. unfold CLI.generateSteamCommand. rewrite (Hguard true Ht).
    cbn [negb]. split; [|split].
    + apply in_or_app. right. right. left. reflexivity.
    + unfold CLI.displayCompletion. subst after.
      cbn [CLI.displayManifestDetails fst CLI.currentAppId
             CLI.currentDepotId CLI.currentManifestId].
      rewrite Ht. right. right. left. reflexivity.
    + rewrite filter_app, Hno. reflexivity.
  - rewrite Hev. unfold CLI.generateSteamCommand. rewrite (Hguard false Ht).
    cbn [negb]. split; [|split].
    + rewrite filter_app, Hno. reflexivity.
    + apply in_or_app. right. left. reflexivity.
    + unfold CLI.displayCompletion. subst after.
      cbn [CLI.displayManifestDetails fst CLI.currentAppId
             CLI.currentDepotId CLI.currentManifestId].
      rewrite Ht. reflexivity.
Qed.

Lemma displayManifestDetails_command_witness :
  In (ConsoleLog " download_depot 413150 413153 8881193748180768755 ")
     (CLI.displayCompletion
        (fst (CLI.displayManifestDetails (fun _ => "3/19/2022, 10:05:32 AM") CLI.new
                (Some (publicBranch (JStr "1647678332"))) (JNum 413150) (JStr "413153")))).
Proof.
  apply (proj1 (proj2 (proj1 (proj2 (proj2
           (displayManifestDetails_command (fun _ => "3/19/2022, 10:05:32 AM") CLI.new
              (publicBranch (JStr "1647678332")) (JNum 413150) (JStr "413153"))))
           eq_refl))).
Defined.

(** ** After the copy to the clipboard *)

(** X14: when the copy to the clipboard has failed, [openSteamConsole]
    prints the command once more: with the note on the download when the
    console could not be opened either, and alone when it could.  The
    instructions for after the download end what it prints when the console
    was opened, and are not printed when it was not. *)
Theorem openSteamConsole_prints_command (cli : CLI.t) (steamCommand : string)
        (opened : JsVal) :
  let note :=
    "IMPORTANT: Wait for download to complete (no progress indicator). After completion, copy files from "
      ++ CLI.contentFolder cli ++ " to your game folder." in
  (truthy opened = true ->
   In (ConsoleLog (" " ++ (steamCommand ++ nl ++ nl ++ note) ++ " "))
      (CLI.openSteamConsole cli steamCommand false opened)) /\
  (truthy opened = false ->
   In (ConsoleLog (" " ++ steamCommand ++ " "))
      (CLI.openSteamConsole cli steamCommand false opened)) /\
  (forall clipboardSuccess,
     truthy opened = false ->
     exists before,
       CLI.openSteamConsole cli steamCommand clipboardSuccess opened
       = (before ++ CLI.displayPostDownloadInstructions cli)%list) /\
  (forall clipboardSuccess,
     truthy opened = true ->
     ~ In (ConsoleLog (nl ++ "IMPORTANT POST-DOWNLOAD INSTRUCTIONS:"))
          (CLI.openSteamConsole cli steamCommand clipboardSuccess opened)).
Proof.
  intros note. unfold CLI.openSteamConsole. fold note.
  split; [|split; [|split]].
  - intros Ho. rewrite Ho. simpl. tauto.
  - intros Ho. rewrite Ho. simpl. tauto.
  - intros clipboardSuccess Ho. rewrite Ho. destruct clipboardSuccess.
    + eexists (_ :: _ :: _ :: _ :: nil). reflexivity.
    + eexists (_ :: _ :: _ :: _ :: _ :: nil). reflexivity.
  - intros clipboardSuccess Ho. rewrite Ho.
    destruct clipboardSuccess; cbv [nl]; simpl; intros H;
      repeat match goal with
             | H : _ \/ _ |- _ => destruct H
             | H : False |- _ => destruct H
             | H : _ = _ |- _ => discriminate H
             end.
Qed.

Lemma openSteamConsole_prints_command_witness :
  In (ConsoleLog " download_depot 413150 413153 8881193748180768755 ")
     (CLI.openSteamConsole stardewChoice (CLI.steamCommand stardewChoice) false JNull).
Proof.
  apply (proj1 (proj2 (openSteamConsole_prints_command stardewChoice
                         (CLI.steamCommand stardewChoice) JNull))).
  reflexivity.
Defined.

(** ** A whole run *)

Lemma logOffs_app (t1 t2 : list Flow.Step) :
  logOffs (t1 ++ t2) = (logOffs t1 + logOffs t2)%nat.
Proof. unfold logOffs. rewrite filter_app, length_app. reflexivity. Qed.

Lemma logOffs_did (events : list Event) : logOffs (Flow.did events) = 0%nat.
Proof. induction events as [|e r IH]; [reflexivity|exact IH]. Qed.

Lemma counted_andThen {A B : Type} (n : nat) (s : Flow.Stage A) (k : A -> Flow.Stage B) :
  Counted 0 s -> (forall a, Counted n (k a)) -> Counted n (Flow.andThen s k).
Proof.
  destruct s as [trace [a|ending]]; unfold Counted; simpl; intros Hs Hk.
  - specialize (Hk a). destruct (k a) as [more [b|ending]]; simpl in *;
      rewrite logOffs_app, Hs, Hk; reflexivity.
  - exact Hs.
Qed.

Lemma counted_printed (events : list Event) : Counted 0 (Flow.printed events).
Proof. unfold Counted. simpl. apply logOffs_did. Qed.

Lemma counted_awaited {A : Type} (r : list Event * option (Res A)) :
  Counted 0 (Flow.awaited r).
Proof.
  destruct r as [events [[a|e]|]]; unfold Counted; simpl; apply logOffs_did.
Qed.

Lemma counted_asked {A : Type} (r : list Event * option A) : Counted 0 (Flow.asked r).
Proof. apply counted_awaited. Qed.

Lemma counted_login (loginError : option JsVal) : Counted 0 (Flow.login loginError).
Proof.
  destruct loginError as [err|]; simpl; [|reflexivity].
  destruct (getProp err "message"); reflexivity.
Qed.

Lemma counted_withDepot (formatSize : JsVal -> string) (toLocaleString : option Z -> string)
      (w : Flow.Run) (appid : JsVal) (depot : Depot.t) :
  Counted 0 (Flow.withDepot formatSize toLocaleString w appid depot).
Proof.
  unfold Flow.withDepot.
  apply counted_andThen; [apply counted_printed|]. intros _.
  apply counted_andThen; [apply counted_awaited|]. intros manifests.
  apply counted_andThen; [apply counted_asked|]. intros [manifest|]; [|reflexivity].
  destruct (CLI.displayManifestDetails _ _ _ _ _) as [cli events].
  unfold Counted. simpl. apply logOffs_did.
Qed.

Lemma counted_afterSearch (formatSize : JsVal -> string)
      (toLocaleString : option Z -> string) (w : Flow.Run)
      (games : list SteamSearch.App.t) :
  Counted 1 (Flow.afterSearch formatSize toLocaleString w games).
Proof.
  unfold Flow.afterSearch.
  apply counted_andThen; [apply counted_asked|]. intros selectedGame.
  apply counted_andThen; [apply counted_printed|]. intros _.
  apply counted_andThen; [apply counted_awaited|]. intros depots.
  apply counted_andThen; [apply counted_asked|]. intros selectedDepot.
  apply counted_andThen.
  { destruct selectedDepot as [depot|]; [apply counted_withDepot|reflexivity]. }
  intros cli. unfold Counted, Flow.andThen, Flow.logout, Flow.printed. cbn [fst snd].
  rewrite !logOffs_app, logOffs_did. reflexivity.
Qed.

Lemma counted_startBody (formatSize : JsVal -> string) (toLocaleString : option Z -> string)
      (w : Flow.Run) :
  Counted 1 (Flow.startBody formatSize toLocaleString w).
Proof.
  unfold Flow.startBody.
  apply counted_andThen; [apply counted_login|]. intros _.
  apply counted_andThen; [apply counted_awaited|]. intros searchTerm.
  apply counted_andThen.
  { destruct (SteamSearch.searchGames _ _) as [events r]. apply counted_awaited. }
  intros [|game games]; [reflexivity|apply counted_afterSearch].
Qed.

(** X15: a run logs off from Steam exactly once when [start] returns and
    when the process exits, after an error as after a search that found
    nothing; it has not logged off while it waits at a prompt, and does not
    log off when an error escapes. *)
Theorem start_logs_off_once (formatSize : JsVal -> string)
        (toLocaleString : option Z -> string) (w : Flow.Run) :
  logOffs (fst (Flow.start formatSize toLocaleString w))
  = logOffsDue (snd (Flow.start formatSize toLocaleString w)).
Proof.
  pose proof (counted_startBody formatSize toLocaleString w) as H.
  unfold Flow.start, Counted in *.
  destruct (Flow.startBody formatSize toLocaleString w) as [trace [cli|ending]];
    simpl in H.
  - cbn [fst snd]. rewrite logOffs_app, H.
    destruct (Flow.commandMade cli); [rewrite logOffs_did|]; reflexivity.
  - destruct ending as [| code | | error | error]; simpl in *; try exact H.
    destruct (getProp error "message") as [message|raised]; simpl.
    + rewrite logOffs_app, H. reflexivity.
    + exact H.
Qed.

Lemma andThen_inr {A B : Type} (s : Flow.Stage A) (k : A -> Flow.Stage B)
      (ending : Flow.Ending) :
  snd (Flow.andThen s k) = inr ending ->
  snd s = inr ending \/ exists a, snd s = inl a /\ snd (k a) = inr ending.
Proof.
  destruct s as [trace [a|e]]; simpl.
  - destruct (k a) as [more r] eqn:Ek. simpl. intros H. right. exists a.
    rewrite Ek. split; [reflexivity|exact H].
  - intros H. left. injection H as <-. reflexivity.
Qed.

Lemma awaited_inr {A : Type} (r : list Event * option (Res A)) (ending : Flow.Ending) :
  snd (Flow.awaited r) = inr ending ->
  (ending = Flow.Waiting /\ snd r = None) \/
  (exists e, ending = Flow.Threw e /\ snd r = Some (Throw e)).
Proof.
  destruct r as [events [[a|e]|]]; simpl; intros H; try discriminate;
    injection H as <-.
  - right. exists e. split; reflexivity.
  - left. split; reflexivity.
Qed.

Lemma awaited_inl {A : Type} (r : list Event * option (Res A)) (a : A) :
  snd (Flow.awaited r) = inl a -> snd r = Some (Ok a).
Proof.
  destruct r as [events [[a'|e]|]]; simpl; intros H; try discriminate.
  injection H as <-. reflexivity.
Qed.

Lemma login_inr (loginError : option JsVal) (ending : Flow.Ending) :
  snd (Flow.login loginError) = inr ending ->
  exists err, loginError = Some err /\
              (ending = Flow.Threw err /\ isNullish err = false \/
               exists raised, ending = Flow.Crashed raised /\ isNullish err = true).
Proof.
  destruct loginError as [err|]; simpl; [|discriminate].
  destruct (getProp err "message") as [message|raised] eqn:E; simpl; intros H;
    injection H as <-; exists err; split; try reflexivity.
  - left. split; [reflexivity|]. destruct err; try reflexivity; discriminate E.
  - right. exists raised. split; [reflexivity|].
    destruct err; try reflexivity; discriminate E.
Qed.

Lemma endsIn_andThen {A B : Type} (P : Flow.Ending -> Prop) (s : Flow.Stage A)
      (k : A -> Flow.Stage B) :
  EndsIn P s -> (forall a, EndsIn P (k a)) -> EndsIn P (Flow.andThen s k).
Proof.
  intros Hs Hk ending H. apply andThen_inr in H as [H|(a & _ & H)].
  - apply (Hs _ H).
  - apply (Hk a _ H).
Qed.

Lemma endsIn_printed (P : Flow.Ending -> Prop) (events : list Event) :
  EndsIn P (Flow.printed events).
Proof. intros ending H. discriminate H. Qed.

Lemma endsIn_awaited {A : Type} (P : Flow.Ending -> Prop)
      (r : list Event * option (Res A)) :
  P Flow.Waiting -> (forall e, snd r = Some (Throw e) -> P (Flow.Threw e)) ->
  EndsIn P (Flow.awaited r).
Proof.
  intros Hw Ht ending H. apply awaited_inr in H as [[-> _]|(e & -> & He)].
  - exact Hw.
  - apply (Ht e He).
Qed.

Lemma endsIn_asked {A : Type} (P : Flow.Ending -> Prop) (r : list Event * option A) :
  P Flow.Waiting -> EndsIn P (Flow.asked r).
Proof.
  intros Hw. apply endsIn_awaited; [exact Hw|].
  intros e H. simpl in H. destruct (snd r); discriminate H.
Qed.

(** After the fetches a run can only wait at a menu. *)
Lemma endsIn_withDepot (formatSize : JsVal -> string) (toLocaleString : option Z -> string)
      (w : Flow.Run) (appid : JsVal) (depot : Depot.t) :
  EndsIn (fun ending => ending = Flow.Waiting)
         (Flow.withDepot formatSize toLocaleString w appid depot).
Proof.
  unfold Flow.withDepot.
  apply endsIn_andThen; [apply endsIn_printed|]. intros _.
  apply endsIn_andThen.
  { apply endsIn_awaited; [reflexivity|]. intros e H. simpl in H.
    destruct (getDepotManifestsBody (Flow.clock w) appid (Depot.id depot)
                (Flow.manifestFetch w)) as [out|e'] eqn:E.
    - unfold getDepotManifests in H. rewrite E in H. discriminate H.
    - rewrite (getDepotManifests_caught _ _ _ _ _ E) in H. discriminate H. }
  intros manifests.
  apply endsIn_andThen; [apply endsIn_asked; reflexivity|].
  intros [manifest|]; [|intros ending H; discriminate H].
  destruct (CLI.displayManifestDetails _ _ _ _ _) as [cli events].
  intros ending H. discriminate H.
Qed.

(** After the search has found games a run can only wait at a menu. *)
Lemma endsIn_afterSearch (formatSize : JsVal -> string) (toLocaleString : option Z -> string)
      (w : Flow.Run) (games : list SteamSearch.App.t) :
  EndsIn (fun ending => ending = Flow.Waiting)
         (Flow.afterSearch formatSize toLocaleString w games).
Proof.
  unfold Flow.afterSearch.
  apply endsIn_andThen; [apply endsIn_asked; reflexivity|]. intros selectedGame.
  apply endsIn_andThen; [apply endsIn_printed|]. intros _.
  apply endsIn_andThen.
  { apply endsIn_awaited; [reflexivity|]. intros e H. simpl in H.
    destruct (getGameDepots_returns (SteamSearch.App.appid selectedGame)
                (Flow.depotFetch w)) as (depots & Hd).
    rewrite Hd in H. discriminate H. }
  intros depots.
  apply endsIn_andThen; [apply endsIn_asked; reflexivity|]. intros selectedDepot.
  apply endsIn_andThen.
  { destruct selectedDepot as [depot|]; [apply endsIn_withDepot|].
    intros ending H. discriminate H. }
  intros cli ending H. discriminate H.
Qed.

Lemma andThen_snd {A B : Type} (s : Flow.Stage A) (k : A -> Flow.Stage B) :
  snd (Flow.andThen s k) =
  match snd s with
  | inl a => snd (k a)
  | inr ending => inr ending
  end.
Proof.
  destruct s as [trace [a|ending]]; simpl; [|reflexivity].
  destruct (k a); reflexivity.
Qed.

(** How the [try] block of [start] ends. *)
Lemma startBody_snd (formatSize : JsVal -> string) (toLocaleString : option Z -> string)
      (w : Flow.Run) :
  snd (Flow.startBody formatSize toLocaleString w) =
  match Flow.loginError w with
  | Some err =>
      match getProp err "message" with
      | Ok _ => inr (Flow.Threw err)
      | Throw raised => inr (Flow.Crashed raised)
      end
  | None =>
      match snd (CLI.getSearchTerm (Flow.tasklist w) (Flow.typed w)) with
      | None => inr Flow.Waiting
      | Some (Throw e) => inr (Flow.Threw e)
      | Some (Ok searchTerm) =>
          match snd (SteamSearch.searchGames (Flow.store w) searchTerm) with
          | Throw e => inr (Flow.Threw e)
          | Ok [] => inr (Flow.Exited 0)
          | Ok (game :: games) =>
              snd (Flow.afterSearch formatSize toLocaleString w (game :: games))
          end
      end
  end.
Proof.
  unfold Flow.startBody. rewrite andThen_snd.
  destruct (Flow.loginError w) as [err|]; simpl.
  { destruct (getProp err "message"); reflexivity. }
  rewrite andThen_snd.
  destruct (CLI.getSearchTerm (Flow.tasklist w) (Flow.typed w)) as [asked [[searchTerm|e]|]];
    simpl; try reflexivity.
  rewrite andThen_snd.
  destruct (SteamSearch.searchGames (Flow.store w) searchTerm) as [searched [games|e]];
    simpl; [|reflexivity].
  destruct games; reflexivity.
Qed.

Lemma afterSearch_snd (formatSize : JsVal -> string) (toLocaleString : option Z -> string)
      (w : Flow.Run) (games : list SteamSearch.App.t) :
  (exists cli, snd (Flow.afterSearch formatSize toLocaleString w games) = inl cli) \/
  snd (Flow.afterSearch formatSize toLocaleString w games) = inr Flow.Waiting.
Proof.
  pose proof (endsIn_afterSearch formatSize toLocaleString w games) as H.
  unfold EndsIn in H.
  destruct (snd (Flow.afterSearch formatSize toLocaleString w games)) as [cli|ending].
  - left. exists cli. reflexivity.
  - right. rewrite (H ending eq_refl). reflexivity.
Qed.

Lemma start_ending (formatSize : JsVal -> string) (toLocaleString : option Z -> string)
      (w : Flow.Run) :
  snd (Flow.start formatSize toLocaleString w) =
  match snd (Flow.startBody formatSize toLocaleString w) with
  | inl _ => Flow.Completed
  | inr (Flow.Threw error) =>
      match getProp error "message" with
      | Ok _ => Flow.Exited 1
      | Throw raised => Flow.Threw raised
      end
  | inr ending => ending
  end.
Proof.
  unfold Flow.start.
  destruct (Flow.startBody formatSize toLocaleString w) as [trace [cli|ending]];
    [reflexivity|].
  destruct ending; try reflexivity.
  simpl. destruct (getProp error "message"); reflexivity.
Qed.

(** X16: [start] ends the run itself with [process.exit(0)] exactly when
    the login succeeded, the prompt gave a search term and the search for it
    found nothing.  (A run that goes through ends otherwise: [start]
    returns.) *)
Theorem start_calls_exit_0 (formatSize : JsVal -> string) (toLocaleString : option Z -> string)
        (w : Flow.Run) :
  snd (Flow.start formatSize toLocaleString w) = Flow.Exited 0 <->
  Flow.loginError w = None /\
  exists searchTerm,
    snd (CLI.getSearchTerm (Flow.tasklist w) (Flow.typed w)) = Some (Ok searchTerm) /\
    snd (SteamSearch.searchGames (Flow.store w) searchTerm) = Ok [].
Proof.
  rewrite start_ending, startBody_snd.
  destruct (Flow.loginError w) as [err|].
  { split.
    - destruct (getProp err "message") as [m|raised] eqn:E; [rewrite E|]; discriminate.
    - intros [H _]. discriminate H. }
  destruct (snd (CLI.getSearchTerm (Flow.tasklist w) (Flow.typed w)))
    as [[searchTerm|e]|].
  - destruct (snd (SteamSearch.searchGames (Flow.store w) searchTerm))
      as [[|game games]|e] eqn:Es.
    + split; [|reflexivity]. intros _. split; [reflexivity|].
      exists searchTerm. split; [reflexivity|exact Es].
    + split.
      * destruct (afterSearch_snd formatSize toLocaleString w (game :: games))
          as [(cli & ->)| ->]; discriminate.
      * intros (_ & t & Ht & Hs). injection Ht as <-. rewrite Es in Hs. discriminate Hs.
    + split.
      * destruct (getProp e "message"); discriminate.
      * intros (_ & t & Ht & Hs). injection Ht as <-. rewrite Es in Hs. discriminate Hs.
  - split.
    + destruct (getProp e "message"); discriminate.
    + intros (_ & t & Ht & _). discriminate Ht.
  - split; [discriminate|]. intros (_ & t & Ht & _). discriminate Ht.
Qed.

Lemma start_calls_exit_0_witness :
  snd (Flow.start (fun _ => "627 MB") (fun _ => "3/19/2022, 10:05:32 AM") nothingFound)
  = Flow.Exited 0.
Proof.
  apply (proj2 (start_calls_exit_0 (fun _ => "627 MB") (fun _ => "3/19/2022, 10:05:32 AM")
                  nothingFound)).
  split; [reflexivity|]. exists "Stardew Valey". split; reflexivity.
Defined.

Lemma getSearchTerm_throws (tasklist : CLI.ExecResult) (typed : list string) (e : JsVal) :
  snd (CLI.getSearchTerm tasklist typed) = Some (Throw e) -> e = CLI.SteamNotRunning.
Proof.
  unfold CLI.getSearchTerm.
  destruct (CLI.checkSteamRunning tasklist) as [checked running].
  destruct running; simpl.
  - destruct (CLI.prompt CLI.validate typed) as [shown [answer|]]; simpl; discriminate.
  - intros H. injection H as <-. reflexivity.
Qed.

Lemma searchGames_throws_object (store : SteamSearch.Store) (searchTerm : string)
      (e : JsVal) :
  (forall error, store searchTerm = SteamSearch.HttpFail error -> isNullish error = false) ->
  snd (SteamSearch.searchGames store searchTerm) = Throw e -> isNullish e = false.
Proof.
  intros Hstore. unfold SteamSearch.searchGames.
  destruct (store searchTerm) as [error|response] eqn:Es.
  - specialize (Hstore error eq_refl).
    rewrite (getProp_defined _ _ Hstore). simpl. intros H. injection H as <-.
    exact Hstore.
  - pose proof (thrown_readResponse response) as Ht.
    destruct (SteamSearch.readResponse response) as [[printed apps]|error].
    + simpl. discriminate.
    + simpl in Ht. rewrite (getProp_defined _ _ Ht). simpl. intros H.
      injection H as <-. exact Ht.
Qed.

(** X17: when the errors of the login and of the store are objects, a run
    waits at a prompt, or ends in one of three ways: [start] returns, the
    process exits with code 0, or it exits with code 1; it exits with code 1
    exactly after a login that failed, when Steam is not running, or after a
    search that failed.  No error escapes [start] and no callback throws. *)
Theorem start_endings (formatSize : JsVal -> string) (toLocaleString : option Z -> string)
        (w : Flow.Run) :
  (forall err, Flow.loginError w = Some err -> isNullish err = false) ->
  (forall searchTerm error,
     Flow.store w searchTerm = SteamSearch.HttpFail error -> isNullish error = false) ->
  let ending := snd (Flow.start formatSize toLocaleString w) in
  (ending = Flow.Completed \/ ending = Flow.Waiting \/ ending = Flow.Exited 0
   \/ ending = Flow.Exited 1) /\
  (ending = Flow.Exited 1 <->
   Flow.loginError w <> None \/
   (Flow.loginError w = None /\
    (snd (CLI.getSearchTerm (Flow.tasklist w) (Flow.typed w))
     = Some (Throw CLI.SteamNotRunning) \/
     exists searchTerm e,
       snd (CLI.getSearchTerm (Flow.tasklist w) (Flow.typed w)) = Some (Ok searchTerm) /\
       snd (SteamSearch.searchGames (Flow.store w) searchTerm) = Throw e))).
Proof.
  intros Hlogin Hstore ending. subst ending. rewrite start_ending, startBody_snd.
  destruct (Flow.loginError w) as [err|].
  { rewrite (getProp_defined _ _ (Hlogin err eq_refl)).
    rewrite (getProp_defined _ _ (Hlogin err eq_refl)).
    split; [tauto|]. split; [intros _; left; discriminate|reflexivity]. }
  destruct (snd (CLI.getSearchTerm (Flow.tasklist w) (Flow.typed w)))
    as [[searchTerm|e]|] eqn:Et.
  - destruct (snd (SteamSearch.searchGames (Flow.store w) searchTerm))
      as [[|game games]|e] eqn:Es.
    + split; [tauto|]. split; [discriminate|].
      intros [H|(_ & [H|(t & e & Ht & Hs)])]; congruence.
    + destruct (afterSearch_snd formatSize toLocaleString w (game :: games))
        as [(cli & ->)| ->].
      * split; [tauto|]. split; [discriminate|].
        intros [H|(_ & [H|(t & e & Ht & Hs)])]; congruence.
      * split; [tauto|]. split; [discriminate|].
        intros [H|(_ & [H|(t & e & Ht & Hs)])]; congruence.
    + rewrite (getProp_defined _ _
                 (searchGames_throws_object _ _ _ (Hstore searchTerm) Es)).
      split; [tauto|]. split; [|reflexivity].
      intros _. right. split; [reflexivity|]. right.
      exists searchTerm, e. split; [reflexivity|exact Es].
  - pose proof (getSearchTerm_throws _ _ _ Et) as ->.
    split; [simpl; tauto|]. split; [|reflexivity].
    intros _. right. split; [reflexivity|]. left. reflexivity.
  - split; [tauto|]. split; [discriminate|].
    intros [H|(_ & [H|(t & e & Ht & Hs)])]; congruence.
Qed.

Lemma start_endings_witness :
  snd (Flow.start (fun _ => "627 MB") (fun _ => "3/19/2022, 10:05:32 AM") steamClosed)
  = Flow.Exited 1.
Proof.
  apply (proj2 (proj2 (start_endings (fun _ => "627 MB")
                         (fun _ => "3/19/2022, 10:05:32 AM") steamClosed
                         ltac:(intros err H; discriminate H)
                         ltac:(intros t error H; discriminate H)))).
  right. split; [reflexivity|]. left. reflexivity.
Defined.

Lemma getGameDepots_empty_iff_witness :
  getGameDepots (JNum 413150) (Resolved noAppinfo) = Ok [].
Proof.
  apply (proj2 (getGameDepots_empty_iff (JNum 413150) (Resolved noAppinfo))).
  split; reflexivity.
Defined.

Lemma getGameDepots_labels_witness :
  Forall (fun d => truthy (Depot.name d) = true /\ truthy (Depot.osType d) = true)
         (depotsOrNone (getGameDepots (JNum 413150) (Resolved (stardew stardewDepots)))).
Proof.
  apply Forall_forall.
  apply (getGameDepots_labels (JNum 413150) (Resolved (stardew stardewDepots))
           (depotsOrNone (getGameDepots (JNum 413150) (Resolved (stardew stardewDepots))))).
  reflexivity.
Defined.

(** ** The manifest map of a depot *)

(** X18: when the depot has a manifest map and the loop over it completes,
    it has produced one historical manifest for each entry of the map, in
    order, with the key of the entry as its id, the build id and the date of
    the entry, or "Unknown" and [null] where the entry has none, and the
    branch "Unknown". *)
Theorem directManifests_entries (depotData depotId : JsVal) (direct : list Manifest.t) :
  directManifests depotData depotId = Ok direct ->
  truthy (manifestMap depotData depotId) = true ->
  map (fun m => (Manifest.manifestId m, Manifest.buildId m, Manifest.timeupdated m,
                 Manifest.branch m, Manifest.isHistorical m)) direct =
  map (fun entry => (JStr (fst entry),
                     jsOr (getPropOpt (snd entry) "buildid") (JStr "Unknown"),
                     jsOr (getPropOpt (snd entry) "date") JNull,
                     JStr "Unknown", true))
      (entries (manifestMap depotData depotId)).
Proof.
  unfold directManifests, manifestMap. intros H Hm.
  destruct (getProp depotData (toStr depotId)) as [depot|] eqn:Ed; simpl in H;
    [|discriminate].
  assert (Hn : isNullish depotData = false).
  { destruct depotData; try reflexivity; discriminate Ed. }
  rewrite (getProp_defined _ _ Hn) in Ed. injection Ed as <-.
  destruct (truthy (getPropOpt depotData (toStr depotId))) eqn:Ht.
  - rewrite (getProp_truthy _ _ Ht) in H. simpl in H. rewrite Hm in H.
    revert direct H.
    generalize (entries (getPropOpt (getPropOpt depotData (toStr depotId)) "manifests")).
    intros l. induction l as [|[k details] r IH]; intros direct H; simpl in H.
    + injection H as <-. reflexivity.
    + destruct (getProp details "buildid") as [buildid|] eqn:Eb; simpl in H;
        [|discriminate].
      assert (Hd : isNullish details = false).
      { destruct details; try reflexivity; discriminate Eb. }
      rewrite (getProp_defined _ _ Hd) in Eb. injection Eb as <-.
      rewrite !(getProp_defined _ _ Hd) in H. simpl in H.
      destruct (forEachM _ r) as [rest|] eqn:Er; simpl in H; [|discriminate].
      injection H as <-. simpl. f_equal. apply IH. reflexivity.
  - rewrite (getPropOpt_falsy _ "manifests" Ht) in Hm. discriminate Hm.
Qed.

Lemma directManifests_entries_witness :
  map Manifest.manifestId
      (manifestsOrNone (directManifests depotWithManifests (JStr "413153")))
  = [JStr "public"].
Proof.
  pose proof (directManifests_entries depotWithManifests (JStr "413153")
                (manifestsOrNone (directManifests depotWithManifests (JStr "413153")))
                eq_refl eq_refl) as H.
  apply (f_equal (map (fun t => fst (fst (fst (fst t)))))) in H.
  rewrite !map_map in H. exact H.
Defined.

(** ** Before the prompt *)

(** X19: [getSearchTerm] asks for the term only when Steam is running, that
    is when [tasklist] ran and its output names steam.exe, in upper or lower
    case.  Otherwise it throws "Steam must be running to use this tool."
    without asking, whatever the user would type.  When Steam is running it
    rejects the blank lines and resolves with the first line that is not
    blank. *)
Theorem getSearchTerm_gate (tasklist : CLI.ExecResult) (typed : list string) :
  let running :=
    truthy (CLI.error tasklist) = false /\
    Substring "steam.exe" (Str.toLowerCase (CLI.stdout tasklist)) in
  (~ running ->
   CLI.getSearchTerm tasklist typed
   = (fst (CLI.checkSteamRunning tasklist), Some (Throw CLI.SteamNotRunning)) /\
   snd (CLI.checkSteamRunning tasklist) = false) /\
  (running ->
   CLI.getSearchTerm tasklist typed
   = ((Exec CLI.tasklistCommand
         :: map (fun input => PromptRejected input pleaseEnter) (blankPrefix typed))%list,
      option_map Ok (firstNonBlank typed))).
Proof.
  intros running. subst running. unfold CLI.getSearchTerm, CLI.checkSteamRunning.
  pose proof (includes_Substring (Str.toLowerCase (CLI.stdout tasklist)) "steam.exe") as Hs.
  destruct (truthy (CLI.error tasklist)).
  - split.
    + intros _. split; reflexivity.
    + intros [H _]. discriminate H.
  - destruct (Str.includes (Str.toLowerCase (CLI.stdout tasklist)) "steam.exe").
    + split.
      * intros Hn. exfalso. apply Hn. split; [reflexivity|]. apply Hs. reflexivity.
      * intros _. simpl. rewrite prompt_validate. reflexivity.
    + split.
      * intros _. split; reflexivity.
      * intros [_ H]. apply Hs in H. discriminate H.
Qed.

Lemma getSearchTerm_gate_witness :
  CLI.getSearchTerm steamIsRunning [" "; "Stardew Valley"; "Hades"]
  = ([ Exec CLI.tasklistCommand; PromptRejected " " pleaseEnter ],
     Some (Ok "Stardew Valley")).
Proof.
  apply (proj2 (getSearchTerm_gate steamIsRunning [" "; "Stardew Valley"; "Hades"])).
  split; [reflexivity|].
  exists "", "                     4242 console                    1    212,104 k".
  reflexivity.
Defined.

(** ** The commands a run executes *)

Lemma eventsOf_did (events : list Event) : eventsOf (Flow.did events) = events.
Proof.
  induction events as [|e r IH]; [reflexivity|]. simpl. f_equal. exact IH.
Qed.

Lemma executed_app (a b : list Flow.Step) :
  executed (a ++ b) = (executed a ++ executed b)%list.
Proof. unfold executed, eventsOf. rewrite flat_map_app, filter_app. reflexivity. Qed.

Lemma executed_did (events : list Event) :
  executed (Flow.did events) = filter isExec events.
Proof. unfold executed. rewrite eventsOf_did. reflexivity. Qed.

Lemma quiet_andThen {A B : Type} (s : Flow.Stage A) (k : A -> Flow.Stage B) :
  Quiet s -> (forall a, Quiet (k a)) -> Quiet (Flow.andThen s k).
Proof.
  destruct s as [trace [a|ending]]; unfold Quiet; simpl; intros Hs Hk.
  - specialize (Hk a). destruct (k a) as [more r]. simpl in *.
    rewrite executed_app, Hs, Hk. reflexivity.
  - exact Hs.
Qed.

Lemma copies_andThen {A : Type} (s : Flow.Stage A) (k : A -> Flow.Stage CLI.t) :
  Quiet s -> (forall a, Copies (k a)) -> Copies (Flow.andThen s k).
Proof.
  destruct s as [trace [a|ending]]; unfold Quiet, Copies; simpl; intros Hs Hk.
  - specialize (Hk a). destruct (k a) as [more r]. simpl in *.
    rewrite executed_app, Hs, Hk. reflexivity.
  - exact Hs.
Qed.

Lemma quiet_awaited {A : Type} (r : list Event * option (Res A)) :
  filter isExec (fst r) = [] -> Quiet (Flow.awaited r).
Proof.
  destruct r as [events [[a|e]|]]; unfold Quiet; simpl; intros H;
    rewrite executed_did; exact H.
Qed.

Lemma quiet_printed (events : list Event) :
  filter isExec events = [] -> Quiet (Flow.printed events).
Proof. unfold Quiet. simpl. intros H. rewrite executed_did. exact H. Qed.

Lemma displayDepotDetails_no_exec (formatSize : JsVal -> string) (depot : option Depot.t) :
  filter isExec (CLI.displayDepotDetails formatSize depot) = [].
Proof.
  destruct depot as [depot|]; [|reflexivity]. unfold CLI.displayDepotDetails.
  rewrite !filter_app.
  destruct (truthy (Depot.maxSize depot)), (truthy (Depot.encryptedSize depot)),
    (truthy (Depot.language depot)), (truthy (Depot.dlcAppId depot)),
    (CLI.depotFlags depot); reflexivity.
Qed.

Lemma selectManifest_no_exec (toLocaleString : option Z -> string) (clock : nat -> Z)
      (manifests : list Manifest.t) (pick : nat) :
  filter isExec (fst (CLI.selectManifest toLocaleString clock manifests pick)) = [].
Proof. destruct manifests; reflexivity. Qed.

Lemma selectDepot_no_exec (depots : list Depot.t) (pick : nat) :
  filter isExec (fst (CLI.selectDepot depots pick)) = [].
Proof. destruct depots; reflexivity. Qed.

Lemma readResponse_no_exec (response : JsVal) (printed : list Event)
      (apps : list SteamSearch.App.t) :
  SteamSearch.readResponse response = Ok (printed, apps) -> filter isExec printed = [].
Proof.
  unfold SteamSearch.readResponse.
  destruct (getProp response "data") as [data|]; simpl; [|discriminate].
  destruct (truthy data); simpl; [|intros H; injection H as <- _; reflexivity].
  destruct (getProp data "items") as [items|]; simpl; [|discriminate].
  destruct (truthy items); simpl; [|intros H; injection H as <- _; reflexivity].
  destruct (getProp items "length") as [len|]; simpl; [|discriminate].
  assert (Hmap : (apps' <- SteamSearch.arrayMap SteamSearch.appOf items ;;
                  Ok ([], apps')) = Ok (printed, apps) -> filter isExec printed = []).
  { destruct (SteamSearch.arrayMap SteamSearch.appOf items); simpl; [|discriminate].
    intros H; injection H as <- _; reflexivity. }
  destruct len as [| |b|n|str|elems|fields]; try exact Hmap.
  destruct n; try exact Hmap. intros H; injection H as <- _; reflexivity.
Qed.

Lemma searchGames_no_exec (store : SteamSearch.Store) (searchTerm : string) :
  filter isExec (fst (SteamSearch.searchGames store searchTerm)) = [].
Proof.
  unfold SteamSearch.searchGames.
  assert (Hthrow : forall error : JsVal,
             filter isExec
               (fst (match getProp error "message" with
                     | Ok message =>
                         (([ ConsoleLog ("Searching for games matching: " ++ searchTerm);
                             HttpGet SteamSearch.apiUrl
                               [("term", searchTerm); ("l", "english"); ("cc", "US")]
                               SteamSearch.headers ]
                             ++ [ConsoleError [JStr "Error searching Steam:"; message]])%list,
                          @Throw (list SteamSearch.App.t) error)
                     | Throw raised =>
                         ([ ConsoleLog ("Searching for games matching: " ++ searchTerm);
                            HttpGet SteamSearch.apiUrl
                              [("term", searchTerm); ("l", "english"); ("cc", "US")]
                              SteamSearch.headers ],
                          Throw raised)
                     end)) = []).
  { intros error. destruct (getProp error "message"); reflexivity. }
  destruct (store searchTerm) as [error|response]; [apply Hthrow|].
  destruct (SteamSearch.readResponse response) as [[printed apps]|error] eqn:E;
    [|apply Hthrow].
  cbn [fst]. rewrite filter_app. apply (readResponse_no_exec _ _ _ E).
Qed.

(** [getSearchTerm] executes [tasklist], once, whatever follows. *)
Lemma getSearchTerm_executed (tasklist : CLI.ExecResult) (typed : list string) :
  filter isExec (fst (CLI.getSearchTerm tasklist typed)) = [Exec CLI.tasklistCommand].
Proof.
  unfold CLI.getSearchTerm, CLI.checkSteamRunning.
  destruct (truthy (CLI.error tasklist)); [reflexivity|].
  destruct (Str.includes (Str.toLowerCase (CLI.stdout tasklist)) "steam.exe");
    [|reflexivity].
  cbn [fst snd]. rewrite prompt_validate. cbn [fst app filter isExec]. f_equal.
  induction (blankPrefix typed) as [|input r IH]; [reflexivity|exact IH].
Qed.

Lemma displayManifestDetails_executed (toLocaleString : option Z -> string) (cli : CLI.t)
      (manifest : Manifest.t) (appId depotId : JsVal) :
  filter isExec
    (snd (CLI.displayManifestDetails toLocaleString cli (Some manifest) appId depotId))
  = clipboard (fst (CLI.displayManifestDetails toLocaleString cli (Some manifest)
                      appId depotId)).
Proof.
  destruct (details_no_exec toLocaleString cli manifest appId depotId)
    as (details & -> & Hno).
  rewrite filter_app, Hno.
  cbn [CLI.displayManifestDetails fst app].
  unfold CLI.generateSteamCommand, clipboard, Flow.commandMade.
  cbn [CLI.currentAppId CLI.currentDepotId CLI.currentManifestId].
  destruct (truthy appId), (truthy depotId), (truthy (Manifest.manifestId manifest));
    reflexivity.
Qed.

Lemma displayCompletion_no_exec (cli : CLI.t) :
  filter isExec (CLI.displayCompletion cli) = [].
Proof.
  unfold CLI.displayCompletion.
  destruct (truthy (CLI.currentAppId cli) && truthy (CLI.currentDepotId cli)
            && truthy (CLI.currentManifestId cli)); reflexivity.
Qed.

Lemma afterClipboard_executed (cli : CLI.t) (copied opened : JsVal) :
  filter isExec (CLI.afterClipboard cli copied opened)
  = [Exec "start steam://open/console"].
Proof.
  unfold CLI.afterClipboard, CLI.openSteamConsole.
  destruct (truthy opened), (truthy copied); reflexivity.
Qed.

Lemma copies_withDepot (formatSize : JsVal -> string) (toLocaleString : option Z -> string)
      (w : Flow.Run) (appid : JsVal) (depot : Depot.t) :
  Copies (Flow.withDepot formatSize toLocaleString w appid depot).
Proof.
  unfold Flow.withDepot.
  apply copies_andThen; [apply quiet_printed, displayDepotDetails_no_exec|]. intros _.
  apply copies_andThen; [apply quiet_awaited; reflexivity|]. intros manifests.
  apply copies_andThen.
  { apply quiet_awaited. apply selectManifest_no_exec. }
  intros [manifest|]; [|reflexivity].
  pose proof (displayManifestDetails_executed toLocaleString CLI.new manifest appid
                (Depot.id depot)) as H.
  destruct (CLI.displayManifestDetails _ _ _ _ _) as [cli events].
  unfold Copies. cbn [fst snd] in *. rewrite executed_did. exact H.
Qed.

Lemma copies_afterSearch (formatSize : JsVal -> string)
      (toLocaleString : option Z -> string) (w : Flow.Run)
      (games : list SteamSearch.App.t) :
  Copies (Flow.afterSearch formatSize toLocaleString w games).
Proof.
  unfold Flow.afterSearch.
  apply copies_andThen; [apply quiet_awaited; reflexivity|]. intros selectedGame.
  apply copies_andThen; [apply quiet_printed; reflexivity|]. intros _.
  apply copies_andThen; [apply quiet_awaited; reflexivity|]. intros depots.
  apply copies_andThen; [apply quiet_awaited, selectDepot_no_exec|].
  intros selectedDepot.
  assert (H : Copies (match selectedDepot with
                      | Some depot =>
                          Flow.withDepot formatSize toLocaleString w
                            (SteamSearch.App.appid selectedGame) depot
                      | None => ([], inl CLI.new)
                      end)).
  { destruct selectedDepot as [depot|]; [apply copies_withDepot|reflexivity]. }
  revert H.
  generalize (match selectedDepot with
              | Some depot =>
                  Flow.withDepot formatSize toLocaleString w
                    (SteamSearch.App.appid selectedGame) depot
              | None => ([], inl CLI.new)
              end).
  intros [trace [cli|ending]]; unfold Copies; cbn [fst snd]; intros H.
  - unfold Flow.andThen, Flow.logout, Flow.printed. cbn [fst snd].
    rewrite !executed_app, H, executed_did, displayCompletion_no_exec.
    cbn. rewrite !app_nil_r. reflexivity.
  - exact H.
Qed.

(** What the [try] block of [start] executes. *)
Lemma startBody_executed (formatSize : JsVal -> string) (toLocaleString : option Z -> string)
      (w : Flow.Run) :
  executed (fst (Flow.startBody formatSize toLocaleString w)) =
  match Flow.loginError w with
  | Some _ => []
  | None =>
      Exec CLI.tasklistCommand
        :: match snd (Flow.startBody formatSize toLocaleString w) with
           | inl cli => clipboard cli
           | inr _ => []
           end
  end.
Proof.
  unfold Flow.startBody.
  destruct (Flow.loginError w) as [err|]; cbn [Flow.login].
  { destruct (getProp err "message"); reflexivity. }
  pose proof (getSearchTerm_executed (Flow.tasklist w) (Flow.typed w)) as Hterm.
  destruct (CLI.getSearchTerm (Flow.tasklist w) (Flow.typed w))
    as [asked [[searchTerm|e]|]]; cbn [fst] in Hterm;
    try (cbn [Flow.printed Flow.andThen Flow.awaited fst snd];
         rewrite ?executed_app, !executed_did, Hterm; reflexivity).
  cbn [Flow.printed Flow.andThen Flow.awaited fst snd].
  match goal with
  | |- context [Flow.andThen ?s ?k] =>
      assert (H : Copies (Flow.andThen s k)); [|revert H; generalize (Flow.andThen s k)]
  end.
  { apply copies_andThen.
    - pose proof (searchGames_no_exec (Flow.store w) searchTerm) as Hs.
      destruct (SteamSearch.searchGames (Flow.store w) searchTerm) as [events r].
      apply quiet_awaited. exact Hs.
    - intros [|game games]; [reflexivity|apply copies_afterSearch]. }
  intros [more r]. unfold Copies. cbn [fst snd]. intros H.
  cbn [Flow.printed Flow.andThen Flow.awaited fst snd].
  rewrite !executed_app, !executed_did, Hterm, H. reflexivity.
Qed.

(** X20: the commands a run executes.  A run in which the login fails
    executes nothing.  Every other run executes [tasklist] first, and either
    nothing else, or the copy of the command to the clipboard and then the
    opening of the Steam console, once each; it does the latter only when
    [start] has returned with a handler that holds the three ids, and then
    whether the copy succeeded or not. *)
Theorem start_executes (formatSize : JsVal -> string) (toLocaleString : option Z -> string)
        (w : Flow.Run) :
  let trace := fst (Flow.start formatSize toLocaleString w) in
  (Flow.loginError w <> None -> executed trace = []) /\
  (Flow.loginError w = None ->
   executed trace = [Exec CLI.tasklistCommand] \/
   exists cli,
     snd (Flow.start formatSize toLocaleString w) = Flow.Completed /\
     Flow.commandMade cli = true /\
     executed trace = [ Exec CLI.tasklistCommand;
                        Exec (clipboardCommand cli);
                        Exec "start steam://open/console" ]).
Proof.
  intros trace. subst trace.
  pose proof (startBody_executed formatSize toLocaleString w) as H.
  pose proof (startBody_snd formatSize toLocaleString w) as Hs.
  unfold Flow.start.
  destruct (Flow.startBody formatSize toLocaleString w) as [trace [cli|ending]];
    cbn [fst snd] in H, Hs.
  - cbn [fst snd]. rewrite executed_app, H. unfold clipboard.
    destruct (Flow.loginError w) as [err|].
    + exfalso. destruct (getProp err "message"); discriminate Hs.
    + split; [intros Hn; exfalso; apply Hn; reflexivity|]. intros _.
      destruct (Flow.commandMade cli) eqn:Ec.
      * right. exists cli. split; [reflexivity|]. split; [exact Ec|].
        rewrite executed_did, afterClipboard_executed. reflexivity.
      * left. reflexivity.
  - assert (Hend : executed
                     (fst (match ending with
                           | Flow.Threw error =>
                               match getProp error "message" with
                               | Ok message =>
                                   ((trace ++ Flow.Did (ConsoleError [JStr "Error:"; message])
                                       :: Flow.LogOff
                                       :: Flow.Did (ConsoleLog "Logged out of Steam.") :: [])%list,
                                    Flow.Exited 1)
                               | Throw raised => (trace, Flow.Threw raised)
                               end
                           | _ => (trace, ending)
                           end)) = executed trace).
    { destruct ending as [| code | | error | error]; try reflexivity.
      destruct (getProp error "message"); [|reflexivity].
      cbn [fst]. rewrite executed_app. cbn. apply app_nil_r. }
    rewrite Hend, H.
    destruct (Flow.loginError w) as [err|].
    + split; [reflexivity|discriminate].
    + split; [intros Hn; exfalso; apply Hn; reflexivity|]. intros _. left. reflexivity.
Qed.

Lemma start_executes_witness :
  executed (fst (Flow.start (fun _ => "1.2 GB") (fun _ => "3/19/2022, 10:05:32 AM")
                   stardewRun))
  = [Exec CLI.tasklistCommand]
  \/ exists cli,
       snd (Flow.start (fun _ => "1.2 GB") (fun _ => "3/19/2022, 10:05:32 AM") stardewRun)
       = Flow.Completed /\
       Flow.commandMade cli = true /\
       executed (fst (Flow.start (fun _ => "1.2 GB") (fun _ => "3/19/2022, 10:05:32 AM")
                        stardewRun))
       = [ Exec CLI.tasklistCommand; Exec (clipboardCommand cli);
           Exec "start steam://open/console" ].
Proof.
  apply (proj2 (start_executes (fun _ => "1.2 GB") (fun _ => "3/19/2022, 10:05:32 AM")
                  stardewRun)).
  reflexivity.
Defined.
